(** * BA21_BOM: the BOM reconciliation engine of [bom.py]

    A shallow embedding of [BOMProcessor] (matching, cleaning, column
    projection, grouped sheets and the cross-sheet validator) together with
    the properties of it that the design document states.

    Layout: Python values and strings, then the pandas and openpyxl
    operations the program calls, then the methods of [BOMProcessor] in
    source order, then the lemmas and theorems. *)

From Stdlib Require Import ZArith QArith List String Ascii Bool Lia.
From Stdlib Require Import DecimalString Permutation Sorted.
From Stdlib Require DecimalPos DecimalNat.
Import ListNotations.

Local Open Scope Z_scope.
Local Open Scope nat_scope.
Local Open Scope list_scope.
Local Open Scope string_scope.

(* ================================================================= *)
(** ** Exceptions and the error monad *)

(** The exceptions [bom.py] can let escape.  The program never catches
    inside [match_data] and [clean_data], so a raised exception ends the
    method. *)
Inductive exn : Type :=
| KeyError (key : string)
| ValueError (msg : string)
| TypeError (msg : string)
| AttributeError (msg : string)
| OverflowError (msg : string).

Inductive result (A : Type) : Type :=
| Ok (a : A)
| Raise (e : exn).
Arguments Ok {A} a.
Arguments Raise {A} e.

Definition bind {A B : Type} (m : result A) (k : A -> result B) : result B :=
  match m with
  | Ok a => k a
  | Raise e => Raise e
  end.

Notation "x <- m ;; k" := (bind m (fun x => k))
  (at level 61, m at next level, right associativity).

(** A Python [for] statement whose body updates the local state [S]. *)
Fixpoint for_each {A S : Type} (body : A -> S -> result S)
    (xs : list A) (s : S) : result S :=
  match xs with
  | [] => Ok s
  | x :: xs' => s' <- body x s ;; for_each body xs' s'
  end.

(** [.apply(f)] over the cells of a column: the first exception ends it. *)
Fixpoint map_result {A B : Type} (f : A -> result B) (xs : list A)
    : result (list B) :=
  match xs with
  | [] => Ok []
  | x :: xs' => y <- f x ;; ys <- map_result f xs' ;; Ok (y :: ys)
  end.

(* ================================================================= *)
(** ** Python strings

    Text is kept as its UTF-8 bytes.  White space is Python's, with the
    characters beyond ASCII recognised by their encoding; the case
    mapping and the digit test are Python's on the ASCII letters and
    digits, which is what the column names and the guards of the program
    are written with. *)

Module PyStr.

(** [str.isspace] on the ASCII range: TAB, LF, VT, FF, CR, the four
    separators 0x1c..0x1f, and the blank. *)
Definition is_space (a : ascii) : bool :=
  let n := nat_of_ascii a in
  ((9 <=? n) && (n <=? 13) || (28 <=? n) && (n <=? 32))%nat.

Definition is_digit (a : ascii) : bool :=
  let n := nat_of_ascii a in ((48 <=? n) && (n <=? 57))%nat.

Definition upper_char (a : ascii) : ascii :=
  let n := nat_of_ascii a in
  if ((97 <=? n) && (n <=? 122))%nat then ascii_of_nat (n - 32) else a.

Definition lower_char (a : ascii) : ascii :=
  let n := nat_of_ascii a in
  if ((65 <=? n) && (n <=? 90))%nat then ascii_of_nat (n + 32) else a.

Fixpoint map_chars (f : ascii -> ascii) (s : string) : string :=
  match s with
  | EmptyString => EmptyString
  | String a s' => String (f a) (map_chars f s')
  end.

Definition upper : string -> string := map_chars upper_char.
Definition lower : string -> string := map_chars lower_char.

Definition is_empty (s : string) : bool :=
  match s with EmptyString => true | _ => false end.

(** The white space beyond ASCII, by its UTF-8 bytes: U+0085 and U+00A0
    take two bytes, U+1680, U+2000..U+200A, U+2028, U+2029, U+202F,
    U+205F and U+3000 take three. *)
Definition is_space2 (a b : ascii) : bool :=
  let x := nat_of_ascii a in
  let y := nat_of_ascii b in
  ((x =? 194) && ((y =? 133) || (y =? 160)))%nat.

Definition is_space3 (a b c : ascii) : bool :=
  let x := nat_of_ascii a in
  let y := nat_of_ascii b in
  let z := nat_of_ascii c in
  ((x =? 225) && (y =? 154) && (z =? 128)
   || (x =? 226) && (y =? 128)
      && ((128 <=? z) && (z <=? 138) || (z =? 168) || (z =? 169) || (z =? 175))
   || (x =? 226) && (y =? 129) && (z =? 159)
   || (x =? 227) && (y =? 128) && (z =? 128))%nat.

(** [s.lstrip()] *)
Fixpoint lstrip (s : string) : string :=
  match s with
  | EmptyString => EmptyString
  | String a s1 =>
      if is_space a then lstrip s1
      else
        match s1 with
        | EmptyString => s
        | String b s2 =>
            if is_space2 a b then lstrip s2
            else
              match s2 with
              | EmptyString => s
              | String c s3 => if is_space3 a b c then lstrip s3 else s
              end
        end
  end.

(** [s.rstrip()]: what is left of a tail that is white space throughout
    is nothing. *)
Fixpoint rstrip (s : string) : string :=
  match s with
  | EmptyString => EmptyString
  | String a s' =>
      if is_empty (lstrip (String a s')) then EmptyString
      else String a (rstrip s')
  end.

(** [s.strip()] *)
Definition strip (s : string) : string := rstrip (lstrip s).

(** [needle in hay] *)
Fixpoint contains (needle hay : string) : bool :=
  prefix needle hay ||
  match hay with
  | EmptyString => false
  | String _ hay' => contains needle hay'
  end.

Fixpoint all_chars (p : ascii -> bool) (s : string) : bool :=
  match s with
  | EmptyString => true
  | String a s' => p a && all_chars p s'
  end.

Fixpoint any_char (p : ascii -> bool) (s : string) : bool :=
  match s with
  | EmptyString => false
  | String a s' => p a || any_char p s'
  end.

(** [s.isdigit()]: at least one character and all of them digits. *)
Definition isdigit (s : string) : bool :=
  negb (is_empty s) && all_chars is_digit s.

(** [s.replace(c, '')] for a one-character [c]. *)
Fixpoint remove_char (c : ascii) (s : string) : string :=
  match s with
  | EmptyString => EmptyString
  | String a s' =>
      if Ascii.eqb a c then remove_char c s' else String a (remove_char c s')
  end.

(** [s.replace(c, d)] for one-character [c] and [d]. *)
Definition replace_char (c d : ascii) : string -> string :=
  map_chars (fun a => if Ascii.eqb a c then d else a).

(** [s[:n]] *)
Fixpoint take (n : nat) (s : string) : string :=
  match n, s with
  | S n', String a s' => String a (take n' s')
  | _, _ => EmptyString
  end.

(** [str(n)] for an [int]. *)
Definition of_Z (n : Z) : string := NilZero.string_of_int (Z.to_int n).
Definition of_nat (n : nat) : string := NilZero.string_of_uint (Nat.to_uint n).

End PyStr.

(* ================================================================= *)
(** ** Python values held by spreadsheet cells *)

Module Py.
Import PyStr.

(** What [pandas.read_excel(..., keep_default_na=False)], [openpyxl]
    and the later stages put in a cell.  A [float] is carried by its
    exact rational value (every finite binary float is one); [CNaN]
    stands for the float [nan] and for [NaT]; [CNone] is [None], which
    [openpyxl] returns for an empty cell; a [datetime], [date] or
    [Timestamp] is carried by its [isoformat()] text.  Infinite floats
    are left out. *)
Inductive cell : Type :=
| CStr (s : string)
| CInt (n : Z)
| CFloat (q : Q)
| CNaN
| CBool (b : bool)
| CDate (iso : string)
| CNone.

Definition digit_char (d : Z) : ascii := ascii_of_nat (48 + Z.to_nat d).

Fixpoint frac_digits (fuel : nat) (r d : Z) : string :=
  match fuel with
  | O => EmptyString
  | S fuel' =>
      let r10 := (r * 10)%Z in
      String (digit_char (r10 / d))
        (if (r10 mod d =? 0)%Z then EmptyString
         else frac_digits fuel' (r10 mod d) d)
  end.

(** [repr] of a finite float in positional notation: the integer part, a
    point and the fractional digits (at least one, at most 17).  It is
    Python's text for the floats whose decimal expansion is that short
    ([2.0], [12.5], [0.25]); Python rounds the longer ones to the shortest
    text that reads back. *)
Definition float_repr (q : Q) : string :=
  let n := Qnum q in
  let d := Zpos (Qden q) in
  let a := Z.abs n in
  (if (n <? 0)%Z then "-" else "") ++ of_Z (a / d) ++ "." ++
  frac_digits 17 (a mod d) d.

(** [str(x)] *)
Definition str (x : cell) : string :=
  match x with
  | CStr s => s
  | CInt n => of_Z n
  | CFloat q => float_repr q
  | CNaN => "nan"
  | CBool true => "True"
  | CBool false => "False"
  | CDate iso => replace_char "T" " " iso
  | CNone => "None"
  end.

(** [bool(x)]: the empty string, zero, [False] and [None] are falsy;
    [nan] and dates are truthy. *)
Definition truthy (x : cell) : bool :=
  match x with
  | CStr s => negb (is_empty s)
  | CInt n => negb (n =? 0)%Z
  | CFloat q => negb (Qeq_bool q 0)
  | CNaN => true
  | CBool b => b
  | CDate _ => true
  | CNone => false
  end.

(** The number a numeric value stands for ([True] is 1, [False] is 0). *)
Definition as_number (x : cell) : option Q :=
  match x with
  | CInt n => Some (inject_Z n)
  | CFloat q => Some q
  | CBool b => Some (if b then 1%Q else 0%Q)
  | _ => None
  end.

(** [a == b], which is also what the element-wise comparison of a column
    with a scalar computes: text equals text, numbers are compared by
    value across [int], [float] and [bool], [nan] and [None] equal
    nothing, and text never equals a number. *)
Definition equals (a b : cell) : bool :=
  match a, b with
  | CStr s, CStr t => String.eqb s t
  | CDate s, CDate t => String.eqb s t
  | _, _ =>
      match as_number a, as_number b with
      | Some x, Some y => Qeq_bool x y
      | _, _ => false
      end
  end.

(** *** [float]: the nearest binary64

    [float] of an [int] or of decimal text is the binary64 nearest to the
    exact value: 53 significant bits, ties to the even significand, the
    exponent no lower than that of the subnormal floats.  A result of
    [2^1024] or more is infinite. *)

(** The integer nearest to [n / d], ties to the even one, for [0 <= n]
    and [0 < d]. *)
Definition round_half_even (n d : Z) : Z :=
  let q := (n / d)%Z in
  let r := (n mod d)%Z in
  match (2 * r ?= d)%Z with
  | Lt => q
  | Gt => (q + 1)%Z
  | Eq => if Z.even q then q else (q + 1)%Z
  end.

(** [floor (log2 (a / b))] for [0 < a] and [0 < b]. *)
Definition floor_log2 (a b : Z) : Z :=
  let l := (Z.log2 a - Z.log2 b)%Z in
  if (0 <=? l)%Z
  then (if (b * 2 ^ l <=? a)%Z then l else l - 1)%Z
  else (if (b <=? a * 2 ^ (- l))%Z then l else l - 1)%Z.

(** The float nearest to a rational, [None] when it is infinite. *)
Definition nearest_double (q : Q) : option Q :=
  let a := Z.abs (Qnum q) in
  let b := Zpos (Qden q) in
  if (a =? 0)%Z then Some 0%Q
  else
    let e := Z.max (floor_log2 a b - 52) (-1074) in
    let m := if (0 <=? e)%Z then round_half_even a (b * 2 ^ e)
             else round_half_even (a * 2 ^ (- e)) b in
    if (m =? 0)%Z then Some 0%Q
    else if (1024 <=? Z.log2 m + e)%Z then None
    else
      let sm := (Z.sgn (Qnum q) * m)%Z in
      Some (if (0 <=? e)%Z then inject_Z (sm * 2 ^ e)
            else Qmake sm (Z.to_pos (2 ^ (- e)))).

(** [pd.isna(x)] *)
Definition isna (x : cell) : bool :=
  match x with CNaN | CNone => true | _ => false end.

(** A [dict] with [str] keys: insertion-ordered, one binding per key. *)
Definition dict : Type := list (string * cell).

Fixpoint dict_get (k : string) (d : dict) : option cell :=
  match d with
  | [] => None
  | (k', v) :: d' => if String.eqb k k' then Some v else dict_get k d'
  end.

(** [d[k] = v]: an existing key keeps its place, a new one goes last. *)
Fixpoint dict_set (d : dict) (k : string) (v : cell) : dict :=
  match d with
  | [] => [(k, v)]
  | (k', v') :: d' =>
      if String.eqb k k' then (k', v) :: d' else (k', v') :: dict_set d' k v
  end.

(** [{**a, **b}] *)
Definition dict_merge (a b : dict) : dict :=
  fold_left (fun acc kv => dict_set acc (fst kv) (snd kv)) b a.

(** [dict(zip(keys, values))], also [Series.to_dict()]. *)
Definition dict_zip (keys : list string) (values : list cell) : dict :=
  dict_merge [] (combine keys values).

Definition dict_keys (d : dict) : list string := map fst d.

End Py.

(* ================================================================= *)
(** ** The pandas operations the program calls *)

Module Pandas.
Import PyStr Py.

(** *** Data frames with typed columns and index labels *)

Inductive dtype : Type := object | int64 | float64 | bool_ | datetime64.

Definition dtype_eqb (a b : dtype) : bool :=
  match a, b with
  | object, object | int64, int64 | float64, float64
  | bool_, bool_ | datetime64, datetime64 => true
  | _, _ => false
  end.

Record Series : Type := MkSeries {
  name : string;
  dtype_of : dtype;
  values : list cell
}.

(** [index] holds the row labels; the i-th cell of every column belongs
    to the i-th label. *)
Record DataFrame : Type := MkFrame {
  index : list nat;
  series : list Series
}.

Definition column_names (df : DataFrame) : list string :=
  map name (series df).

Definition has_column (df : DataFrame) (c : string) : bool :=
  existsb (String.eqb c) (column_names df).

(** [df[c]] for a header without repeats. *)
Definition column (df : DataFrame) (c : string) : option Series :=
  find (fun s => String.eqb c (name s)) (series df).

Definition is_str (x : cell) : bool :=
  match x with CStr _ => true | _ => false end.
Definition is_int (x : cell) : bool :=
  match x with CInt _ => true | _ => false end.
Definition is_float (x : cell) : bool :=
  match x with CFloat _ | CNaN => true | _ => false end.
Definition is_bool (x : cell) : bool :=
  match x with CBool _ => true | _ => false end.
Definition is_date (x : cell) : bool :=
  match x with CDate _ | CNaN => true | _ => false end.

Definition is_none (x : cell) : bool :=
  match x with CNone => true | _ => false end.

(** A cell as a typed column stores it: an [int] as a float in a float
    column, [None] as [nan] or [NaT]. *)
Definition to_float (x : cell) : cell :=
  match x with
  | CInt n => CFloat (inject_Z n)
  | CNone => CNaN
  | _ => x
  end.

(** The dtype pandas infers for a column of Python objects, with the
    cells as stored under it: all [bool] gives [bool]; all [int] gives
    [int64]; numbers with a [float] or a missing value give [float64]
    (the ints stored as floats, [None] as [nan]); dates, with or without
    missing values, give [datetime64]; anything else stays [object], a
    column of nothing but [None] included. *)
Definition infer (vs : list cell) : dtype * list cell :=
  match vs with
  | [] => (object, vs)
  | _ =>
      if forallb is_bool vs then (bool_, vs)
      else if forallb is_int vs then (int64, vs)
      else if forallb (fun x => is_int x || is_float x || is_none x) vs
              && negb (forallb is_none vs)
      then (float64, map to_float vs)
      else if forallb (fun x => is_date x || is_none x) vs
              && negb (forallb is_none vs)
      then (datetime64, map to_float vs)
      else (object, vs)
  end.

(** *** Tables as [read_excel] returns them

    [match_data] walks the weld table with [iterrows] and reads the detail
    table row by row, so both are kept as their header and their rows.
    [read_excel] renames repeated headers, so the header has no repeats,
    and every row has one cell per header. *)
Record table : Type := Table {
  columns : list string;
  rows : list (list cell)
}.

(** The dtypes of the columns of a table. *)
Definition column_dtypes (t : table) : list dtype :=
  map (fun j => fst (infer (map (fun r => nth j r CNaN) (rows t))))
    (seq 0 (List.length (columns t))).

(** A row read as a Series takes one dtype for all its values: when
    every column is [int64] or [float64] and both occur, the ints of the
    row are read as floats. *)
Definition upcast (dtypes : list dtype) : bool :=
  forallb (fun d => dtype_eqb d int64 || dtype_eqb d float64) dtypes
  && existsb (dtype_eqb int64) dtypes
  && existsb (dtype_eqb float64) dtypes.

(** [row.to_dict()] for a row that [iterrows] or [iloc] gave. *)
Definition row_dict (t : table) (r : list cell) : dict :=
  dict_zip (columns t)
    (if upcast (column_dtypes t) then map to_float r else r).

(** [row[col]] *)
Definition getitem (d : dict) (col : string) : result cell :=
  match dict_get col d with
  | Some v => Ok v
  | None => Raise (KeyError col)
  end.

(** [df[df[col] == key]]: the rows whose cell under [col] equals [key], in
    input order. *)
Definition rows_where_eq (t : table) (col : string) (key : cell)
    : list (list cell) :=
  filter (fun r => match dict_get col (row_dict t r) with
                   | Some v => equals v key
                   | None => false
                   end) (rows t).

(** A column built from the results of [Series.apply] or handed to
    [infer_objects]. *)
Definition infer_series (nm : string) (vs : list cell) : Series :=
  MkSeries nm (fst (infer vs)) (snd (infer vs)).

(** [df.infer_objects()]: only [object] columns are looked at again. *)
Definition infer_objects (df : DataFrame) : DataFrame :=
  MkFrame (index df)
    (map (fun s => match dtype_of s with
                   | object => infer_series (name s) (values s)
                   | _ => s
                   end) (series df)).

(** [pd.DataFrame(records)] for a list of dicts: the columns are the keys
    in order of first appearance, a key a record lacks reads [nan], the
    labels are 0, 1, 2, ... *)
Definition union_keys (records : list dict) : list string :=
  fold_left (fun acc d =>
    fold_left (fun acc' k =>
      if existsb (String.eqb k) acc' then acc' else (acc' ++ [k])%list)
      (dict_keys d) acc) records [].

Definition DataFrame_of_records (records : list dict) : DataFrame :=
  MkFrame (seq 0 (List.length records))
    (map (fun k =>
       infer_series k
         (map (fun d => match dict_get k d with
                        | Some v => v
                        | None => CNaN
                        end) records))
       (union_keys records)).

(** [df.drop(columns=cs, errors='ignore')] *)
Definition drop_columns (cs : list string) (df : DataFrame) : DataFrame :=
  MkFrame (index df)
    (filter (fun s => negb (existsb (String.eqb (name s)) cs)) (series df)).

(** Keep the entries of [xs] whose flag in [mask] is set. *)
Fixpoint select {A : Type} (mask : list bool) (xs : list A) : list A :=
  match mask, xs with
  | m :: mask', x :: xs' => if m then x :: select mask' xs' else select mask' xs'
  | _, _ => []
  end.

Fixpoint zip_with {A B C : Type} (f : A -> B -> C)
    (xs : list A) (ys : list B) : list C :=
  match xs, ys with
  | x :: xs', y :: ys' => f x y :: zip_with f xs' ys'
  | _, _ => []
  end.

(** For each row position, whether every cell of the row is missing. *)
Definition all_na_rows (df : DataFrame) : list bool :=
  fold_left (fun acc s => zip_with andb acc (map isna (values s)))
    (series df) (map (fun _ => true) (index df)).

(** [df.dropna(how='all')]: rows of missing values only go, and the rows
    that stay keep their labels. *)
Definition dropna_rows (df : DataFrame) : DataFrame :=
  let keep := map negb (all_na_rows df) in
  MkFrame (select keep (index df))
    (map (fun s => MkSeries (name s) (dtype_of s) (select keep (values s)))
       (series df)).

(** [df.dropna(axis=1, how='all')] *)
Definition dropna_columns (df : DataFrame) : DataFrame :=
  MkFrame (index df)
    (filter (fun s => negb (forallb isna (values s))) (series df)).

(** [df.loc[:, ~df.columns.duplicated()]]: the first column of each name. *)
Fixpoint first_of_each (seen : list string) (ss : list Series) : list Series :=
  match ss with
  | [] => []
  | s :: ss' =>
      if existsb (String.eqb (name s)) seen then first_of_each seen ss'
      else s :: first_of_each (name s :: seen) ss'
  end.

Definition drop_duplicated_columns (df : DataFrame) : DataFrame :=
  MkFrame (index df) (first_of_each [] (series df)).

(** The [.str] accessor of an [object] column is refused when the values
    present are all numbers, all booleans or all dates; it is granted when
    there is text among them, when the kinds are mixed, and when nothing
    is present. *)
Definition str_accessor_ok (vs : list cell) : bool :=
  let present := filter (fun x => negb (isna x)) vs in
  match present with
  | [] => true
  | _ =>
      negb (forallb (fun x => is_int x || is_float x) present
            || forallb is_bool present
            || forallb is_date present)
  end.

(** [x.str.strip()]: text is trimmed, and a value that is not text comes
    back missing. *)
Definition str_strip (s : Series) : result Series :=
  if str_accessor_ok (values s) then
    Ok (MkSeries (name s) object
          (map (fun x => match x with
                         | CStr t => CStr (strip t)
                         | _ => CNaN
                         end) (values s)))
  else Raise (AttributeError "Can only use .str accessor with string values!").

(** [df.fillna('')]: a column that had a missing value becomes [object]. *)
Definition fillna_empty (df : DataFrame) : DataFrame :=
  MkFrame (index df)
    (map (fun s =>
       if existsb isna (values s)
       then MkSeries (name s) object
              (map (fun x => if isna x then CStr "" else x) (values s))
       else s) (series df)).

(** [df[col] = df[col].apply(f)] *)
Definition apply_column (f : cell -> result cell) (s : Series) : result Series :=
  vs <- map_result f (values s) ;;
  Ok (match vs with
      | [] => s
      | _ => infer_series (name s) vs
      end).

(** [df[cols]] for a header without repeats. *)
Definition select_columns (cs : list string) (df : DataFrame) : DataFrame :=
  MkFrame (index df)
    (flat_map (fun c => match column df c with
                        | Some s => [s]
                        | None => []
                        end) cs).

(** The cell of the row labelled [i] under column [c]. *)
Fixpoint position_of (i : nat) (labels : list nat) : option nat :=
  match labels with
  | [] => None
  | l :: labels' =>
      if Nat.eqb i l then Some 0
      else option_map S (position_of i labels')
  end.

Definition at_label (df : DataFrame) (i : nat) (c : string) : cell :=
  match position_of i (index df), column df c with
  | Some p, Some s => nth p (values s) CNaN
  | _, _ => CNaN
  end.

End Pandas.

(* ================================================================= *)
(** ** [class BOMProcessor] *)

Module BOMProcessor.
Import PyStr Py Pandas.

(** *** [__init__] *)

Definition group_columns : list string :=
  ["MATNO"; "STEEL NO"; "NESTING DWG"; "Grade"; "T"].

Definition column_order : list string :=
  ["WELD UNIQUE ID"; "BLOCK"; "FILENAME"; "DWG. Title"; "MOD. NO";
   "DETAIL VIEW"; "MATNO"; "STEEL NO"; "NESTING DWG"; "Grade";
   "OFF"; "WLEG"; "WELD. LENG."; "SIDE"; "WNO"; "P. NO";
   "ea"; "total"; "T"; "B"; "L(OD)"; "WEIGHT"; "MIX"; "no";
   "TPYE"; "WORKSCOPE"; "REV1"].

Definition exclude_columns : list string :=
  ["MATNO1"; "MATNO2"; "MATNO3"; "MATNO4"; "MATNO5"; "MATNO6"; "MOD";
   "_matched"].

Definition mem (c : string) (cs : list string) : bool :=
  existsb (String.eqb c) cs.

(** *** [detect_weld_file] and the column search of [match_data] *)

(** ['WELD' in str(col).upper() and 'UNIQUE' in str(col).upper()] *)
Definition is_weld_id_col (col : string) : bool :=
  contains "WELD" (upper col) && contains "UNIQUE" (upper col).

(** ['MATNO' in str(col).upper() and any(c.isdigit() for c in str(col))] *)
Definition is_matno_slot_col (col : string) : bool :=
  contains "MATNO" (upper col) && any_char is_digit col.

Definition detect_weld_file (cols : list string) : bool :=
  existsb is_weld_id_col cols &&
  (2 <=? List.length (filter is_matno_slot_col cols))%nat.

Definition find_weld_id_col (weld : table) : option string :=
  find is_weld_id_col (columns weld).

Definition matno_columns (weld : table) : list string :=
  filter is_matno_slot_col (columns weld).

Definition find_detail_matno_col (detail : table) : option string :=
  find (fun col => String.eqb (upper col) "MATNO") (columns detail).

(** *** [load_files] *)

(** The two attributes [load_files] sets, [None] until a file is
    chosen. *)
Record loader : Type := Loader {
  weld_file : option string;
  detail_file : option string
}.

(** The truth value of an attribute: a file was chosen and its name is
    not empty. *)
Definition is_set (f : option string) : bool :=
  match f with
  | Some s => negb (is_empty s)
  | None => false
  end.

(** [sorted(excel_files, key=lambda x: '260130' in x, reverse=True)]; the
    sort is stable, also when reversed. *)
Definition priority_files (excel_files : list string) : list string :=
  (filter (contains "260130") excel_files ++
   filter (fun x => negb (contains "260130" x)) excel_files)%list.

Section Loader.
(** [pd.read_excel(file, nrows=0).columns], each as [str] gives it;
    [None] when reading raises. *)
Variable read_head : string -> option (list string).

(** The body of the loop over the files. *)
Definition load_step (st : loader) (file : string) : loader :=
  match read_head file with
  | Some cols =>
      if detect_weld_file cols && negb (is_set (weld_file st)) then
        Loader (Some file) (detail_file st)
      else if mem "MATNO" (map upper cols) && negb (is_set (detail_file st))
      then Loader (weld_file st) (Some file)
      else st
  | None => st
  end.

(** The two assignments taken when a file is still not chosen after the
    loop. *)
Definition fall_back (priority : list string) (st : loader) : loader :=
  if negb (is_set (weld_file st)) || negb (is_set (detail_file st)) then
    let st1 :=
      match priority with
      | first :: _ =>
          if negb (is_set (weld_file st))
          then Loader (Some first) (detail_file st) else st
      | [] => st
      end in
    match priority with
    | _ :: second :: _ =>
        if negb (is_set (detail_file st1))
        then Loader (weld_file st1) (Some second) else st1
    | _ => st1
    end
  else st.

(** [load_files] on the files [find_excel_files] returned: [None] for
    [False], else the attributes as they are left. *)
Definition load_files (excel_files : list string) : option loader :=
  if (List.length excel_files <? 2)%nat then None
  else
    let priority := priority_files excel_files in
    Some (fall_back priority
            (fold_left load_step priority (Loader None None))).
End Loader.

(** *** [match_data] *)

(** The locals the matching loop updates. *)
Record match_state : Type := MatchState {
  results : list dict;
  matched : nat;
  missing : nat
}.

Definition append_result (st : match_state) (row : dict) (hit : bool)
    : match_state :=
  MatchState (results st ++ [row])%list
    (if hit then S (matched st) else matched st)
    (if hit then missing st else S (missing st)).

(** [matno and str(matno).strip()] *)
Definition slot_is_filled (matno : cell) : bool :=
  truthy matno && negb (is_empty (strip (str matno))).

(** The body of the inner loop, for one reference-slot column.  With no
    detail key column the subscript [detail_df[None]] raises. *)
Definition match_slot (detail : table) (detail_matno_col : option string)
    (weld_row : dict) (matno_col : string) (st : match_state)
    : result match_state :=
  matno <- getitem weld_row matno_col ;;
  if slot_is_filled matno then
    match detail_matno_col with
    | None => Raise (KeyError "None")
    | Some dcol =>
        match rows_where_eq detail dcol matno with
        | detail_row :: _ =>
            let result_row := dict_merge weld_row (row_dict detail detail_row) in
            Ok (append_result st
                  (dict_set result_row "_matched" (CBool true)) true)
        | [] =>
            let result_row := dict_set weld_row dcol matno in
            Ok (append_result st
                  (dict_set result_row "_matched" (CBool false)) false)
        end
    end
  else Ok st.

(** The body of the outer loop, for one weld row. *)
Definition match_row (weld detail : table) (r : list cell) (st : match_state)
    : result match_state :=
  for_each (match_slot detail (find_detail_matno_col detail) (row_dict weld r))
    (matno_columns weld) st.

(** What [match_data] leaves behind: the three values it prints after the
    column search, and the locals of the loop. *)
Record match_report : Type := MatchReport {
  weld_id_col : option string;
  n_matno_columns : nat;
  detail_matno_col : option string;
  final : match_state
}.

Definition match_data (weld detail : table) : result match_report :=
  st <- for_each (match_row weld detail) (rows weld) (MatchState [] 0 0) ;;
  Ok (MatchReport (find_weld_id_col weld)
        (List.length (matno_columns weld))
        (find_detail_matno_col detail) st).

(** [self.result_df] *)
Definition result_df (rep : match_report) : DataFrame :=
  DataFrame_of_records (results (final rep)).

(** *** [clean_data] *)

(** [int(x)] of a float: towards zero. *)
Definition trunc (q : Q) : Z := Z.quot (Qnum q) (Zpos (Qden q)).

(** Step 4, the function applied to every cell.  An [int] is returned as
    it is by either branch that can take it. *)
Definition clean_cell (x : cell) : cell :=
  if String.eqb (lower (str x)) "nan" || isna x then CStr ""
  else match x with
       | CDate iso => CStr iso
       | CFloat q =>
           if Qeq_bool q (inject_Z (trunc q)) then CInt (trunc q)
           else CStr (str x)
       | _ => x
       end.

Definition digit_value (a : ascii) : Z := Z.of_nat (nat_of_ascii a - 48).

Fixpoint digits_value (acc : Z) (s : string) : Z :=
  match s with
  | EmptyString => acc
  | String a s' => digits_value (acc * 10 + digit_value a)%Z s'
  end.

(** The text before the first point, and the text after it if there is
    one. *)
Fixpoint split_point (s : string) : string * option string :=
  match s with
  | EmptyString => (EmptyString, None)
  | String a s' =>
      if Ascii.eqb a "." then (EmptyString, Some s')
      else let (i, f) := split_point s' in (String a i, f)
  end.

(** The number that text of digits with a point stands for: [ip] before
    the point, [fp] after it. *)
Definition decimal_value (neg : bool) (ip fp : string) : Q :=
  let k := Z.of_nat (String.length fp) in
  let n := (digits_value 0 ip * 10 ^ k + digits_value 0 fp)%Z in
  Qmake (if neg then - n else n)%Z (Z.to_pos (10 ^ k)).

(** [int(float(s))] for text made of digits, points and dashes, which is
    all the guard of step 5 lets through: one optional leading dash, then
    digits with at most one point and at least one digit; anything else is
    [ValueError].  The number is rounded to the nearest float and then
    cut towards zero; text beyond the range of the floats reads as
    infinity, which [int] refuses. *)
Definition int_of_float_text (s : string) : result Z :=
  let (neg, body) :=
    match s with
    | String "-" s' => (true, s')
    | _ => (false, s)
    end in
  let (ip, fp) := split_point body in
  let fp' := match fp with Some f => f | None => EmptyString end in
  if all_chars is_digit ip && all_chars is_digit fp'
     && negb (is_empty ip && is_empty fp')
  then
    match nearest_double (decimal_value neg ip fp') with
    | Some x => Ok (trunc x)
    | None => Raise (OverflowError "cannot convert float infinity to integer")
    end
  else Raise (ValueError ("could not convert string to float: '" ++ s ++ "'")).

(** [int(float(x))]: an [int] goes through the nearest float too, and
    one beyond the range of the floats is refused. *)
Definition int_of_float (x : cell) : result Z :=
  match x with
  | CStr s => int_of_float_text s
  | CInt n =>
      match nearest_double (inject_Z n) with
      | Some x => Ok (trunc x)
      | None => Raise (OverflowError "int too large to convert to float")
      end
  | CFloat q => Ok (trunc q)
  | CBool b => Ok (if b then 1 else 0)%Z
  | CNaN => Raise (ValueError "cannot convert float NaN to integer")
  | CDate _ | CNone =>
      Raise (TypeError "float() argument must be a string or a number")
  end.

Fixpoint zeros (n : nat) : string :=
  match n with O => EmptyString | S n' => String "0" (zeros n') end.

(** [f"{n:03d}"]: padded with zeros to three characters, sign included. *)
Definition format_03d (n : Z) : string :=
  let digits := of_Z (Z.abs n) in
  if (n <? 0)%Z
  then "-" ++ zeros (2 - String.length digits) ++ digits
  else zeros (3 - String.length digits) ++ digits.

(** Step 5, the function applied to every cell of [WNO]. *)
Definition format_wno (x : cell) : result cell :=
  if negb (is_empty (strip (str x)))
     && isdigit (remove_char "-" (remove_char "." (str x)))
  then n <- int_of_float x ;; Ok (CStr (format_03d n))
  else Ok x.

Definition clean_data (df : DataFrame) : result DataFrame :=
  (* 1 *)
  let df1 := dropna_columns (dropna_rows df) in
  (* 2 *)
  let df2 := drop_duplicated_columns df1 in
  (* 3 *)
  stripped <- map_result (fun x =>
      if dtype_eqb (dtype_of x) object then str_strip x else Ok x)
    (series df2) ;;
  let df3 := fillna_empty (MkFrame (index df2) stripped) in
  (* 4 *)
  cleaned <- map_result (apply_column (fun x => Ok (clean_cell x)))
    (series df3) ;;
  (* 5 *)
  formatted <- map_result (fun s =>
      if String.eqb (name s) "WNO" then apply_column format_wno s else Ok s)
    cleaned ;;
  Ok (infer_objects (MkFrame (index df3) formatted)).

(** *** [reorder_columns] *)

Definition reorder_columns (df : DataFrame) : DataFrame :=
  let existing_cols :=
    filter (fun col => negb (mem col exclude_columns)) (column_names df) in
  let ordered_cols := filter (fun col => mem col existing_cols) column_order in
  let remaining_cols :=
    filter (fun col => negb (mem col ordered_cols)
                       && negb (mem col exclude_columns)) existing_cols in
  select_columns (ordered_cols ++ remaining_cols)%list df.

(** *** [option2_excel_with_charts] *)

(** A worksheet is its rows from row 1 down, each row its cells from
    column A on.  A cell whose value is text starting with [=] is a
    formula. *)
Definition sheet : Type := list (list cell).
Definition workbook : Type := list (string * sheet).

Definition is_formula (x : cell) : bool :=
  match x with
  | CStr s => prefix "=" s
  | _ => false
  end.

(** [openpyxl.utils.get_column_letter], for the one- to three-letter
    columns 1..18278 a worksheet can have. *)
Fixpoint column_letters (fuel n : nat) : string :=
  match fuel with
  | O => EmptyString
  | S fuel' =>
      if Nat.eqb n 0 then EmptyString
      else column_letters fuel' ((n - 1) / 26) ++
           String (ascii_of_nat (65 + (n - 1) mod 26)) EmptyString
  end.

Definition get_column_letter (c_idx : nat) : string := column_letters 3 c_idx.

(** The i-th row of the frame by position. *)
Definition row_at (df : DataFrame) (p : nat) : list cell :=
  map (fun s => nth p (values s) CNaN) (series df).

(** [df.to_excel(writer, sheet_name=..., index=False)]: the header in
    row 1, then the rows in the order they have in the frame. *)
Definition to_excel (df : DataFrame) : sheet :=
  map CStr (column_names df)
  :: map (row_at df) (seq 0 (List.length (index df))).

(** [x.astype(str).str.strip() != ''] on one cell. *)
Definition nonblank (x : cell) : bool := negb (is_empty (strip (str x))).

(** [clean_df[clean_df[group_col].astype(str).str.strip() != ''].index.tolist()] *)
Definition filtered_indices (clean_df : DataFrame) (group_col : string)
    : list nat :=
  match column clean_df group_col with
  | Some s =>
      map fst (filter (fun lv => nonblank (snd lv))
                 (combine (index clean_df) (values s)))
  | None => []
  end.

Definition sort_cols (clean_df : DataFrame) (group_col : string)
    : list string :=
  group_col ::
  filter (fun sc => has_column clean_df sc && negb (String.eqb sc group_col))
    group_columns.

(** The order [sort_values] puts cells in: numbers by value, then dates,
    then text by code point, and missing values last. *)
Fixpoint str_leb (s t : string) : bool :=
  match s, t with
  | EmptyString, _ => true
  | String _ _, EmptyString => false
  | String a s', String b t' =>
      let x := nat_of_ascii a in
      let y := nat_of_ascii b in
      if (x <? y)%nat then true
      else if (y <? x)%nat then false
      else str_leb s' t'
  end.

Definition sort_rank (x : cell) : nat :=
  match x with
  | CInt _ | CFloat _ | CBool _ => 0
  | CDate _ => 1
  | CStr _ => 2
  | CNaN | CNone => 3
  end.

Definition cell_leb (a b : cell) : bool :=
  match a, b with
  | CStr s, CStr t => str_leb s t
  | CDate s, CDate t => str_leb s t
  | _, _ =>
      match as_number a, as_number b with
      | Some x, Some y => Qle_bool x y
      | _, _ => (sort_rank a <=? sort_rank b)%nat
      end
  end.

(** Several sort columns: the first decides, the next break its ties. *)
Fixpoint key_leb (k1 k2 : list cell) : bool :=
  match k1, k2 with
  | a :: k1', b :: k2' =>
      if negb (cell_leb b a) then true
      else if negb (cell_leb a b) then false
      else key_leb k1' k2'
  | _, _ => true
  end.

Section Sort.
Context {A : Type} (leb : A -> A -> bool).

Fixpoint insert_sorted (x : A) (xs : list A) : list A :=
  match xs with
  | [] => [x]
  | y :: xs' => if leb x y then x :: xs else y :: insert_sorted x xs'
  end.

(** A stable sort: equal keys keep their input order. *)
Fixpoint sort_by (xs : list A) : list A :=
  match xs with
  | [] => []
  | x :: xs' => insert_sorted x (sort_by xs')
  end.
End Sort.

Definition sort_key (df : DataFrame) (by_cols : list string) (i : nat)
    : list cell :=
  map (at_label df i) by_cols.

(** [<] orders numbers among themselves, dates among themselves and
    text among itself, and raises [TypeError] across these kinds.  The
    values present in a column are of mixed kinds when two of them are of
    different kinds. *)
Definition kinds_mixed (vs : list cell) : bool :=
  match filter (fun x => negb (isna x)) vs with
  | [] => false
  | x :: rest =>
      negb (forallb (fun y => Nat.eqb (sort_rank y) (sort_rank x)) rest)
  end.

Definition numbers_with_dates (vs : list cell) : bool :=
  existsb (fun x => Nat.eqb (sort_rank x) 0) vs &&
  existsb (fun x => Nat.eqb (sort_rank x) 1) vs.

(** [clean_df.loc[labels].sort_values(by=by_cols).index.tolist()]: the
    labels in the order of their rows under [by_cols], with the cell
    order above.

    A single sort column is sorted by comparing its values with [<]:
    values of mixed kinds raise [TypeError] (the message names the two
    types met first; it is kept for [str] and [int]).  Several sort
    columns are each ranked first, numbers before text, which only fails
    for a column holding numbers and dates. *)
Definition sort_values (df : DataFrame) (by_cols : list string)
    (labels : list nat) : result (list nat) :=
  let cells := fun c => map (fun i => at_label df i c) labels in
  let order :=
    sort_by (fun i j => key_leb (sort_key df by_cols i) (sort_key df by_cols j))
      labels in
  match by_cols with
  | [c] =>
      if kinds_mixed (cells c)
      then Raise (TypeError
                    "'<' not supported between instances of 'str' and 'int'")
      else Ok order
  | _ =>
      if existsb (fun c => numbers_with_dates (cells c)) by_cols
      then Raise (TypeError
                    ("'values' is not ordered, please explicitly specify " ++
                     "the categories order by passing in a categories " ++
                     "argument."))
      else Ok order
  end.

Definition sorted_indices (clean_df : DataFrame) (group_col : string)
    : result (list nat) :=
  sort_values clean_df (sort_cols clean_df group_col)
    (filtered_indices clean_df group_col).

(** [name.replace(' ', '_').replace('/', '_')[:31]] *)
Definition sheet_name_of (col : string) : string :=
  take 31 (replace_char "/" "_" (replace_char " " "_" col)).

(** [f"='전체'!{col_letter}{excel_row_num}"] *)
Definition formula (col_letter : string) (excel_row_num : nat) : string :=
  "='전체'!" ++ col_letter ++ of_nat excel_row_num.

(** The sheet of a grouping column: the header, then one row of
    formulas for each label of [sorted_indices], in that order. *)
Definition group_sheet (clean_df : DataFrame) (sorted_indices : list nat)
    : sheet :=
  map CStr (column_names clean_df)
  :: map (fun original_idx =>
            let excel_row_num := original_idx + 2 in
            map (fun c_idx =>
                   CStr (formula (get_column_letter c_idx) excel_row_num))
              (seq 1 (List.length (column_names clean_df))))
       sorted_indices.

(** The body of the loop over the grouping columns: the sheet is created
    once the sort has returned. *)
Definition write_group (clean_df : DataFrame) (group_col : string)
    (wb : workbook) : result workbook :=
  if has_column clean_df group_col then
    view <- sorted_indices clean_df group_col ;;
    Ok (wb ++ [(sheet_name_of group_col, group_sheet clean_df view)])%list
  else Ok wb.

(** The sheets written for a cleaned and reordered frame, the master
    sheet first. *)
Definition write_sheets (clean_df : DataFrame) : result workbook :=
  for_each (write_group clean_df) group_columns
    [("전체", to_excel clean_df)].

Definition option2_excel_with_charts (result_df : DataFrame)
    : result workbook :=
  cleaned <- clean_data (drop_columns ["_matched"] result_df) ;;
  write_sheets (reorder_columns cleaned).

(** [wb[name]] *)
Definition get_sheet (wb : workbook) (nm : string) : option sheet :=
  option_map snd (find (fun p => String.eqb nm (fst p)) wb).

(** The cell at a 1-based row and column of a sheet; an address outside
    what was written reads as empty. *)
Definition sheet_cell (ws : sheet) (row col : nat) : option cell :=
  match row, col with
  | S r, S c => match nth_error ws r with
                | Some cells => nth_error cells c
                | None => None
                end
  | _, _ => None
  end.

(** *** [option3_validate_json], the cross-sheet part *)

(** A sheet as loaded back with [data_only=True]: the header of row 1 and
    the rows under it, an empty cell being [None]. *)
Record loaded_sheet : Type := Loaded {
  headers : list string;
  body : list (list cell)
}.

(** [pd.DataFrame([dict(zip(headers, row)) for row in ...])]: the
    columns are typed by what they hold, so a missing cell is [nan] in a
    column of numbers and stays [None] in a column of text. *)
Definition frame_of (hs : list string) (rows_ : list (list cell)) : DataFrame :=
  DataFrame_of_records (map (dict_zip hs) rows_).

(** [len(df)] and [df.empty] *)
Definition len (df : DataFrame) : nat := List.length (index df).

Definition empty (df : DataFrame) : bool :=
  Nat.eqb (len df) 0 ||
  match series df with
  | [] => true
  | _ => false
  end.

(** [df.iloc[p]]: the row at a position, as a Series over the columns,
    its ints read as floats when the dtypes of the columns ask for it. *)
Definition iloc (df : DataFrame) (p : nat) : dict :=
  let up := upcast (map dtype_of (series df)) in
  map (fun s =>
         let v := nth p (values s) CNaN in
         (name s, if up then to_float v else v))
    (series df).

(** [df[col]] read in one row: a key the record lacks reads [nan]. *)
Definition field (r : dict) (col : string) : cell :=
  match dict_get col r with
  | Some v => v
  | None => CNaN
  end.

(** ['WELD UNIQUE ID' if 'WELD UNIQUE ID' in df_all.columns else 'MATNO'] *)
Definition key_col (df_all : DataFrame) : string :=
  if mem "WELD UNIQUE ID" (column_names df_all) then "WELD UNIQUE ID"
  else "MATNO".

(** [next((h for h in headers if ... == sheet_name), None)] *)
Definition actual_col (hs : list string) (sheet_name : string) : option string :=
  find (fun h => String.eqb (sheet_name_of h) sheet_name) hs.

(** [df_all[df_all[actual_col].astype(str).str.strip() != '']], by the
    positions of its rows; [df_all[actual_col]] raises when the frame has
    no such column, as a frame without rows has none. *)
Definition expected_df (df_all : DataFrame) (col : string)
    : result (list nat) :=
  match column df_all col with
  | Some s =>
      Ok (map fst (filter (fun pv => nonblank (snd pv))
                     (combine (seq 0 (len df_all)) (values s))))
  | None => Raise (KeyError col)
  end.

(** [[0, len(df_group)//2, len(df_group)-1]] *)
Definition sample_indices (n : nat) : list nat := [0; n / 2; n - 1].

(** [df_all[df_all[key_col] == key_val].iloc[0]], or [None] when no row
    has the key. *)
Definition resolve (df_all : DataFrame) (key : string) (key_val : cell)
    : result (option dict) :=
  match column df_all key with
  | Some s =>
      Ok (option_map (fun pv => iloc df_all (fst pv))
            (find (fun pv => equals (snd pv) key_val)
               (combine (seq 0 (len df_all)) (values s))))
  | None => Raise (KeyError key)
  end.

Record sheet_result : Type := SheetResult {
  row_count_match : bool;
  data_match : bool;
  mismatch_count : nat
}.

(** The locals of the sampling loop; [looked_up] records the successive
    values of [row_all]. *)
Record sample_state : Type := SampleState {
  ok_so_far : bool;
  mismatches : nat;
  looked_up : list (option dict)
}.

Section Validator.
(** [float(a) == float(b)], false when either conversion raises. *)
Variable float_equal : string -> string -> bool.

Definition compare_field (df_group df_all : DataFrame)
    (row_group row_all : dict) (st : sample_state) (col : string)
    : sample_state :=
  if mem col (column_names df_group) && mem col (column_names df_all) then
    let val_group := strip (str (field row_group col)) in
    let val_all := strip (str (field row_all col)) in
    if float_equal val_group val_all then st
    else if negb (String.eqb val_group val_all)
         then SampleState false (S (mismatches st)) (looked_up st)
         else st
  else st.

(** The loop over the sampled positions; a sample that resolves to no
    master row ends it. *)
Fixpoint sample_loop (df_group df_all : DataFrame) (key column_ : string)
    (idxs : list nat) (st : sample_state) : result sample_state :=
  match idxs with
  | [] => Ok st
  | idx :: idxs' =>
      let row_group := iloc df_group idx in
      key_val <- getitem row_group key ;;
      row_all <- resolve df_all key key_val ;;
      let st' := SampleState (ok_so_far st) (mismatches st)
                   (looked_up st ++ [row_all])%list in
      match row_all with
      | None => Ok (SampleState false (mismatches st') (looked_up st'))
      | Some r =>
          sample_loop df_group df_all key column_ idxs'
            (fold_left (compare_field df_group df_all row_group r)
               [column_; "WEIGHT"; "T"; "B"] st')
      end
  end.

(** The body of the loop over the sheets, for a group sheet whose
    column was found. *)
Definition validate_sheet (ws_all ws_group : loaded_sheet) (column_ : string)
    : result (sheet_result * list (option dict)) :=
  let df_all := frame_of (headers ws_all) (body ws_all) in
  let df_group := frame_of (headers ws_all) (body ws_group) in
  expected <- expected_df df_all column_ ;;
  let count_match := Nat.eqb (len df_group) (List.length expected) in
  if count_match && negb (empty df_group) then
    st <- sample_loop df_group df_all (key_col df_all) column_
            (sample_indices (len df_group))
            (SampleState true 0 []) ;;
    Ok (SheetResult count_match (ok_so_far st) (mismatches st),
        looked_up st)
  else Ok (SheetResult count_match true 0, []).
End Validator.

End BOMProcessor.

(* ================================================================= *)
(** ** Notions used to state the properties *)

Module Notions.
Import PyStr Py Pandas BOMProcessor.

(** An ASCII character that is not white space. *)
Definition is_ink (a : ascii) : bool :=
  negb (is_space a) && (nat_of_ascii a <? 128)%nat.

(** Every row of a table has one cell per header. *)
Definition rectangular (t : table) : Prop :=
  Forall (fun r => List.length r = List.length (columns t)) (rows t).

(** The reference-slot columns of a weld row whose cell passes the guard
    of the matching loop, in column order. *)
Definition filled_slots (weld : table) (r : list cell) : list string :=
  filter (fun c => slot_is_filled (field (row_dict weld r) c))
    (matno_columns weld).





(** The first detail row, in input order, whose key cell equals [key]. *)
Definition first_match (detail : table) (dcol : string) (key : cell)
    : option dict :=
  option_map (row_dict detail)
    (find (fun d => equals (field (row_dict detail d) dcol) key) (rows detail)).

(** The record the loop appends for a weld row and one of its filled
    slots. *)
Definition emitted_record (weld detail : table) (dcol : string)
    (r : list cell) (c : string) : dict :=
  let weld_row := row_dict weld r in
  let matno := field weld_row c in
  match first_match detail dcol matno with
  | Some detail_row =>
      dict_set (dict_merge weld_row detail_row) "_matched" (CBool true)
  | None =>
      dict_set (dict_set weld_row dcol matno) "_matched" (CBool false)
  end.

(** What the loop has added to its locals between two points. *)
Definition adds (st st' : match_state) (recs : list dict) : Prop :=
  results st' = (results st ++ recs)%list /\
  matched st' + missing st' = matched st + missing st + List.length recs.

(** The cells of a column of a frame, when the frame has the column. *)
Definition cells_of (df : DataFrame) (c : string) : option (list cell) :=
  option_map values (column df c).


(** The number of records whose [_matched] flag is [b]. *)
Definition flag_count (b : bool) (recs : list dict) : nat :=
  List.length
    (filter (fun r => match dict_get "_matched" r with
                      | Some (CBool b') => Bool.eqb b b'
                      | _ => false
                      end) recs).

(** Every column of a frame has one cell per row label. *)
Definition frame_rectangular (df : DataFrame) : Prop :=
  Forall (fun s => List.length (values s) = List.length (index df)) (series df).

(** The counters agree with the flags of the records so far, and every
    record so far has a flag. *)
Definition counters_agree (st : match_state) : Prop :=
  matched st = flag_count true (results st) /\
  missing st = flag_count false (results st) /\
  Forall (fun r => exists b, dict_get "_matched" r = Some (CBool b))
    (results st).

(** The kinds of cell a cleaned frame holds: text, an [int] or a
    [bool]. *)
Definition is_clean (x : cell) : bool := is_str x || is_int x || is_bool x.

(** A step that keeps the name of a column and the number of its
    cells. *)
Definition same_shape (s s' : Series) : Prop :=
  name s' = name s /\ List.length (values s') = List.length (values s).

(** The number a column's letters stand for, A being 1: the inverse of
    [get_column_letter]. *)
Fixpoint column_index_acc (acc : nat) (letters : string) : nat :=
  match letters with
  | EmptyString => acc
  | String a rest => column_index_acc (acc * 26 + (nat_of_ascii a - 64)) rest
  end.

(** The largest column number that [fuel] letters can name. *)
Fixpoint letters_bound (fuel : nat) : nat :=
  match fuel with
  | O => 0
  | S fuel' => 26 * letters_bound fuel' + 26
  end.

(** The files whose header [load_files] takes for a weld file, and for a
    detail file. *)
Definition reads_as_weld (read_head : string -> option (list string))
    (file : string) : bool :=
  match read_head file with
  | Some cols => detect_weld_file cols
  | None => false
  end.

Definition reads_as_detail (read_head : string -> option (list string))
    (file : string) : bool :=
  match read_head file with
  | Some cols => mem "MATNO" (map upper cols)
  | None => false
  end.

(** The first row of a frame, by position, whose cell under [key] equals
    [key_val]. *)
Definition first_with_key (df : DataFrame) (key : string) (key_val : cell)
    : option dict :=
  option_map (iloc df)
    (find (fun p => equals (field (iloc df p) key) key_val)
       (seq 0 (len df))).

(** A run of lookups that ends with the first one that finds nothing. *)
Fixpoint until_first_miss {A : Type} (l : list (option A)) : list (option A) :=
  match l with
  | [] => []
  | None :: _ => [None]
  | Some x :: l' => Some x :: until_first_miss l'
  end.

(** What the sampling loop keeps true of its locals. *)
Definition consistent (st : sample_state) : Prop :=
  ok_so_far st = true <-> (mismatches st = 0 /\ ~ In None (looked_up st)).

(** The first file, in priority order, whose header reads as a weld
    file; and the first other file whose header has a MATNO column. *)
Definition first_weld (read_head : string -> option (list string))
    (priority : list string) : option string :=
  find (reads_as_weld read_head) priority.

Definition first_detail (read_head : string -> option (list string))
    (priority : list string) : option string :=
  find (fun f =>
          reads_as_detail read_head f &&
          negb match first_weld read_head priority with
               | Some w => String.eqb f w
               | None => false
               end)
    priority.

End Notions.

(* ================================================================= *)
(** ** Tables and frames the properties are tried on *)

Module Examples.
Import PyStr Py Pandas BOMProcessor.

(** The scenario of the design document: one weld row with slots "A1",
    blank and "B2", and detail rows keyed "A1" and "C3". *)
Definition weld_example : table :=
  Table ["WELD UNIQUE ID"; "MATNO1"; "MATNO2"; "MATNO3"]
        [[CStr "W1"; CStr "A1"; CStr ""; CStr "B2"]].

Definition detail_example : table :=
  Table ["MATNO"; "Grade"] [[CStr "A1"; CStr "X"]; [CStr "C3"; CStr "Y"]].

(** A number in a slot against a key kept as text, and the reverse.  The
    columns that keep "10" as text also hold text that is no number, as
    [read_excel] would otherwise read the whole column as numbers. *)
Definition weld_number_slot : table :=
  Table ["WELD UNIQUE ID"; "MATNO1"] [[CStr "W1"; CInt 10]].
Definition detail_text_key : table :=
  Table ["MATNO"; "Grade"] [[CStr "10"; CStr "X"]; [CStr "A1"; CStr "Y"]].
Definition weld_text_slot : table :=
  Table ["WELD UNIQUE ID"; "MATNO1"]
        [[CStr "W1"; CStr "10"]; [CStr "W2"; CStr "B2"]].
Definition detail_number_key : table :=
  Table ["MATNO"; "Grade"] [[CInt 10; CStr "X"]].


(** Tables that lack a key column. *)
Definition weld_no_id : table :=
  Table ["ID"; "MATNO1"; "MATNO2"] [[CStr "W1"; CStr "A1"; CStr ""]].
Definition weld_blank_slots : table :=
  Table ["WELD UNIQUE ID"; "MATNO1"; "MATNO2"] [[CStr "W1"; CStr ""; CStr " "]].
Definition detail_no_key : table :=
  Table ["MATERIAL"; "Grade"] [[CStr "A1"; CStr "X"]].

(** A weld row whose only populated slot holds the number 0. *)
Definition weld_zero_slot : table :=
  Table ["WELD UNIQUE ID"; "MATNO1"; "MATNO2"] [[CStr "W1"; CInt 0; CStr ""]].

(** A detail table that carries weights: the matched record gets one,
    the unmatched record has none. *)
Definition detail_with_weight : table :=
  Table ["MATNO"; "Grade"; "WEIGHT"]
        [[CStr "A1"; CStr "X"; CInt 10]; [CStr "C3"; CStr "Y"; CInt 7]].

(** The frame [option1_generate_json] hands to [clean_data] for a list of
    records. *)
Definition frame_to_clean (records : list dict) : DataFrame :=
  drop_columns ["_matched"] (DataFrame_of_records records).

(** The two records [match_data] builds from [weld_example] and
    [detail_with_weight]. *)
Definition records_with_weight : list dict :=
  [ [("WELD UNIQUE ID", CStr "W1"); ("MATNO1", CStr "A1"); ("MATNO2", CStr "");
     ("MATNO3", CStr "B2"); ("MATNO", CStr "A1"); ("Grade", CStr "X");
     ("WEIGHT", CInt 10); ("_matched", CBool true)];
    [("WELD UNIQUE ID", CStr "W1"); ("MATNO1", CStr "A1"); ("MATNO2", CStr "");
     ("MATNO3", CStr "B2"); ("MATNO", CStr "B2"); ("_matched", CBool false)] ].

(** A record whose WNO passes the digit test of step 5 and is no number. *)
Definition records_bad_wno : list dict :=
  [ [("WELD UNIQUE ID", CStr "W1"); ("MATNO", CStr "A1"); ("WNO", CStr "1.2.3")];
    [("WELD UNIQUE ID", CStr "W2"); ("MATNO", CStr "B2"); ("WNO", CStr "7")] ].

(** A weld table whose first row holds only error cells, which
    [read_excel] reads as [nan]. *)
Definition weld_error_row : table :=
  Table ["WELD UNIQUE ID"; "MATNO1"] [[CNaN; CNaN]; [CStr "W2"; CStr "A1"]].

(** The records [match_data] builds from [weld_error_row] and
    [detail_example]. *)
Definition records_error_row : list dict :=
  [ [("WELD UNIQUE ID", CNaN); ("MATNO1", CNaN); ("MATNO", CNaN);
     ("_matched", CBool false)];
    [("WELD UNIQUE ID", CStr "W2"); ("MATNO1", CStr "A1"); ("MATNO", CStr "A1");
     ("Grade", CStr "X"); ("_matched", CBool true)] ].

(** Three welds and a detail table that names its key column in mixed
    case and gives a plate thickness for each material. *)
Definition weld_thickness : table :=
  Table ["WELD UNIQUE ID"; "MATNO1"]
        [[CStr "W1"; CStr "A1"]; [CStr "W2"; CStr "B2"]; [CStr "W3"; CStr "C3"]].

Definition detail_thickness : table :=
  Table ["Matno"; "T"]
        [[CStr "A1"; CFloat (25 # 2)]; [CStr "B2"; CFloat 10];
         [CStr "C3"; CFloat 9]].

(** The records [match_data] builds from them. *)
Definition records_thickness : list dict :=
  [ [("WELD UNIQUE ID", CStr "W1"); ("MATNO1", CStr "A1");
     ("Matno", CStr "A1"); ("T", CFloat (25 # 2)); ("_matched", CBool true)];
    [("WELD UNIQUE ID", CStr "W2"); ("MATNO1", CStr "B2");
     ("Matno", CStr "B2"); ("T", CFloat 10); ("_matched", CBool true)];
    [("WELD UNIQUE ID", CStr "W3"); ("MATNO1", CStr "C3");
     ("Matno", CStr "C3"); ("T", CFloat 9); ("_matched", CBool true)] ].

(** A cleaned master frame with two grouping columns. *)
Definition master_example : DataFrame :=
  MkFrame [0; 1; 2]
    [MkSeries "WELD UNIQUE ID" object [CStr "W1"; CStr "W2"; CStr "W3"];
     MkSeries "MATNO" object [CStr "B2"; CStr "A1"; CStr "B2"];
     MkSeries "Grade" object [CStr "Y"; CStr "X"; CStr ""];
     MkSeries "T" int64 [CInt 12; CInt 9; CInt 10]].

(** A master sheet and a MATNO sheet as loaded back for validation: two
    welds share the material M1. *)
Definition loaded_master : loaded_sheet :=
  Loaded ["WELD UNIQUE ID"; "MATNO"; "WEIGHT"]
         [[CStr "W1"; CStr "M1"; CInt 5]; [CStr "W2"; CStr "M1"; CInt 7]].

Definition loaded_matno_view : loaded_sheet :=
  Loaded ["WELD UNIQUE ID"; "MATNO"; "WEIGHT"]
         [[CStr "W2"; CStr "M1"; CInt 7]; [CStr "W1"; CStr "M1"; CInt 5]].

Definition loaded_master_frame : DataFrame :=
  frame_of (headers loaded_master) (body loaded_master).

(** A master sheet without a weld-id column and without MATNO, and its
    Grade sheet. *)
Definition loaded_grades : loaded_sheet :=
  Loaded ["Grade"; "WEIGHT"] [[CStr "AH36"; CInt 5]; [CStr "A"; CInt 7]].

Definition loaded_grades_view : loaded_sheet :=
  Loaded ["Grade"; "WEIGHT"] [[CStr "A"; CInt 7]; [CStr "AH36"; CInt 5]].

(** A master sheet without a weld-id column, and its MATNO sheet. *)
Definition loaded_materials : loaded_sheet :=
  Loaded ["MATNO"; "WEIGHT"] [[CStr "M1"; CInt 5]; [CStr "M2"; CInt 7]].

Definition loaded_materials_view : loaded_sheet :=
  Loaded ["MATNO"; "WEIGHT"] [[CStr "M1"; CInt 5]; [CStr "M2"; CInt 7]].

(** What [float] reads in text in plain decimal notation: the nearest
    float, or an infinity of either sign. *)
Inductive float_value : Type :=
| Finite (q : Q)
| Infinite (negative : bool).

Definition plain_float (s : string) : option float_value :=
  let (neg, body) :=
    match s with
    | String "-" s' => (true, s')
    | _ => (false, s)
    end in
  let (ip, fp) := split_point body in
  let fp' := match fp with Some f => f | None => EmptyString end in
  if all_chars is_digit ip && all_chars is_digit fp'
     && negb (is_empty ip && is_empty fp')
  then
    Some match nearest_double (decimal_value neg ip fp') with
         | Some x => Finite x
         | None => Infinite neg
         end
  else None.

(** [float(a) == float(b)] for cells in plain decimal notation; text that
    is no such number compares unequal, as after the [except]. *)
Definition plain_float_equal (a b : string) : bool :=
  match plain_float a, plain_float b with
  | Some (Finite x), Some (Finite y) => Qeq_bool x y
  | Some (Infinite m), Some (Infinite n) => Bool.eqb m n
  | _, _ => false
  end.

(** A cleaned frame that still has the slot columns and a column the
    priority list does not know. *)
Definition unordered_example : DataFrame :=
  MkFrame [0; 1]
    [MkSeries "Grade" object [CStr "X"; CStr "Y"];
     MkSeries "MATNO1" object [CStr "A1"; CStr "B2"];
     MkSeries "EXTRA" object [CStr "e1"; CStr "e2"];
     MkSeries "MATNO" object [CStr "A1"; CStr "B2"];
     MkSeries "WELD UNIQUE ID" object [CStr "W1"; CStr "W2"]].

(** A cleaned master frame whose only grouping column holds thicknesses
    as ints and as text. *)
Definition thickness_example : DataFrame :=
  MkFrame [0; 1; 2]
    [MkSeries "WELD UNIQUE ID" object [CStr "W1"; CStr "W2"; CStr "W3"];
     MkSeries "T" object [CStr "12.5"; CInt 10; CInt 9]].

(** A frame with a row of missing values only and a repeated header. *)
Definition raw_example : DataFrame :=
  MkFrame [0; 1; 2]
    [MkSeries "MATNO" object [CStr " A1 "; CNaN; CStr "B2"];
     MkSeries "T" float64 [CFloat 10; CNaN; CFloat (25 # 2)];
     MkSeries "MATNO" object [CStr "x"; CNaN; CStr "y"]].

(** What [clean_data] makes of [raw_example]. *)
Definition raw_example_cleaned : DataFrame :=
  MkFrame [0; 2]
    [MkSeries "MATNO" object [CStr "A1"; CStr "B2"];
     MkSeries "T" object [CInt 10; CStr "12.5"]].

(** The master rows the validator looks up for the MATNO view above. *)
Definition matno_view_lookups : list (option dict) :=
  [Some [("WELD UNIQUE ID", CStr "W2"); ("MATNO", CStr "M1");
         ("WEIGHT", CInt 7)];
   Some [("WELD UNIQUE ID", CStr "W1"); ("MATNO", CStr "M1");
         ("WEIGHT", CInt 5)];
   Some [("WELD UNIQUE ID", CStr "W1"); ("MATNO", CStr "M1");
         ("WEIGHT", CInt 5)]].

(** A master sheet in which one weld filled two slots, and its MATNO
    sheet, which lists the same two rows. *)
Definition loaded_two_slots : loaded_sheet :=
  Loaded ["WELD UNIQUE ID"; "MATNO"; "WEIGHT"]
    [[CStr "W1"; CStr "M1"; CInt 5]; [CStr "W1"; CStr "M2"; CInt 7]].

Definition loaded_two_slots_view : loaded_sheet :=
  Loaded ["WELD UNIQUE ID"; "MATNO"; "WEIGHT"]
    [[CStr "W1"; CStr "M1"; CInt 5]; [CStr "W1"; CStr "M2"; CInt 7]].

(** A data directory: a weld export, a detail list of the 260130
    delivery, and a file that cannot be read. *)
Definition example_heads (file : string) : option (list string) :=
  if String.eqb file "data/weld.xlsx"
  then Some ["WELD UNIQUE ID"; "MATNO1"; "MATNO2"; "WLEG"]
  else if String.eqb file "data/detail_260130.xlsx"
  then Some ["MATNO"; "Grade"; "WEIGHT"]
  else None.

Definition example_files : list string :=
  ["data/notes.xlsx"; "data/weld.xlsx"; "data/detail_260130.xlsx"].

Definition example_files_without_weld : list string :=
  ["data/notes.xlsx"; "data/detail_260130.xlsx"].

End Examples.


(* ================================================================= *)
(** ** Lemmas on text *)

Module StrFacts.
Import PyStr Py Pandas BOMProcessor Notions.

(** *** Digits and the text of an integer *)

Lemma digit_is_ink (a : ascii) : is_digit a = true -> is_ink a = true.
Proof.
  unfold is_digit, is_ink, is_space. generalize (nat_of_ascii a) as n.
  intros n H. apply andb_true_iff in H. destruct H as [H1 H2].
  apply Nat.leb_le in H1, H2.
  apply andb_true_iff. split; [|apply Nat.ltb_lt; lia].
  apply negb_true_iff, orb_false_iff. split; apply andb_false_iff.
  - right. apply Nat.leb_gt. lia.
  - right. apply Nat.leb_gt. lia.
Qed.

Lemma digit_is_not_mark (a : ascii) :
  is_digit a = true -> Ascii.eqb a "." = false /\ Ascii.eqb a "-" = false.
Proof.
  intros H. split; apply Ascii.eqb_neq; intros ->; discriminate H.
Qed.

Lemma uint_text_digits (d : Decimal.uint) :
  all_chars is_digit (NilEmpty.string_of_uint d) = true.
Proof. induction d; simpl; auto. Qed.

Lemma digits_value_acc (d : Decimal.uint) (acc : positive) :
  digits_value (Zpos acc) (NilEmpty.string_of_uint d) =
  Zpos (Pos.of_uint_acc d acc).
Proof.
  revert acc.
  induction d; intros acc;
    cbn [NilEmpty.string_of_uint digits_value Pos.of_uint_acc];
    try reflexivity;
    rewrite <- IHd; f_equal;
    match goal with
    | |- context [digit_value ?a] =>
        let v := eval vm_compute in (digit_value a) in
        change (digit_value a) with v
    end; lia.
Qed.

Lemma digits_value_uint (d : Decimal.uint) :
  digits_value 0 (NilEmpty.string_of_uint d) = Z.of_N (Pos.of_uint d).
Proof.
  induction d;
    cbn [NilEmpty.string_of_uint digits_value Pos.of_uint];
    try reflexivity;
    match goal with
    | |- context [digit_value ?a] =>
        let v := eval vm_compute in (digit_value a) in
        change (digit_value a) with v
    end; cbn [Z.mul Z.add]; [exact IHd | apply digits_value_acc ..].
Qed.

Lemma digits_value_acc_nonneg (s : string) (acc : Z) :
  (0 <= acc)%Z -> (0 <= digits_value acc s)%Z.
Proof.
  revert acc. induction s as [|a s IH]; intros acc H; cbn [digits_value];
    [assumption|].
  apply IH. unfold digit_value. lia.
Qed.

Lemma digits_value_nonneg (s : string) : (0 <= digits_value 0 s)%Z.
Proof. apply digits_value_acc_nonneg. lia. Qed.

(** The text of a natural number: digits only, at least one, and their
    value is the number. *)
Lemma of_Z_nonneg (n : Z) :
  (0 <= n)%Z ->
  all_chars is_digit (of_Z n) = true /\
  is_empty (of_Z n) = false /\
  digits_value 0 (of_Z n) = n.
Proof.
  intros H. unfold of_Z. destruct n as [|p|p]; [repeat split | | lia].
  simpl. pose proof (DecimalPos.Unsigned.to_uint_nonnil p) as Hn.
  pose proof (DecimalPos.Unsigned.of_to p) as Ho.
  unfold NilZero.string_of_uint.
  destruct (Pos.to_uint p) eqn:E; try congruence;
    (split; [apply (uint_text_digits (_ u))|]);
    (split; [reflexivity|]);
    rewrite (digits_value_uint (_ u)), Ho; reflexivity.
Qed.

Lemma all_chars_app (p : ascii -> bool) (s t : string) :
  all_chars p (s ++ t) = all_chars p s && all_chars p t.
Proof.
  induction s as [|a s IH]; simpl; [reflexivity|].
  now rewrite IH, andb_assoc.
Qed.

Lemma all_chars_impl (p q : ascii -> bool) (s : string) :
  (forall a, p a = true -> q a = true) ->
  all_chars p s = true -> all_chars q s = true.
Proof.
  intros H. induction s as [|a s IH]; simpl; [reflexivity|].
  intros Hs. apply andb_true_iff in Hs. destruct Hs as [Ha Hs].
  now rewrite (H a Ha), IH.
Qed.

Lemma length_app_string (s t : string) :
  String.length (s ++ t) = String.length s + String.length t.
Proof. induction s as [|a s IH]; simpl; [reflexivity | now rewrite IH]. Qed.

(** *** Trimming *)

Lemma ink_is_not_space (a : ascii) :
  is_ink a = true ->
  is_space a = false /\
  (forall b, is_space2 a b = false) /\
  (forall b c, is_space3 a b c = false).
Proof.
  unfold is_ink, is_space2, is_space3. generalize (nat_of_ascii a) as x.
  intros x H. apply andb_true_iff in H. destruct H as [H1 H2].
  apply negb_true_iff in H1. apply Nat.ltb_lt in H2.
  split; [assumption|]. split.
  - intros b. cbv zeta.
    replace (x =? 194)%nat with false by (symmetry; apply Nat.eqb_neq; lia).
    reflexivity.
  - intros b c. cbv zeta.
    replace (x =? 225)%nat with false by (symmetry; apply Nat.eqb_neq; lia).
    replace (x =? 226)%nat with false by (symmetry; apply Nat.eqb_neq; lia).
    replace (x =? 227)%nat with false by (symmetry; apply Nat.eqb_neq; lia).
    reflexivity.
Qed.

(** Text that starts with ink has nothing to trim on the left. *)
Lemma lstrip_ink (a : ascii) (s : string) :
  is_ink a = true -> lstrip (String a s) = String a s.
Proof.
  intros H. destruct (ink_is_not_space a H) as (H1 & H2 & H3).
  cbn [lstrip]. rewrite H1.
  destruct s as [|b s]; [reflexivity|]. rewrite H2.
  destruct s as [|c s]; [reflexivity|]. now rewrite H3.
Qed.

Lemma rstrip_ink (s : string) :
  all_chars is_ink s = true -> rstrip s = s.
Proof.
  induction s as [|a s IH]; [reflexivity|].
  cbn [all_chars rstrip]. intros H.
  apply andb_true_iff in H. destruct H as [Ha Hs].
  now rewrite (lstrip_ink a s Ha), (IH Hs).
Qed.

Lemma strip_ink (s : string) :
  all_chars is_ink s = true -> strip s = s.
Proof.
  intros H. unfold strip.
  assert (L : lstrip s = s).
  { destruct s as [|a s]; [reflexivity|]. cbn [all_chars] in H.
    apply andb_true_iff in H. destruct H as [Ha _]. now apply lstrip_ink. }
  rewrite L. now apply rstrip_ink.
Qed.

(** Text that starts with ink is not blank. *)
Lemma strip_head_ink (a : ascii) (s : string) :
  is_ink a = true -> is_empty (strip (String a s)) = false.
Proof.
  intros H. unfold strip. rewrite (lstrip_ink a s H).
  cbn [rstrip]. now rewrite (lstrip_ink a s H).
Qed.




Lemma digits_ink (s : string) :
  all_chars is_digit s = true -> all_chars is_ink s = true.
Proof. apply all_chars_impl. exact digit_is_ink. Qed.

Lemma of_Z_negative (p : positive) :
  of_Z (Z.neg p) = String "-" (of_Z (Z.pos p)).
Proof. reflexivity. Qed.

Lemma of_Z_starts (n : Z) :
  exists a r, of_Z n = String a r /\ (is_digit a = true \/ a = "-"%char).
Proof.
  destruct n as [|p|p].
  - exists "0"%char, EmptyString. split; [reflexivity | now left].
  - destruct (of_Z_nonneg (Z.pos p)) as (Hd & He & _); [lia|].
    destruct (of_Z (Z.pos p)) as [|a r]; [discriminate|].
    exists a, r. split; [reflexivity|]. left.
    simpl in Hd. apply andb_true_iff in Hd. tauto.
  - rewrite of_Z_negative. eexists. eexists. split; [reflexivity | now right].
Qed.


End StrFacts.

(* ================================================================= *)
(** ** Lemmas on rounding to the nearest float *)

Module FloatFacts.
Import PyStr Py Pandas BOMProcessor Notions.

Lemma round_half_even_whole (x : Z) : round_half_even x 1 = x.
Proof.
  unfold round_half_even. now rewrite Z.div_1_r, Z.mod_1_r.
Qed.

Lemma floor_log2_whole (a : Z) : (0 < a)%Z -> floor_log2 a 1 = Z.log2 a.
Proof.
  intros H. unfold floor_log2. change (Z.log2 1) with 0%Z.
  rewrite Z.sub_0_r. pose proof (Z.log2_nonneg a) as Hl.
  destruct (Z.leb_spec 0 (Z.log2 a)) as [_|]; [|lia].
  pose proof (Z.log2_spec a H) as [Hs _].
  destruct (Z.leb_spec (1 * 2 ^ Z.log2 a) a) as [_|]; [reflexivity | lia].
Qed.

(** A whole number of at most 53 bits is a float: rounding gives it
    back. *)
Lemma nearest_double_whole (n : Z) :
  (Z.abs n < 2 ^ 53)%Z ->
  exists x, nearest_double (inject_Z n) = Some x /\ trunc x = n.
Proof.
  intros Hn. unfold nearest_double. cbn [inject_Z Qnum Qden].
  destruct (Z.eqb_spec (Z.abs n) 0) as [E|E].
  { exists 0%Q. split; [reflexivity|]. cbn. lia. }
  assert (Ha : (0 < Z.abs n)%Z) by lia.
  rewrite (floor_log2_whole _ Ha).
  assert (HL : (0 <= Z.log2 (Z.abs n) <= 52)%Z).
  { split; [apply Z.log2_nonneg|].
    assert (Z.log2 (Z.abs n) < 53)%Z; [|lia].
    apply Z.log2_lt_pow2; lia. }
  set (L := Z.log2 (Z.abs n)) in *.
  rewrite Z.max_l by lia.
  assert (Hs : (Z.sgn n * Z.abs n = n)%Z) by lia.
  destruct (Z.leb_spec 0 (L - 52)) as [He|He].
  - assert (E52 : (L - 52 = 0)%Z) by lia. rewrite E52.
    change (1 * 2 ^ 0)%Z with 1%Z. rewrite round_half_even_whole.
    destruct (Z.eqb_spec (Z.abs n) 0) as [|_]; [lia|].
    destruct (Z.leb_spec 1024 (Z.log2 (Z.abs n) + 0)) as [Ho|_];
      [fold L in Ho; lia|].
    eexists. split; [reflexivity|].
    unfold trunc. cbn [inject_Z Qnum Qden].
    rewrite Z.pow_0_r, Z.mul_1_r, Hs. apply Z.quot_1_r.
  - set (k := (- (L - 52))%Z).
    assert (Hk : (0 < k)%Z) by (unfold k; lia).
    assert (Hp : (0 < 2 ^ k)%Z) by (apply Z.pow_pos_nonneg; lia).
    rewrite round_half_even_whole.
    destruct (Z.eqb_spec (Z.abs n * 2 ^ k) 0) as [|_]; [nia|].
    assert (Hlog : (Z.log2 (Z.abs n * 2 ^ k) = L + k)%Z).
    { rewrite Z.log2_mul_pow2 by lia. unfold L. lia. }
    rewrite Hlog.
    destruct (Z.leb_spec 1024 (L + k + (L - 52))) as [Ho|_];
      [unfold k in Ho; lia|].
    eexists. split; [reflexivity|].
    unfold trunc. cbn [Qnum Qden].
    rewrite Z2Pos.id by assumption.
    rewrite Z.mul_assoc, Hs. apply Z.quot_mul. lia.
Qed.

(** So is [2^53] itself, with either sign. *)
Lemma nearest_double_exact (n : Z) :
  (Z.abs n <= 2 ^ 53)%Z ->
  exists x, nearest_double (inject_Z n) = Some x /\ trunc x = n.
Proof.
  intros Hn. destruct (Z.eq_dec (Z.abs n) (2 ^ 53)) as [E|E].
  - assert (Hc : n = (2 ^ 53)%Z \/ n = (- 2 ^ 53)%Z) by lia.
    destruct Hc as [-> | ->]; eexists; split; vm_compute; reflexivity.
  - apply nearest_double_whole. lia.
Qed.

(** Up to [2^53] in absolute value, [int(float(n))] is [n]. *)
Lemma int_of_float_whole (n : Z) :
  (Z.abs n <= 2 ^ 53)%Z -> int_of_float (CInt n) = Ok n.
Proof.
  intros Hn. cbn [int_of_float].
  now destruct (nearest_double_exact n Hn) as (x & -> & ->).
Qed.

(** The text of digits, with or without a dash before them, reads as
    their value when that is at most [2^53]. *)
Lemma decimal_value_whole (neg : bool) (ip : string) :
  decimal_value neg ip "" =
  inject_Z (if neg then - digits_value 0 ip else digits_value 0 ip)%Z.
Proof.
  unfold decimal_value. cbn [String.length Z.of_nat digits_value].
  rewrite Z.pow_0_r, Z.mul_1_r, Z.add_0_r. reflexivity.
Qed.

End FloatFacts.
(* ================================================================= *)
(** ** Lemmas on dictionaries *)

Module DictFacts.
Import PyStr Py.

Lemma dict_get_set (d : dict) (k k' : string) (v : cell) :
  dict_get k' (dict_set d k v) =
  if String.eqb k' k then Some v else dict_get k' d.
Proof.
  induction d as [|[k0 v0] d IH]; simpl.
  - destruct (String.eqb k' k); reflexivity.
  - destruct (String.eqb k k0) eqn:E; simpl.
    + apply String.eqb_eq in E; subst k0.
      destruct (String.eqb k' k); reflexivity.
    + rewrite IH. destruct (String.eqb k' k0) eqn:E'; [|reflexivity].
      apply String.eqb_eq in E'; subst k0.
      rewrite String.eqb_sym, E. reflexivity.
Qed.

Lemma dict_get_none_iff (d : dict) (k : string) :
  dict_get k d = None <-> ~ In k (dict_keys d).
Proof.
  induction d as [|[k0 v0] d IH]; simpl.
  - tauto.
  - destruct (String.eqb k k0) eqn:E.
    + apply String.eqb_eq in E. split; [discriminate | intros H; exfalso; auto].
    + apply String.eqb_neq in E. rewrite IH. split.
      * intros H [H1|H1]; [congruence | auto].
      * intros H H1. apply H. now right.
Qed.

Lemma dict_keys_set (d : dict) (k : string) (v : cell) :
  dict_keys (dict_set d k v) =
  if existsb (String.eqb k) (dict_keys d) then dict_keys d
  else (dict_keys d ++ [k])%list.
Proof.
  induction d as [|[k0 v0] d IH]; simpl; [reflexivity|].
  destruct (String.eqb k k0) eqn:E; simpl; [reflexivity|].
  rewrite IH. destruct (existsb (String.eqb k) (dict_keys d)); reflexivity.
Qed.

Lemma existsb_eqb_false (k : string) (ks : list string) :
  existsb (String.eqb k) ks = false -> ~ In k ks.
Proof.
  intros H Hin.
  assert (existsb (String.eqb k) ks = true); [|congruence].
  apply existsb_exists. exists k. split; [assumption | apply String.eqb_refl].
Qed.

Lemma dict_set_NoDup (d : dict) (k : string) (v : cell) :
  NoDup (dict_keys d) -> NoDup (dict_keys (dict_set d k v)).
Proof.
  intros H. rewrite dict_keys_set.
  destruct (existsb (String.eqb k) (dict_keys d)) eqn:E; [assumption|].
  apply existsb_eqb_false in E.
  apply (Permutation_NoDup (Permutation_cons_append (dict_keys d) k)).
  constructor; assumption.
Qed.

Lemma dict_merge_NoDup (b a : dict) :
  NoDup (dict_keys a) -> NoDup (dict_keys (dict_merge a b)).
Proof.
  revert a. unfold dict_merge.
  induction b as [|[k v] b IH]; intros a H; simpl; [assumption|].
  apply IH. now apply dict_set_NoDup.
Qed.

Lemma dict_zip_NoDup (ks : list string) (vs : list cell) :
  NoDup (dict_keys (dict_zip ks vs)).
Proof. apply dict_merge_NoDup. constructor. Qed.

(** [{**a, **b}] reads a key from [b] when [b] has it, else from [a]. *)
Lemma dict_get_merge (b a : dict) (k : string) :
  NoDup (dict_keys b) ->
  dict_get k (dict_merge a b) =
  match dict_get k b with
  | Some v => Some v
  | None => dict_get k a
  end.
Proof.
  revert a. unfold dict_merge.
  induction b as [|[k0 v0] b IH]; intros a H; simpl; [reflexivity|].
  inversion H as [|? ? Hnotin Hnd]; subst.
  rewrite (IH _ Hnd), dict_get_set.
  destruct (String.eqb k k0) eqn:E; [|reflexivity].
  apply String.eqb_eq in E; subst k0.
  apply dict_get_none_iff in Hnotin. now rewrite Hnotin.
Qed.

Lemma dict_merge_has (b a : dict) (k : string) :
  In k (map fst b) \/ dict_get k a <> None ->
  dict_get k (dict_merge a b) <> None.
Proof.
  revert a. unfold dict_merge.
  induction b as [|[k0 v0] b IH]; intros a H; simpl.
  - destruct H as [[]|H]; assumption.
  - apply IH. simpl in H. rewrite dict_get_set.
    destruct (String.eqb k k0) eqn:E.
    + right. discriminate.
    + apply String.eqb_neq in E.
      destruct H as [[H|H]|H]; [congruence | now left | now right].
Qed.

Lemma map_fst_combine_le {A B : Type} (xs : list A) (ys : list B) :
  List.length xs <= List.length ys -> map fst (combine xs ys) = xs.
Proof.
  revert ys. induction xs as [|x xs IH]; intros [|y ys] H; simpl in *;
    try reflexivity; try lia.
  f_equal. apply IH. lia.
Qed.

Lemma dict_zip_has (ks : list string) (vs : list cell) (k : string) :
  List.length ks <= List.length vs -> In k ks ->
  dict_get k (dict_zip ks vs) <> None.
Proof.
  intros Hlen Hin. apply dict_merge_has. left.
  now rewrite map_fst_combine_le.
Qed.

End DictFacts.

(* ================================================================= *)
(** ** Lemmas on the matching loop *)

Module MatchFacts.
Import PyStr Py Pandas BOMProcessor Notions DictFacts.

Lemma equals_nan_l (x : cell) : equals CNaN x = false.
Proof. destruct x; reflexivity. Qed.

Lemma key_test_field (d : dict) (col : string) (key : cell) :
  match dict_get col d with
  | Some v => equals v key
  | None => false
  end = equals (field d col) key.
Proof.
  unfold field. destruct (dict_get col d); [reflexivity|].
  symmetry. apply equals_nan_l.
Qed.

Lemma head_filter_find {A : Type} (p : A -> bool) (xs : list A) :
  hd_error (filter p xs) = find p xs.
Proof.
  induction xs as [|x xs IH]; simpl; [reflexivity|].
  destruct (p x); [reflexivity | assumption].
Qed.

Lemma rows_where_eq_head (detail : table) (dcol : string) (key : cell) :
  option_map (row_dict detail) (hd_error (rows_where_eq detail dcol key)) =
  first_match detail dcol key.
Proof.
  unfold rows_where_eq, first_match.
  rewrite (filter_ext _ (fun d => equals (field (row_dict detail d) dcol) key)).
  - now rewrite head_filter_find.
  - intros d. apply key_test_field.
Qed.

Lemma rows_where_eq_nonempty (detail : table) (dcol : string) (key : cell) :
  rows_where_eq detail dcol key <> [] <->
  exists d, In d (rows detail) /\ equals (field (row_dict detail d) dcol) key = true.
Proof.
  unfold rows_where_eq. split.
  - intros H.
    destruct (filter _ (rows detail)) as [|d ds] eqn:E; [congruence|].
    assert (Hin : In d (d :: ds)) by now left.
    rewrite <- E in Hin. apply filter_In in Hin. destruct Hin as [Hin Hp].
    exists d. split; [assumption|]. now rewrite <- key_test_field.
  - intros (d & Hin & Hp) E.
    assert (Hd : In d (filter (fun r =>
        match dict_get dcol (row_dict detail r) with
        | Some v => equals v key
        | None => false
        end) (rows detail))).
    { apply filter_In. split; [assumption|]. now rewrite key_test_field. }
    rewrite E in Hd. destruct Hd.
Qed.

Lemma adds_nil (st : match_state) : adds st st [].
Proof. split; [now rewrite app_nil_r | simpl; lia]. Qed.

Lemma adds_trans (st1 st2 st3 : match_state) (r1 r2 : list dict) :
  adds st1 st2 r1 -> adds st2 st3 r2 -> adds st1 st3 (r1 ++ r2)%list.
Proof.
  intros [H1 H1'] [H2 H2']. split.
  - now rewrite H2, H1, app_assoc.
  - rewrite length_app. lia.
Qed.

Lemma adds_append (st : match_state) (row : dict) (hit : bool) :
  adds st (append_result st row hit) [row].
Proof. split; [reflexivity | destruct hit; simpl; lia]. Qed.

(** One pass of the inner loop body, when the row has the slot column and
    the detail table has its key column. *)
Lemma match_slot_spec (weld detail : table) (dcol : string) (r : list cell)
    (c : string) (st : match_state) :
  dict_get c (row_dict weld r) <> None ->
  exists st',
    match_slot detail (Some dcol) (row_dict weld r) c st = Ok st' /\
    adds st st'
      (if slot_is_filled (field (row_dict weld r) c)
       then [emitted_record weld detail dcol r c] else []).
Proof.
  intros Hc. unfold match_slot, getitem, emitted_record, field.
  destruct (dict_get c (row_dict weld r)) as [v|] eqn:Ev; [|congruence].
  simpl. destruct (slot_is_filled v).
  - rewrite <- rows_where_eq_head.
    destruct (rows_where_eq detail dcol v) as [|d ds]; simpl;
      eexists; (split; [reflexivity | apply adds_append]).
  - exists st. split; [reflexivity | apply adds_nil].
Qed.

Lemma match_slots_spec (weld detail : table) (dcol : string) (r : list cell)
    (cs : list string) (st : match_state) :
  (forall c, In c cs -> dict_get c (row_dict weld r) <> None) ->
  exists st',
    for_each (match_slot detail (Some dcol) (row_dict weld r)) cs st = Ok st' /\
    adds st st'
      (map (emitted_record weld detail dcol r)
         (filter (fun c => slot_is_filled (field (row_dict weld r) c)) cs)).
Proof.
  revert st. induction cs as [|c cs IH]; intros st Hcs; simpl.
  - exists st. split; [reflexivity | apply adds_nil].
  - destruct (match_slot_spec weld detail dcol r c st) as (st1 & E1 & A1).
    { apply Hcs. now left. }
    rewrite E1. simpl.
    destruct (IH st1) as (st2 & E2 & A2).
    { intros c' Hc'. apply Hcs. now right. }
    exists st2. split; [assumption|].
    pose proof (adds_trans _ _ _ _ _ A1 A2) as A.
    destruct (slot_is_filled (field (row_dict weld r) c)); exact A.
Qed.

Lemma slot_columns_in_header (weld : table) (c : string) :
  In c (matno_columns weld) -> In c (columns weld).
Proof. intros H. apply filter_In in H. tauto. Qed.

Lemma rectangular_has_slots (weld : table) (r : list cell) (c : string) :
  List.length r = List.length (columns weld) ->
  In c (matno_columns weld) -> dict_get c (row_dict weld r) <> None.
Proof.
  intros Hlen Hc. apply dict_zip_has; [|now apply slot_columns_in_header].
  destruct (upcast (column_dtypes weld)); rewrite ?length_map; lia.
Qed.

Lemma match_rows_spec (weld detail : table) (dcol : string)
    (rs : list (list cell)) (st : match_state) :
  find_detail_matno_col detail = Some dcol ->
  Forall (fun r => List.length r = List.length (columns weld)) rs ->
  exists st',
    for_each (match_row weld detail) rs st = Ok st' /\
    adds st st'
      (flat_map (fun r => map (emitted_record weld detail dcol r)
                            (filled_slots weld r)) rs).
Proof.
  intros Hd. revert st. induction rs as [|r rs IH]; intros st Hrs; simpl.
  - exists st. split; [reflexivity | apply adds_nil].
  - inversion Hrs as [|? ? Hr Hrs']; subst.
    unfold match_row at 1. rewrite Hd.
    destruct (match_slots_spec weld detail dcol r (matno_columns weld) st)
      as (st1 & E1 & A1).
    { intros c Hc. now apply rectangular_has_slots. }
    rewrite E1. simpl.
    destruct (IH st1 Hrs') as (st2 & E2 & A2).
    exists st2. split; [assumption|].
    exact (adds_trans _ _ _ _ _ A1 A2).
Qed.

(** [match_data] returns, and its records are those of the filled slots,
    row by row and slot by slot. *)
Lemma match_data_spec (weld detail : table) (dcol : string) :
  rectangular weld ->
  find_detail_matno_col detail = Some dcol ->
  exists rep,
    match_data weld detail = Ok rep /\
    weld_id_col rep = find_weld_id_col weld /\
    results (final rep) =
      flat_map (fun r => map (emitted_record weld detail dcol r)
                           (filled_slots weld r)) (rows weld) /\
    matched (final rep) + missing (final rep) =
      List.length (results (final rep)).
Proof.
  intros Hrect Hd. unfold match_data.
  destruct (match_rows_spec weld detail dcol (rows weld) (MatchState [] 0 0)
              Hd Hrect) as (st & E & [A1 A2]).
  rewrite E. simpl. eexists. split; [reflexivity|]. simpl in *.
  split; [reflexivity|]. split; [assumption|]. rewrite A1, A2. reflexivity.
Qed.

End MatchFacts.

(* ================================================================= *)
(** ** The matcher *)

Module Matcher.
Import PyStr Py Pandas BOMProcessor Notions Examples StrFacts DictFacts MatchFacts.

Lemma weld_example_rectangular : rectangular weld_example.
Proof. repeat constructor. Qed.







(** C2.  For a weld row and a filled slot of it: when some detail row has
    the slot value as its key, the record reads every column from the
    first such row in input order where that row has the column and from
    the weld row otherwise, and its [_matched] is true; when none has, the
    record reads the slot value under the detail key column, every other
    column from the weld row, and its [_matched] is false.  [match_data]
    returns in both cases. *)
Theorem matched_record_fields (weld detail : table) (dcol : string) :
  rectangular weld ->
  find_detail_matno_col detail = Some dcol ->
  upper dcol = "MATNO" /\
  exists rep,
    match_data weld detail = Ok rep /\
    results (final rep) =
      flat_map (fun r => map (emitted_record weld detail dcol r)
                           (filled_slots weld r)) (rows weld) /\
    forall r c, In r (rows weld) -> In c (filled_slots weld r) ->
      let weld_row := row_dict weld r in
      let matno := field weld_row c in
      match first_match detail dcol matno with
      | Some detail_row =>
          forall k,
            dict_get k (emitted_record weld detail dcol r c) =
            if String.eqb k "_matched" then Some (CBool true)
            else match dict_get k detail_row with
                 | Some x => Some x
                 | None => dict_get k weld_row
                 end
      | None =>
          forall k,
            dict_get k (emitted_record weld detail dcol r c) =
            if String.eqb k "_matched" then Some (CBool false)
            else if String.eqb k dcol then Some matno
            else dict_get k weld_row
      end.
Proof.
  intros Hrect Hd. split.
  { apply find_some in Hd. apply String.eqb_eq. tauto. }
  destruct (match_data_spec weld detail dcol Hrect Hd) as (rep & E & _ & R & _).
  exists rep. split; [assumption|]. split; [assumption|].
  intros r c _ _ weld_row matno. unfold emitted_record.
  fold weld_row. fold matno.
  destruct (first_match detail dcol matno) as [detail_row|] eqn:F; intros k.
  - rewrite dict_get_set. destruct (String.eqb k "_matched"); [reflexivity|].
    apply dict_get_merge.
    unfold first_match in F.
    destruct (find _ (rows detail)) as [d|]; simpl in F; [|discriminate].
    injection F as <-. apply dict_zip_NoDup.
  - rewrite !dict_get_set. reflexivity.
Qed.

Lemma matched_record_fields_witness :
  dict_get "Grade"
    (emitted_record weld_example detail_example "MATNO"
       [CStr "W1"; CStr "A1"; CStr ""; CStr "B2"] "MATNO1") = Some (CStr "X") /\
  dict_get "MATNO"
    (emitted_record weld_example detail_example "MATNO"
       [CStr "W1"; CStr "A1"; CStr ""; CStr "B2"] "MATNO3") = Some (CStr "B2").
Proof.
  destruct (matched_record_fields weld_example detail_example "MATNO"
              weld_example_rectangular eq_refl) as (_ & rep & _ & _ & H).
  split.
  - exact (H [CStr "W1"; CStr "A1"; CStr ""; CStr "B2"] "MATNO1"
             (or_introl eq_refl) (or_introl eq_refl) "Grade").
  - exact (H [CStr "W1"; CStr "A1"; CStr ""; CStr "B2"] "MATNO3"
             (or_introl eq_refl) (or_intror (or_introl eq_refl)) "MATNO").
Defined.

(** C6, as the code has it: the number 10 in a slot does not find the
    detail row keyed by the text "10", nor the text "10" the row keyed by
    the number 10; both records are emitted unmatched. *)
Lemma number_and_text_keys_do_not_match :
  rows_where_eq detail_text_key "MATNO" (CInt 10) = [] /\
  rows_where_eq detail_number_key "MATNO" (CStr "10") = [] /\
  (exists rep, match_data weld_number_slot detail_text_key = Ok rep /\
     map (dict_get "_matched") (results (final rep)) = [Some (CBool false)] /\
     map (dict_get "Grade") (results (final rep)) = [None]) /\
  (exists rep, match_data weld_text_slot detail_number_key = Ok rep /\
     map (dict_get "_matched") (results (final rep)) =
       [Some (CBool false); Some (CBool false)] /\
     map (dict_get "Grade") (results (final rep)) = [None; None]).
Proof.
  repeat split; try reflexivity;
    eexists; (split; [reflexivity | split; reflexivity]).
Qed.

(** C6, amended.  The lookup finds a detail row exactly when some detail
    row's key cell equals the slot value under [==], which does not
    convert between text and numbers: text equals only the same text, a
    number never equals text in either direction, and numbers are equal
    by value, an [int] and a [float] included. *)
Theorem lookup_is_python_equality (detail : table) (dcol : string) (v : cell) :
  (rows_where_eq detail dcol v <> [] <->
   exists d, In d (rows detail) /\
             equals (field (row_dict detail d) dcol) v = true)
  /\ (forall s t, equals (CStr s) (CStr t) = true <-> s = t)
  /\ (forall s n, equals (CStr s) (CInt n) = false /\
                  equals (CInt n) (CStr s) = false)
  /\ (forall s q, equals (CStr s) (CFloat q) = false /\
                  equals (CFloat q) (CStr s) = false)
  /\ (forall n m, equals (CInt n) (CInt m) = true <-> n = m)
  /\ (forall n q, equals (CInt n) (CFloat q) = true <-> (inject_Z n == q)%Q).
Proof.
  split; [apply rows_where_eq_nonempty|].
  split; [intros s t; apply String.eqb_eq|].
  split; [intros s n; split; reflexivity|].
  split; [intros s q; split; reflexivity|].
  split.
  - intros n m. simpl. rewrite Qeq_bool_iff. unfold Qeq. simpl. lia.
  - intros n q. simpl. apply Qeq_bool_iff.
Qed.

(** With no detail key column the inner loop raises at a filled slot and
    passes over the others. *)
Lemma match_slots_without_key (detail : table) (wd : dict)
    (cs : list string) (st : match_state) :
  (forall c, In c cs -> dict_get c wd <> None) ->
  for_each (match_slot detail None wd) cs st =
  if existsb (fun c => slot_is_filled (field wd c)) cs
  then Raise (KeyError "None") else Ok st.
Proof.
  intros Hcs. induction cs as [|c cs IH]; simpl; [reflexivity|].
  unfold match_slot at 1, getitem, field at 1.
  destruct (dict_get c wd) as [v|] eqn:E.
  - simpl. destruct (slot_is_filled v); simpl; [reflexivity|].
    apply IH. intros c' Hc'. apply Hcs. now right.
  - exfalso. apply (Hcs c); [now left | assumption].
Qed.

Lemma filled_slots_nil_iff (weld : table) (r : list cell) :
  filled_slots weld r = [] <->
  existsb (fun c => slot_is_filled (field (row_dict weld r) c))
    (matno_columns weld) = false.
Proof.
  unfold filled_slots. induction (matno_columns weld) as [|c cs IH]; simpl.
  - tauto.
  - destruct (slot_is_filled (field (row_dict weld r) c)); simpl.
    + split; discriminate.
    + exact IH.
Qed.

Lemma match_rows_without_key (weld detail : table)
    (rs : list (list cell)) (st : match_state) :
  find_detail_matno_col detail = None ->
  Forall (fun r => List.length r = List.length (columns weld)) rs ->
  for_each (match_row weld detail) rs st =
  if forallb (fun r => match filled_slots weld r with [] => true | _ => false end) rs
  then Ok st else Raise (KeyError "None").
Proof.
  intros Hd Hrs. induction Hrs as [|r rs Hr Hrs IH]; simpl; [reflexivity|].
  unfold match_row at 1. rewrite Hd, match_slots_without_key.
  - destruct (filled_slots weld r) as [|c cs] eqn:F.
    + apply filled_slots_nil_iff in F. rewrite F. simpl. exact IH.
    + destruct (existsb _ (matno_columns weld)) eqn:X; [reflexivity|].
      apply filled_slots_nil_iff in X. congruence.
  - intros c Hc. now apply rectangular_has_slots.
Qed.

(** C9, as the code has it: a weld table with no column naming both WELD
    and UNIQUE is matched like any other and produces records, and a
    detail table with no MATNO column is no error either while no slot is
    filled. *)
Lemma missing_key_column_is_not_reported :
  (find_weld_id_col weld_no_id = None /\
   exists rep, match_data weld_no_id detail_example = Ok rep /\
     weld_id_col rep = None /\
     map (dict_get "Grade") (results (final rep)) = [Some (CStr "X")]) /\
  (find_detail_matno_col detail_no_key = None /\
   exists rep, match_data weld_blank_slots detail_no_key = Ok rep /\
     detail_matno_col rep = None /\ results (final rep) = []).
Proof.
  split; (split; [reflexivity|]); eexists; repeat split; reflexivity.
Qed.

(** C9, amended.  A missing key column is not looked for before the loop.
    Without a WELD and UNIQUE column in the weld table matching runs as
    usual (the column is only printed).  Without a MATNO column in the
    detail table the loop still runs: it completes with no record and no
    error when no slot is filled, and otherwise the detail subscript
    raises [KeyError] at the first filled slot. *)
Theorem missing_key_column_behaviour (weld detail : table) :
  rectangular weld ->
  (forall dcol,
     find_weld_id_col weld = None ->
     find_detail_matno_col detail = Some dcol ->
     exists rep,
       match_data weld detail = Ok rep /\
       weld_id_col rep = None /\
       results (final rep) =
         flat_map (fun r => map (emitted_record weld detail dcol r)
                              (filled_slots weld r)) (rows weld)) /\
  (find_detail_matno_col detail = None ->
   (Forall (fun r => filled_slots weld r = []) (rows weld) ->
    exists rep,
      match_data weld detail = Ok rep /\
      detail_matno_col rep = None /\ results (final rep) = []) /\
   (Exists (fun r => filled_slots weld r <> []) (rows weld) ->
    match_data weld detail = Raise (KeyError "None"))).
Proof.
  intros Hrect. split.
  - intros dcol Hw Hd.
    destruct (match_data_spec weld detail dcol Hrect Hd) as (rep & E & W & R & _).
    exists rep. repeat split; try assumption. now rewrite W.
  - intros Hd. unfold match_data.
    rewrite (match_rows_without_key weld detail (rows weld) _ Hd Hrect).
    split.
    + intros Hall.
      replace (forallb _ (rows weld)) with true.
      * simpl. eexists. split; [reflexivity|]. split; [exact Hd | reflexivity].
      * symmetry. apply forallb_forall. intros r Hr.
        rewrite Forall_forall in Hall. now rewrite (Hall r Hr).
    + intros Hex.
      replace (forallb _ (rows weld)) with false; [reflexivity|].
      symmetry. apply not_true_is_false. intros Hall.
      rewrite forallb_forall in Hall.
      apply Exists_exists in Hex. destruct Hex as (r & Hr & Hne).
      specialize (Hall r Hr). destruct (filled_slots weld r); congruence.
Qed.

Lemma missing_key_column_behaviour_witness :
  match_data weld_example detail_no_key = Raise (KeyError "None").
Proof.
  apply (missing_key_column_behaviour weld_example detail_no_key).
  - repeat constructor.
  - reflexivity.
  - apply Exists_cons_hd. discriminate.
Defined.

(** C10.  A slot whose cell is falsy, the number 0 like the empty text,
    leaves the locals of the loop as they were, whatever the detail table
    is, although the text of 0 is not blank; so a weld row all of whose
    slots are falsy adds no record. *)
Theorem falsy_slot_emits_no_record (weld detail : table) (r : list cell)
    (c : string) (st : match_state) :
  List.length r = List.length (columns weld) ->
  In c (matno_columns weld) ->
  truthy (field (row_dict weld r) c) = false ->
  match_slot detail (find_detail_matno_col detail) (row_dict weld r) c st = Ok st
  /\ ((forall c', In c' (matno_columns weld) ->
         truthy (field (row_dict weld r) c') = false) ->
      match_row weld detail r st = Ok st)
  /\ truthy (CInt 0) = false
  /\ strip (str (CInt 0)) = "0".
Proof.
  intros Hlen Hc Hf.
  assert (Hslot : forall c' st', In c' (matno_columns weld) ->
            truthy (field (row_dict weld r) c') = false ->
            match_slot detail (find_detail_matno_col detail)
              (row_dict weld r) c' st' = Ok st').
  { intros c' st' Hc' Hf'. unfold match_slot, getitem.
    pose proof (rectangular_has_slots weld r c' Hlen Hc') as Hin.
    unfold field in Hf'.
    destruct (dict_get c' (row_dict weld r)) as [v|]; [|congruence].
    simpl. unfold slot_is_filled. now rewrite Hf'. }
  split; [now apply Hslot|]. split; [|split; reflexivity].
  intros Hall. unfold match_row.
  assert (Hsub : forall c', In c' (matno_columns weld) ->
            In c' (matno_columns weld)) by auto.
  revert Hsub. generalize (matno_columns weld) at 1 3 as cs.
  induction cs as [|c' cs IH]; intros Hsub; simpl; [reflexivity|].
  rewrite Hslot; [simpl | apply Hsub; now left | apply Hall, Hsub; now left].
  apply IH. intros c'' Hc''. apply Hsub. now right.
Qed.

Lemma falsy_slot_emits_no_record_witness :
  match_row weld_zero_slot detail_example [CStr "W1"; CInt 0; CStr ""]
    (MatchState [] 0 0) = Ok (MatchState [] 0 0).
Proof.
  apply (falsy_slot_emits_no_record weld_zero_slot detail_example
           [CStr "W1"; CInt 0; CStr ""] "MATNO1" (MatchState [] 0 0)
           eq_refl (or_introl eq_refl) eq_refl).
  intros c' [<-|[<-|[]]]; reflexivity.
Defined.

End Matcher.

(* ================================================================= *)
(** ** The normalizer *)

Module Normalizer.
Import PyStr Py Pandas BOMProcessor Notions Examples.

(** C4, at the failing input.  The frame built from the two records
    [match_data] emits for the design document's scenario, with a weight
    on the matched one only:
    the first pass leaves WEIGHT as the integer 10 over an empty text, and
    the second pass, which now finds WEIGHT an [object] column and strips
    it, turns the 10 into an empty text.  Two passes differ from one. *)
Theorem clean_data_twice_differs :
  (exists rep,
     match_data weld_example detail_with_weight = Ok rep /\
     results (final rep) = records_with_weight) /\
  exists once twice,
    clean_data (frame_to_clean records_with_weight) = Ok once /\
    clean_data once = Ok twice /\
    cells_of once "WEIGHT" = Some [CInt 10; CStr ""] /\
    cells_of twice "WEIGHT" = Some [CStr ""; CStr ""] /\
    once <> twice.
Proof.
  split; [eexists; split; reflexivity|].
  eexists. eexists.
  split; [vm_compute; reflexivity|].
  split; [vm_compute; reflexivity|].
  split; [reflexivity|]. split; [reflexivity|].
  intros H. discriminate H.
Qed.

(** C7, at the failing input.  A WNO cell "1.2.3" passes the digit test
    of step 5 (its text without points and dashes is "123"), the
    conversion to a number raises, nothing catches it, and [clean_data]
    ends with the exception instead of a frame. *)
Theorem clean_data_raises_on_dotted_wno :
  isdigit (remove_char "-" (remove_char "." (str (CStr "1.2.3")))) = true /\
  format_wno (CStr "1.2.3") =
    Raise (ValueError "could not convert string to float: '1.2.3'") /\
  clean_data (frame_to_clean records_bad_wno) =
    Raise (ValueError "could not convert string to float: '1.2.3'").
Proof. repeat split; vm_compute; reflexivity. Qed.

End Normalizer.

(* ================================================================= *)
(** ** Lemmas on the sort order and on sorting *)

Module SortFacts.
Import PyStr Py Pandas BOMProcessor Notions.







(** The order on the rows of a frame under a list of sort columns. *)
Section RowOrder.
Variable key : nat -> string -> cell.


End RowOrder.

Section SortBy.
Context {A : Type} (leb : A -> A -> bool).
Hypothesis leb_total : forall x y, leb x y = true \/ leb y x = true.
Hypothesis leb_trans :
  forall x y z, leb x y = true -> leb y z = true -> leb x z = true.

Lemma insert_sorted_perm (x : A) (xs : list A) :
  Permutation (insert_sorted leb x xs) (x :: xs).
Proof.
  induction xs as [|y xs IH]; simpl; [reflexivity|].
  destruct (leb x y); [reflexivity|].
  rewrite IH. apply perm_swap.
Qed.

Lemma sort_by_perm (xs : list A) : Permutation (sort_by leb xs) xs.
Proof.
  induction xs as [|x xs IH]; simpl; [reflexivity|].
  rewrite insert_sorted_perm. now constructor.
Qed.


End SortBy.

End SortFacts.
(* ================================================================= *)
(** ** The grouped sheets *)

Module Views.
Import PyStr Py Pandas BOMProcessor Notions Examples SortFacts.


(** When the sort returns, its result is the labels in the order of
    their rows. *)
Lemma sort_values_order (df : DataFrame) (by_cols : list string)
    (labels view : list nat) :
  sort_values df by_cols labels = Ok view ->
  view = sort_by (fun i j => key_leb (sort_key df by_cols i)
                               (sort_key df by_cols j)) labels.
Proof.
  unfold sort_values.
  destruct by_cols as [|c [|c' cs]];
    match goal with
    | |- context [if ?b then _ else _] => destruct b
    end; intros H; try discriminate H; now injection H as <-.
Qed.

Lemma sorted_indices_perm (df : DataFrame) (g : string) (view : list nat) :
  sorted_indices df g = Ok view ->
  Permutation view (filtered_indices df g).
Proof.
  intros H. apply sort_values_order in H. subst view. apply sort_by_perm.
Qed.



(** The loop over the grouping columns, once it has returned: every
    grouping column the frame has was sorted, and its sheet was added
    after those of the columns before it. *)
Lemma write_groups_spec (df : DataFrame) (gs : list string)
    (wb0 wb : workbook) :
  for_each (write_group df) gs wb0 = Ok wb ->
  exists views : list (string * list nat),
    map fst views = filter (has_column df) gs /\
    Forall (fun gv => sorted_indices df (fst gv) = Ok (snd gv)) views /\
    wb = (wb0 ++ map (fun gv => (sheet_name_of (fst gv),
                                 group_sheet df (snd gv))) views)%list.
Proof.
  revert wb0. induction gs as [|g gs IH]; intros wb0; cbn [for_each].
  - intros [= <-]. exists []. now rewrite app_nil_r.
  - unfold write_group at 1. cbn [filter].
    destruct (has_column df g).
    + destruct (sorted_indices df g) as [view|e] eqn:Es; cbn [bind];
        [|discriminate].
      intros H. apply IH in H. destruct H as (views & Hn & Hs & ->).
      exists ((g, view) :: views). cbn [map fst snd].
      split; [now rewrite Hn|]. split; [now constructor|].
      now rewrite <- app_assoc.
    + cbn [bind]. apply IH.
Qed.

(** The sheet names of the grouping columns differ from one another and
    from the name of the master sheet. *)
Lemma group_sheet_names :
  NoDup ("전체" :: map sheet_name_of group_columns).
Proof.
  replace ("전체" :: map sheet_name_of group_columns)
    with (nodup string_dec ("전체" :: map sheet_name_of group_columns))
    by reflexivity.
  apply NoDup_nodup.
Qed.

Lemma find_unique_name {A : Type} (nm : string) (x : A)
    (l : list (string * A)) :
  NoDup (map fst l) -> In (nm, x) l ->
  find (fun p => String.eqb nm (fst p)) l = Some (nm, x).
Proof.
  induction l as [|[k v] l IH]; intros Hnd Hin; [destruct Hin|].
  cbn [map fst] in Hnd. inversion Hnd as [|? ? Hk Hnd']; subst.
  cbn [find fst]. destruct (String.eqb_spec nm k) as [->|Hne].
  - destruct Hin as [[= <-]|Hin]; [reflexivity|].
    exfalso. apply Hk. apply in_map_iff. now exists (k, x).
  - destruct Hin as [[= -> _]|Hin]; [contradiction|]. now apply IH.
Qed.

(** Names of the entries of a list that a test keeps. *)
Section KeptNames.
Context {A B : Type}.
Variable name_of : A -> B.
Variable keep : A -> bool.

Lemma kept_name_is_a_name (entries : list A) (nm : B) :
  In nm (map name_of (filter keep entries)) -> In nm (map name_of entries).
Proof.
  intros H. apply in_map_iff in H. destruct H as (x & <- & Hx).
  apply filter_In in Hx. apply in_map. tauto.
Qed.

Lemma kept_names_differ (entries : list A) :
  NoDup (map name_of entries) ->
  NoDup (map name_of (filter keep entries)).
Proof.
  induction entries as [|x entries IH]; cbn [map filter]; intros H;
    [constructor|].
  apply NoDup_cons_iff in H. destruct H as [Hx Hl].
  destruct (keep x); [|now apply IH].
  cbn [map]. constructor; [|now apply IH].
  intros Hin. apply Hx. now apply kept_name_is_a_name.
Qed.
End KeptNames.

Lemma written_names (df : DataFrame) (wb : workbook) :
  write_sheets df = Ok wb ->
  exists views : list (string * list nat),
    map fst views = filter (has_column df) group_columns /\
    Forall (fun gv => sorted_indices df (fst gv) = Ok (snd gv)) views /\
    wb = ("전체", to_excel df)
         :: map (fun gv => (sheet_name_of (fst gv), group_sheet df (snd gv)))
              views /\
    NoDup (map fst wb).
Proof.
  intros H. apply write_groups_spec in H.
  destruct H as (views & Hn & Hs & ->). exists views.
  split; [assumption|]. split; [assumption|]. split; [reflexivity|].
  cbn [app map fst]. rewrite map_map. cbn [fst].
  rewrite <- (map_map fst sheet_name_of), Hn.
  pose proof group_sheet_names as Hnd.
  apply NoDup_cons_iff in Hnd. destruct Hnd as [Hm Hg]. constructor.
  - intros Hin. apply Hm. now apply (kept_name_is_a_name _ _ _ _ Hin).
  - now apply kept_names_differ.
Qed.

(** The sheet written under the name of a grouping column the frame has
    is that column's sheet. *)
Lemma get_group_sheet (df : DataFrame) (g : string) (wb : workbook) :
  write_sheets df = Ok wb ->
  In g group_columns -> has_column df g = true ->
  exists view,
    sorted_indices df g = Ok view /\
    get_sheet wb (sheet_name_of g) = Some (group_sheet df view).
Proof.
  intros Hw Hin Hg.
  destruct (written_names df wb Hw) as (views & Hn & Hs & Hwb & Hnd).
  assert (Hgv : In g (map fst views)).
  { rewrite Hn. apply filter_In. tauto. }
  apply in_map_iff in Hgv. destruct Hgv as ([g' view] & Eg & Hv).
  cbn [fst] in Eg. subst g'.
  exists view. split.
  - rewrite Forall_forall in Hs. exact (Hs _ Hv).
  - unfold get_sheet.
    rewrite (find_unique_name (sheet_name_of g) (group_sheet df view));
      [reflexivity | assumption |].
    rewrite Hwb. right.
    apply in_map_iff. now exists (g, view).
Qed.

Lemma nth_error_seq_some (a n c k : nat) :
  nth_error (seq a n) c = Some k -> k = a + c.
Proof.
  revert a c. induction n as [|n IH]; intros a [|c]; simpl; try discriminate.
  - intros [= <-]. lia.
  - intros H. apply IH in H. lia.
Qed.

(** Every cell under the header of a grouped sheet is a formula naming
    the master sheet, the letter of its own column, and the row label
    plus two. *)
Lemma group_sheet_cells (df : DataFrame) (view : list nat) (r c : nat)
    (x : cell) :
  sheet_cell (group_sheet df view) (S (S r)) (S c) = Some x ->
  exists original_idx,
    nth_error view r = Some original_idx /\
    x = CStr (formula (get_column_letter (S c)) (original_idx + 2)) /\
    is_formula x = true.
Proof.
  unfold sheet_cell, group_sheet. simpl nth_error.
  rewrite nth_error_map.
  destruct (nth_error view r) as [i|]; simpl; [|discriminate].
  rewrite nth_error_map.
  destruct (nth_error (seq 1 _) c) as [k|] eqn:E; simpl; [|discriminate].
  intros [= <-]. exists i. split; [reflexivity|].
  apply nth_error_seq_some in E. subst k.
  split; reflexivity.
Qed.

(** Where [to_excel] puts a row: with the labels 0, 1, 2, ... the row
    labelled [idx] is in sheet row [idx + 2], the row the formulas name. *)
Lemma reference_hits_master_row (df : DataFrame) (idx c : nat) :
  index df = seq 0 (List.length (index df)) ->
  In idx (index df) ->
  sheet_cell (to_excel df) (idx + 2) (S c) = nth_error (row_at df idx) c.
Proof.
  intros Hseq Hin. unfold sheet_cell, to_excel.
  replace (idx + 2) with (S (S idx)) by lia. simpl nth_error.
  rewrite nth_error_map.
  rewrite Hseq in Hin. apply in_seq in Hin.
  replace (nth_error (seq 0 (List.length (index df))) idx) with (Some idx).
  - reflexivity.
  - symmetry. rewrite nth_error_nth' with (d := 0) by (rewrite length_seq; lia).
    rewrite seq_nth by lia. reflexivity.
Qed.

(** C3, at the failing input.  The first weld row holds only error
    cells; its record is blank throughout, [clean_data] drops it, and the
    record that stays keeps the label 1.  [to_excel] writes that record
    in row 2 of the master sheet, and the grouped sheet names row 3,
    where the master sheet has nothing. *)
Theorem view_reference_misses_master_row :
  (exists rep,
     match_data weld_error_row detail_example = Ok rep /\
     results (final rep) = records_error_row) /\
  exists wb master view,
    option2_excel_with_charts (DataFrame_of_records records_error_row) = Ok wb /\
    get_sheet wb "전체" = Some master /\
    get_sheet wb (sheet_name_of "MATNO") = Some view /\
    master = [[CStr "WELD UNIQUE ID"; CStr "MATNO"; CStr "Grade"];
              [CStr "W2"; CStr "A1"; CStr "X"]] /\
    view = [[CStr "WELD UNIQUE ID"; CStr "MATNO"; CStr "Grade"];
            [CStr "='전체'!A3"; CStr "='전체'!B3"; CStr "='전체'!C3"]] /\
    sheet_cell master 2 2 = Some (CStr "A1") /\
    sheet_cell master 3 2 = None.
Proof.
  split; [eexists; split; reflexivity|].
  eexists. eexists. eexists.
  split; [vm_compute; reflexivity|].
  split; [vm_compute; reflexivity|].
  split; [vm_compute; reflexivity|].
  repeat split; reflexivity.
Qed.

(** C5, at the failing input.  Three welds are matched with materials of
    thickness 12.5, 10 and 9.  Step 4 of [clean_data] turns the whole
    floats into ints and the other into text, so the column T holds
    ["12.5", 10, 9].  The detail table calls its key column "Matno", so T
    is the only grouping column of the master frame and the only sort
    column of its view: [sort_values] compares text with an int, raises
    [TypeError], and option 2 ends before the sheet for T is created. *)
Theorem mixed_thickness_view_raises :
  (exists rep,
     match_data weld_thickness detail_thickness = Ok rep /\
     results (final rep) = records_thickness) /\
  (exists cleaned s,
     clean_data (drop_columns ["_matched"]
                   (DataFrame_of_records records_thickness)) = Ok cleaned /\
     column (reorder_columns cleaned) "T" = Some s /\
     values s = [CStr "12.5"; CInt 10; CInt 9] /\
     filter (has_column (reorder_columns cleaned)) group_columns = ["T"] /\
     sort_cols (reorder_columns cleaned) "T" = ["T"] /\
     filtered_indices (reorder_columns cleaned) "T" = [0; 1; 2]) /\
  exists msg,
    option2_excel_with_charts (DataFrame_of_records records_thickness) =
      Raise (TypeError msg).
Proof.
  split; [eexists; split; reflexivity|].
  split.
  - eexists. eexists.
    split; [vm_compute; reflexivity|].
    split; [vm_compute; reflexivity|].
    repeat split; reflexivity.
  - eexists. vm_compute. reflexivity.
Qed.

End Views.

(* ================================================================= *)
(** ** The projector: [reorder_columns] *)

Module Projector.
Import PyStr Py Pandas BOMProcessor Notions Examples.

Lemma mem_In (c : string) (cs : list string) : mem c cs = true <-> In c cs.
Proof.
  unfold mem. rewrite existsb_exists. split.
  - intros (x & Hx & E). apply String.eqb_eq in E. now subst.
  - intros H. exists c. split; [assumption | apply String.eqb_refl].
Qed.

Lemma mem_filter (c : string) (p : string -> bool) (cs : list string) :
  mem c (filter p cs) = mem c cs && p c.
Proof.
  apply eq_true_iff_eq. rewrite andb_true_iff, !mem_In, filter_In. tauto.
Qed.

Lemma mem_app (c : string) (xs ys : list string) :
  mem c (xs ++ ys)%list = mem c xs || mem c ys.
Proof. unfold mem. apply existsb_app. Qed.

Lemma column_name (df : DataFrame) (c : string) (s : Series) :
  column df c = Some s -> name s = c.
Proof.
  unfold column. intros H. apply find_some in H.
  destruct H as [_ H]. apply String.eqb_eq in H. now symmetry.
Qed.

Lemma column_none_iff (df : DataFrame) (c : string) :
  column df c = None <-> mem c (column_names df) = false.
Proof.
  unfold column, column_names. split.
  - intros H. apply not_true_is_false. intros M. apply mem_In in M.
    apply in_map_iff in M. destruct M as (s & Hs & Hin).
    apply (find_none _ _ H) in Hin. rewrite Hs, String.eqb_refl in Hin.
    discriminate.
  - intros H. destruct (find _ (series df)) as [s|] eqn:F; [|reflexivity].
    apply find_some in F. destruct F as [Hin E]. apply String.eqb_eq in E.
    assert (M : mem c (map name (series df)) = true).
    { apply mem_In. subst c. now apply in_map. }
    congruence.
Qed.

(** The header of [df[cs]] is [cs] when the frame has every name of it. *)
Lemma select_columns_names (df : DataFrame) (cs : list string) :
  (forall c, In c cs -> mem c (column_names df) = true) ->
  column_names (select_columns cs df) = cs.
Proof.
  unfold select_columns, column_names. simpl.
  induction cs as [|c cs IH]; intros H; simpl; [reflexivity|].
  destruct (column df c) as [s|] eqn:E.
  - simpl. rewrite (column_name _ _ _ E). f_equal. apply IH.
    intros c' Hc'. apply H. now right.
  - apply column_none_iff in E. rewrite H in E by now left. discriminate.
Qed.

(** [df[cs][c]] is [df[c]] when [c] is among [cs], and missing otherwise. *)
Lemma select_columns_column (df : DataFrame) (cs : list string) (c : string) :
  column (select_columns cs df) c = if mem c cs then column df c else None.
Proof.
  unfold select_columns, column at 1. simpl.
  induction cs as [|c' cs IH]; simpl; [reflexivity|].
  destruct (column df c') as [s|] eqn:E; simpl.
  - rewrite (column_name _ _ _ E).
    destruct (String.eqb c c') eqn:Ec; simpl.
    + apply String.eqb_eq in Ec. subst c'. now rewrite E.
    + exact IH.
  - destruct (String.eqb c c') eqn:Ec; simpl; [|exact IH].
    apply String.eqb_eq in Ec. subst c'. rewrite E.
    rewrite IH. now destruct (mem c cs).
Qed.

Lemma filter_filter {A : Type} (p q : A -> bool) (xs : list A) :
  filter p (filter q xs) = filter (fun x => q x && p x) xs.
Proof.
  induction xs as [|x xs IH]; simpl; [reflexivity|].
  destruct (q x); simpl; [destruct (p x)|]; now rewrite IH.
Qed.

Lemma filter_all {A : Type} (p : A -> bool) (xs : list A) :
  (forall x, In x xs -> p x = true) -> filter p xs = xs.
Proof.
  induction xs as [|x xs IH]; intros H; simpl; [reflexivity|].
  rewrite H by now left. f_equal. apply IH. intros y Hy. apply H. now right.
Qed.

Lemma filter_none {A : Type} (p : A -> bool) (xs : list A) :
  (forall x, In x xs -> p x = false) -> filter p xs = [].
Proof.
  induction xs as [|x xs IH]; intros H; simpl; [reflexivity|].
  rewrite H by now left. apply IH. intros y Hy. apply H. now right.
Qed.

Lemma flat_map_ext_within {A B : Type} (f g : A -> list B) (xs : list A) :
  (forall x, In x xs -> f x = g x) -> flat_map f xs = flat_map g xs.
Proof.
  induction xs as [|x xs IH]; intros H; simpl; [reflexivity|].
  rewrite H by now left. f_equal. apply IH. intros y Hy. apply H. now right.
Qed.

Lemma column_order_NoDup : NoDup column_order.
Proof.
  replace column_order with (nodup string_dec column_order) by reflexivity.
  apply NoDup_nodup.
Qed.

(** The list [final_cols] that [reorder_columns] builds, read off the
    header [names] alone. *)
Lemma final_cols_eq (names : list string) :
  let existing_cols :=
    filter (fun col => negb (mem col exclude_columns)) names in
  let ordered_cols := filter (fun col => mem col existing_cols) column_order in
  let remaining_cols :=
    filter (fun col => negb (mem col ordered_cols)
                       && negb (mem col exclude_columns)) existing_cols in
  (ordered_cols ++ remaining_cols)%list =
  (filter (fun c => mem c names && negb (mem c exclude_columns)) column_order
   ++ filter (fun c => negb (mem c column_order)
                       && negb (mem c exclude_columns)) names)%list.
Proof.
  intros existing_cols ordered_cols remaining_cols.
  assert (Ho : ordered_cols =
               filter (fun c => mem c names && negb (mem c exclude_columns))
                 column_order).
  { unfold ordered_cols, existing_cols. apply filter_ext.
    intros c. apply mem_filter. }
  f_equal; [exact Ho|].
  unfold remaining_cols, existing_cols. rewrite filter_filter.
  apply filter_ext_in. intros c Hc.
  rewrite Ho, mem_filter.
  apply mem_In in Hc. rewrite Hc.
  destruct (mem c exclude_columns), (mem c column_order); reflexivity.
Qed.

Lemma mem_final_cols (names : list string) (c : string) :
  mem c (filter (fun c => mem c names && negb (mem c exclude_columns))
           column_order
         ++ filter (fun c => negb (mem c column_order)
                             && negb (mem c exclude_columns)) names)%list =
  mem c names && negb (mem c exclude_columns).
Proof.
  rewrite mem_app, !mem_filter.
  destruct (mem c names), (mem c exclude_columns), (mem c column_order);
    reflexivity.
Qed.

(** The header after [reorder_columns]: the names of the priority list
    that the frame has and that are not excluded, in priority order, then
    the frame's other names that are not excluded, in the order the frame
    has them.  No name is repeated and the row labels are untouched. *)
Theorem reorder_columns_header (df : DataFrame) :
  NoDup (column_names df) ->
  column_names (reorder_columns df) =
    (filter (fun c => mem c (column_names df)
                      && negb (mem c exclude_columns)) column_order
     ++ filter (fun c => negb (mem c column_order)
                         && negb (mem c exclude_columns)) (column_names df))%list
  /\ NoDup (column_names (reorder_columns df))
  /\ index (reorder_columns df) = index df.
Proof.
  intros Hnd.
  assert (Hh : column_names (reorder_columns df) =
    (filter (fun c => mem c (column_names df)
                      && negb (mem c exclude_columns)) column_order
     ++ filter (fun c => negb (mem c column_order)
                         && negb (mem c exclude_columns)) (column_names df))%list).
  { unfold reorder_columns. cbv zeta. rewrite final_cols_eq.
    apply select_columns_names. intros c Hc.
    apply mem_In in Hc. rewrite mem_final_cols in Hc.
    apply andb_true_iff in Hc. tauto. }
  split; [exact Hh|]. split; [|reflexivity].
  rewrite Hh. apply NoDup_app.
  - apply NoDup_filter, column_order_NoDup.
  - now apply NoDup_filter.
  - intros c H1 H2. apply filter_In in H1, H2.
    destruct H1 as [H1 _]. destruct H2 as [_ H2].
    apply mem_In in H1. rewrite H1 in H2. discriminate.
Qed.

Lemma reorder_columns_header_witness :
  column_names (reorder_columns unordered_example) =
    ["WELD UNIQUE ID"; "MATNO"; "Grade"; "EXTRA"].
Proof.
  destruct (reorder_columns_header unordered_example) as (H & _ & _).
  - repeat constructor; simpl; intuition discriminate.
  - exact H.
Defined.

(** What [reorder_columns] keeps: a column of the exclusion list is gone,
    and any other column reads the very same cells as before. *)
Theorem reorder_columns_keeps_cells (df : DataFrame) (c : string) :
  NoDup (column_names df) ->
  column (reorder_columns df) c =
  if mem c exclude_columns then None else column df c.
Proof.
  intros _. unfold reorder_columns. cbv zeta.
  rewrite final_cols_eq, select_columns_column, mem_final_cols.
  destruct (mem c exclude_columns); rewrite ?andb_false_r, ?andb_true_r;
    [reflexivity|].
  destruct (mem c (column_names df)) eqn:M; [reflexivity|].
  symmetry. now apply column_none_iff.
Qed.

Lemma reorder_columns_keeps_cells_witness :
  column (reorder_columns unordered_example) "MATNO1" = None /\
  column (reorder_columns unordered_example) "EXTRA" =
    Some (MkSeries "EXTRA" object [CStr "e1"; CStr "e2"]).
Proof.
  assert (H : NoDup (column_names unordered_example))
    by (repeat constructor; simpl; intuition discriminate).
  split.
  - exact (reorder_columns_keeps_cells unordered_example "MATNO1" H).
  - exact (reorder_columns_keeps_cells unordered_example "EXTRA" H).
Defined.

(** Projecting twice is projecting once. *)
Theorem reorder_columns_idempotent (df : DataFrame) :
  NoDup (column_names df) ->
  reorder_columns (reorder_columns df) = reorder_columns df.
Proof.
  intros Hnd.
  destruct (reorder_columns_header df Hnd) as (Hh & _ & _).
  set (F := (filter (fun c => mem c (column_names df)
                              && negb (mem c exclude_columns)) column_order
             ++ filter (fun c => negb (mem c column_order)
                                 && negb (mem c exclude_columns))
                  (column_names df))%list) in *.
  assert (Hr : reorder_columns df = select_columns F df).
  { unfold reorder_columns. cbv zeta. now rewrite final_cols_eq. }
  assert (HF : (filter (fun c => mem c F && negb (mem c exclude_columns))
                  column_order
                ++ filter (fun c => negb (mem c column_order)
                                    && negb (mem c exclude_columns)) F)%list
               = F).
  { unfold F at 3. f_equal.
    - apply filter_ext. intros c. unfold F. rewrite mem_final_cols.
      destruct (mem c (column_names df)), (mem c exclude_columns); reflexivity.
    - unfold F. rewrite filter_app, filter_none, filter_all; [reflexivity| |].
      + intros c Hc. apply filter_In in Hc. tauto.
      + intros c Hc. apply filter_In in Hc. destruct Hc as [Hc _].
        apply mem_In in Hc. now rewrite Hc. }
  unfold reorder_columns at 1. cbv zeta.
  rewrite final_cols_eq, Hh, HF, Hr.
  unfold select_columns at 1. simpl index.
  unfold select_columns at 2. f_equal.
  apply flat_map_ext_within. intros c Hc.
  rewrite select_columns_column.
  apply mem_In in Hc. now rewrite Hc.
Qed.

Lemma reorder_columns_idempotent_witness :
  reorder_columns (reorder_columns unordered_example) =
  reorder_columns unordered_example.
Proof.
  apply (reorder_columns_idempotent unordered_example).
  repeat constructor; simpl; intuition discriminate.
Defined.

End Projector.

(* ================================================================= *)
(** ** More on [match_data] and on [result_df] *)

Module MatcherMore.
Import PyStr Py Pandas BOMProcessor Notions Examples DictFacts MatchFacts.

Lemma for_each_invariant {A S : Type} (P : S -> Prop)
    (body : A -> S -> result S) (xs : list A) :
  (forall x s s', P s -> body x s = Ok s' -> P s') ->
  forall s s', P s -> for_each body xs s = Ok s' -> P s'.
Proof.
  intros Hbody. induction xs as [|x xs IH]; intros s s' Hs; simpl.
  - now intros [= <-].
  - destruct (body x s) as [s1|e] eqn:E; simpl; [|discriminate].
    apply IH. eapply Hbody; eassumption.
Qed.

Lemma counters_agree_append (st : match_state) (row : dict) (hit : bool) :
  counters_agree st ->
  counters_agree (append_result st (dict_set row "_matched" (CBool hit)) hit).
Proof.
  intros (Hm & Hs & Hf). unfold counters_agree, flag_count in *.
  unfold append_result. cbn [results matched missing].
  rewrite !filter_app, !length_app, <- Hm, <- Hs. cbn [filter].
  rewrite dict_get_set, String.eqb_refl.
  split; [|split].
  - destruct hit; cbn; lia.
  - destruct hit; cbn; lia.
  - apply Forall_app. split; [assumption|].
    constructor; [|constructor]. exists hit.
    now rewrite dict_get_set, String.eqb_refl.
Qed.

Lemma match_slot_counters (detail : table) (dcol : option string)
    (wd : dict) (c : string) (st st' : match_state) :
  counters_agree st -> match_slot detail dcol wd c st = Ok st' ->
  counters_agree st'.
Proof.
  intros H. unfold match_slot, getitem.
  destruct (dict_get c wd) as [v|]; simpl; [|discriminate].
  destruct (slot_is_filled v); [|now intros [= <-]].
  destruct dcol as [d|]; [|discriminate].
  destruct (rows_where_eq detail d v); intros [= <-];
    now apply counters_agree_append.
Qed.

(** Whenever [match_data] returns, its success counter is the number of
    records flagged matched, its failure counter the number flagged
    unmatched, and every record has the flag. *)
Theorem match_counters_count_flags (weld detail : table) (rep : match_report) :
  match_data weld detail = Ok rep ->
  matched (final rep) = flag_count true (results (final rep)) /\
  missing (final rep) = flag_count false (results (final rep)) /\
  Forall (fun r => exists b, dict_get "_matched" r = Some (CBool b))
    (results (final rep)).
Proof.
  unfold match_data.
  destruct (for_each (match_row weld detail) (rows weld) (MatchState [] 0 0))
    as [st|e] eqn:E; simpl; [|discriminate].
  intros [= <-]. simpl.
  apply (for_each_invariant counters_agree (match_row weld detail)
           (rows weld)) with (s := MatchState [] 0 0) (s' := st);
    [| repeat split; constructor | exact E].
  intros r s s' Hs. unfold match_row.
  apply (for_each_invariant counters_agree); [|exact Hs].
  intros c s1 s2. apply match_slot_counters.
Qed.

Lemma match_counters_count_flags_witness :
  exists rep,
    match_data weld_example detail_example = Ok rep /\
    matched (final rep) = 1 /\ missing (final rep) = 1.
Proof.
  eexists. split; [reflexivity|].
  destruct (match_counters_count_flags weld_example detail_example _ eq_refl)
    as (Hm & Hs & _).
  split; [exact Hm | exact Hs].
Defined.

Lemma key_column_is_not_the_flag (dcol : string) :
  upper dcol = "MATNO" -> String.eqb dcol "_matched" = false.
Proof.
  intros H. destruct (String.eqb dcol "_matched") eqn:E; [|reflexivity].
  apply String.eqb_eq in E. subst dcol. discriminate H.
Qed.

(** Every record [match_data] returns comes from a weld row and one of
    its filled slots, and reads under the detail key column a value equal
    to that slot's value: the key of the detail row on a hit, the slot
    value itself on a miss. *)
Theorem records_carry_their_slot_value
    (weld detail : table) (dcol : string) (rep : match_report) (rec : dict) :
  rectangular weld ->
  find_detail_matno_col detail = Some dcol ->
  match_data weld detail = Ok rep ->
  In rec (results (final rep)) ->
  exists r c v,
    In r (rows weld) /\ In c (filled_slots weld r) /\
    dict_get dcol rec = Some v /\
    (dict_get "_matched" rec = Some (CBool true) /\
     equals v (field (row_dict weld r) c) = true
     \/
     dict_get "_matched" rec = Some (CBool false) /\
     v = field (row_dict weld r) c).
Proof.
  intros Hrect Hd Hm Hin.
  destruct (match_data_spec weld detail dcol Hrect Hd) as (rep' & E & _ & R & _).
  rewrite Hm in E. injection E as <-.
  rewrite R in Hin. apply in_flat_map in Hin. destruct Hin as (r & Hr & Hin).
  apply in_map_iff in Hin. destruct Hin as (c & <- & Hc).
  assert (Hk : String.eqb dcol "_matched" = false).
  { apply key_column_is_not_the_flag. apply find_some in Hd.
    apply String.eqb_eq. tauto. }
  unfold emitted_record, first_match.
  destruct (find _ (rows detail)) as [d|] eqn:F; simpl.
  - apply find_some in F. destruct F as [_ F].
    assert (Hv : exists v, dict_get dcol (row_dict detail d) = Some v).
    { unfold field in F. destruct (dict_get dcol (row_dict detail d)) as [v|];
        [now exists v|]. now rewrite equals_nan_l in F. }
    destruct Hv as (v & Hv). exists r, c, v.
    split; [assumption|]. split; [assumption|].
    rewrite !dict_get_set, Hk, String.eqb_refl.
    rewrite dict_get_merge by apply dict_zip_NoDup. rewrite Hv.
    split; [reflexivity|]. left. split; [reflexivity|].
    unfold field in F at 1. now rewrite Hv in F.
  - exists r, c, (field (row_dict weld r) c).
    split; [assumption|]. split; [assumption|].
    rewrite !dict_get_set, Hk, !String.eqb_refl.
    split; [reflexivity|]. right. split; reflexivity.
Qed.

Lemma records_carry_their_slot_value_witness :
  exists r c v,
    In r (rows weld_example) /\ In c (filled_slots weld_example r) /\
    dict_get "MATNO"
      (emitted_record weld_example detail_example "MATNO"
         [CStr "W1"; CStr "A1"; CStr ""; CStr "B2"] "MATNO3") = Some v /\
    (dict_get "_matched"
       (emitted_record weld_example detail_example "MATNO"
          [CStr "W1"; CStr "A1"; CStr ""; CStr "B2"] "MATNO3")
       = Some (CBool true) /\
     equals v (field (row_dict weld_example r) c) = true
     \/
     dict_get "_matched"
       (emitted_record weld_example detail_example "MATNO"
          [CStr "W1"; CStr "A1"; CStr ""; CStr "B2"] "MATNO3")
       = Some (CBool false) /\
     v = field (row_dict weld_example r) c).
Proof.
  refine (records_carry_their_slot_value weld_example detail_example "MATNO"
            _ _ _ eq_refl eq_refl _).
  - repeat constructor.
  - right. left. reflexivity.
Defined.

End MatcherMore.

(* ================================================================= *)
(** ** The frame built from the records *)

Module Frames.
Import PyStr Py Pandas BOMProcessor Notions Examples DictFacts.

Lemma add_keys_spec (ks acc : list string) :
  NoDup acc ->
  let out := fold_left (fun acc' k =>
               if existsb (String.eqb k) acc' then acc'
               else (acc' ++ [k])%list) ks acc in
  NoDup out /\ forall k, In k out <-> In k acc \/ In k ks.
Proof.
  revert acc. induction ks as [|k0 ks IH]; intros acc Hnd; simpl.
  - split; [assumption | tauto].
  - destruct (existsb (String.eqb k0) acc) eqn:E.
    + destruct (IH acc Hnd) as [H1 H2]. split; [exact H1|].
      intros k. rewrite H2.
      apply existsb_exists in E. destruct E as (x & Hx & Ex).
      apply String.eqb_eq in Ex. subst x.
      split; [tauto|]. intros [H|[<-|H]]; tauto.
    + apply existsb_eqb_false in E.
      assert (Hnd' : NoDup (acc ++ [k0])).
      { apply (Permutation_NoDup (Permutation_cons_append acc k0)).
        now constructor. }
      destruct (IH _ Hnd') as [H1 H2]. split; [exact H1|].
      intros k. rewrite H2, in_app_iff. simpl. tauto.
Qed.

Lemma union_keys_spec (recs : list dict) :
  NoDup (union_keys recs) /\
  forall k, In k (union_keys recs) <->
            exists d, In d recs /\ In k (dict_keys d).
Proof.
  unfold union_keys.
  assert (G : forall acc, NoDup acc ->
    let out := fold_left (fun acc d =>
        fold_left (fun acc' k =>
          if existsb (String.eqb k) acc' then acc'
          else (acc' ++ [k])%list) (dict_keys d) acc) recs acc in
    NoDup out /\
    forall k, In k out <->
              In k acc \/ exists d, In d recs /\ In k (dict_keys d)).
  { induction recs as [|d recs IH]; intros acc Hnd; simpl.
    - split; [assumption|]. intros k. split; [tauto|].
      intros [H|(d & [] & _)]; assumption.
    - destruct (add_keys_spec (dict_keys d) acc Hnd) as [H1 H2].
      destruct (IH _ H1) as [H3 H4]. split; [exact H3|].
      intros k. rewrite H4, H2. split.
      + intros [[H|H]|(d' & Hd' & Hk)]; [tauto | right|right].
        * exists d. split; [now left | assumption].
        * exists d'. split; [now right | assumption].
      + intros [H|(d' & [<-|Hd'] & Hk)]; [tauto | tauto |].
        right. exists d'. tauto. }
  destruct (G [] (NoDup_nil _)) as [H1 H2]. split; [exact H1|].
  intros k. rewrite H2. split; [intros [[]|H]; exact H | now right].
Qed.

Lemma infer_values (vs : list cell) :
  snd (infer vs) = vs \/ snd (infer vs) = map to_float vs.
Proof.
  unfold infer. destruct vs as [|v vs]; [now left|].
  destruct (forallb is_bool (v :: vs)); [now left|].
  destruct (forallb is_int (v :: vs)); [now left|].
  destruct (forallb _ (v :: vs) && negb _); [now right|].
  destruct (forallb _ (v :: vs) && negb _); [now right | now left].
Qed.

Lemma infer_length (vs : list cell) :
  List.length (snd (infer vs)) = List.length vs.
Proof.
  destruct (infer_values vs) as [-> | ->]; [reflexivity | apply length_map].
Qed.

Lemma frame_of_records_names (recs : list dict) :
  column_names (DataFrame_of_records recs) = union_keys recs.
Proof.
  unfold column_names, DataFrame_of_records. simpl.
  rewrite map_map. simpl. apply map_id.
Qed.

Lemma frame_of_records_rectangular (recs : list dict) :
  frame_rectangular (DataFrame_of_records recs).
Proof.
  unfold frame_rectangular, DataFrame_of_records. simpl.
  apply Forall_map. apply Forall_forall. intros k _. simpl.
  now rewrite infer_length, length_map, length_seq.
Qed.

(** The frame [pd.DataFrame(results)]: the labels are 0, 1, ... in record
    order; there is one column per key that occurs in some record, none
    twice; every column has one cell per record; and a cell is the
    record's value under the key, [nan] where the record lacks the key,
    with the ints of a numeric column that also holds a float or a [nan]
    stored as floats. *)
Theorem result_frame_shape (recs : list dict) :
  let df := DataFrame_of_records recs in
  index df = seq 0 (List.length recs) /\
  NoDup (column_names df) /\
  (forall k, In k (column_names df) <->
             exists d, In d recs /\ dict_get k d <> None) /\
  frame_rectangular df /\
  forall k s, column df k = Some s ->
    values s = map (fun d => field d k) recs \/
    values s = map (fun d => to_float (field d k)) recs.
Proof.
  intros df. split; [reflexivity|].
  destruct (union_keys_spec recs) as [Hnd Hin].
  split; [unfold df; now rewrite frame_of_records_names|].
  split.
  { intros k. unfold df. rewrite frame_of_records_names, Hin.
    split; intros (d & Hd & Hk); exists d; (split; [assumption|]).
    - intros Hn. apply dict_get_none_iff in Hn. contradiction.
    - destruct (in_dec string_dec k (dict_keys d)) as [H|H]; [assumption|].
      apply dict_get_none_iff in H. contradiction. }
  split.
  { unfold frame_rectangular, df, DataFrame_of_records. simpl.
    apply Forall_map. apply Forall_forall. intros k _. simpl.
    now rewrite infer_length, length_map, length_seq. }
  intros k s Hs. unfold column, df, DataFrame_of_records in Hs. simpl in Hs.
  apply find_some in Hs. destruct Hs as [Hs Hk].
  apply in_map_iff in Hs. destruct Hs as (k' & <- & _).
  simpl in Hk. apply String.eqb_eq in Hk. subst k'. simpl.
  destruct (infer_values (map (fun d => match dict_get k d with
                                        | Some v => v
                                        | None => CNaN
                                        end) recs)) as [-> | ->].
  - now left.
  - right. now rewrite map_map.
Qed.

End Frames.

(* ================================================================= *)
(** ** The cross-sheet validator *)

Module Validator.
Import PyStr Py Pandas BOMProcessor Notions Examples Frames.

(** *** Reading a row and looking a key up *)

Lemma equals_to_float (v k : cell) : equals (to_float v) k = equals v k.
Proof. destruct v, k; reflexivity. Qed.

(** The cell of a row under a column is the cell of the column at the
    row's position, an int read as a float when the row is upcast. *)
Lemma field_iloc (df : DataFrame) (key : string) (s : Series) (p : nat) :
  column df key = Some s ->
  field (iloc df p) key = nth p (values s) CNaN \/
  field (iloc df p) key = to_float (nth p (values s) CNaN).
Proof.
  unfold column, field, iloc.
  generalize (upcast (map dtype_of (series df))) as up. intros up. induction (series df) as [|s' ss IH]; cbn [find map dict_get];
    [discriminate|].
  destruct (String.eqb key (name s')).
  - intros [= ->]. destruct up; [now right | now left].
  - exact IH.
Qed.

Lemma key_test_iloc (df : DataFrame) (key : string) (s : Series) (p : nat)
    (key_val : cell) :
  column df key = Some s ->
  equals (field (iloc df p) key) key_val =
  equals (nth p (values s) CNaN) key_val.
Proof.
  intros H. destruct (field_iloc df key s p H) as [-> | ->];
    [reflexivity | apply equals_to_float].
Qed.

Lemma find_agree {A : Type} (f g : A -> bool) (l : list A) :
  (forall x, In x l -> f x = g x) -> find f l = find g l.
Proof.
  induction l as [|y l IH]; intros H; cbn [find]; [reflexivity|].
  rewrite (H y) by now left.
  destruct (g y); [reflexivity|]. apply IH. intros x Hx. apply H. now right.
Qed.

Lemma find_combine_seq (f : cell -> bool) (a : nat) (vals : list cell) :
  option_map fst (find (fun pv => f (snd pv))
                    (combine (seq a (List.length vals)) vals)) =
  find (fun p => f (nth (p - a) vals CNaN)) (seq a (List.length vals)).
Proof.
  revert a. induction vals as [|v vals IH]; intros a; [reflexivity|].
  cbn [List.length seq combine find snd]. rewrite Nat.sub_diag. cbn [nth].
  destruct (f v); [reflexivity|]. rewrite IH. apply find_agree.
  intros p Hp. apply in_seq in Hp.
  replace (p - a) with (S (p - S a)) by lia. reflexivity.
Qed.

(** The lookup of the validator finds the first row, by position, whose
    cell under the key column equals the key. *)
Lemma resolve_first (df : DataFrame) (key : string) (key_val : cell)
    (found : option dict) :
  frame_rectangular df ->
  resolve df key key_val = Ok found ->
  found = first_with_key df key key_val.
Proof.
  intros Hrect. unfold resolve, first_with_key.
  destruct (column df key) as [s|] eqn:Hcol; [|discriminate].
  intros [= <-].
  assert (Hlen : List.length (values s) = len df).
  { unfold column in Hcol. apply find_some in Hcol. destruct Hcol as [Hin _].
    unfold frame_rectangular in Hrect. rewrite Forall_forall in Hrect.
    exact (Hrect s Hin). }
  rewrite <- Hlen.
  rewrite (find_agree _ (fun p => equals (nth (p - 0) (values s) CNaN) key_val)).
  - rewrite <- (find_combine_seq (fun v => equals v key_val) 0 (values s)).
    now destruct (find _ (combine _ _)) as [[p v]|].
  - intros p _. rewrite Nat.sub_0_r. now apply key_test_iloc.
Qed.

Section Sampling.
Variable float_equal : string -> string -> bool.

Lemma compare_field_looked_up (g a : DataFrame) (rg ra : dict)
    (st : sample_state) (col : string) :
  looked_up (compare_field float_equal g a rg ra st col) = looked_up st.
Proof.
  unfold compare_field.
  destruct (mem col (column_names g) && mem col (column_names a));
    [|reflexivity].
  destruct (float_equal _ _); [reflexivity|].
  destruct (negb _); reflexivity.
Qed.

Lemma compare_fields_looked_up (g a : DataFrame) (rg ra : dict)
    (cols : list string) (st : sample_state) :
  looked_up (fold_left (compare_field float_equal g a rg ra) cols st) =
  looked_up st.
Proof.
  revert st. induction cols as [|c cols IH]; intros st; simpl; [reflexivity|].
  now rewrite IH, compare_field_looked_up.
Qed.

(** The sampling loop looks the sampled rows up one after the other, each
    by its cell under the key column, whatever the comparison of the
    fields gave before, and ends with the first that is not found. *)
Lemma sample_loop_trace (g a : DataFrame) (key column_ : string)
    (idxs : list nat) (st st' : sample_state) :
  frame_rectangular a ->
  sample_loop float_equal g a key column_ idxs st = Ok st' ->
  looked_up st' =
    (looked_up st ++
     until_first_miss
       (map (fun idx => first_with_key a key (field (iloc g idx) key))
          idxs))%list /\
  (ok_so_far st' = true ->
   Forall (fun idx =>
             first_with_key a key (field (iloc g idx) key) <> None) idxs).
Proof.
  intros Hrect. revert st.
  induction idxs as [|idx idxs IH]; intros st; cbn [sample_loop].
  - intros [= <-]. cbn [map until_first_miss]. rewrite app_nil_r. auto.
  - unfold getitem.
    destruct (dict_get key (iloc g idx)) as [v|] eqn:Ev; cbn [bind];
      [|discriminate].
    assert (Hf : field (iloc g idx) key = v) by (unfold field; now rewrite Ev).
    destruct (resolve a key v) as [found|e] eqn:Er; cbn [bind];
      [|discriminate].
    apply (resolve_first a key v found Hrect) in Er.
    cbn [map until_first_miss]. rewrite Hf, <- Er.
    destruct found as [r|].
    + intros H. apply IH in H. destruct H as (Hl & Hok).
      rewrite compare_fields_looked_up in Hl. cbn [looked_up] in Hl.
      split.
      * rewrite Hl, <- app_assoc. reflexivity.
      * intros Hs. constructor;
          [cbv beta; rewrite Hf, <- Er; discriminate | now apply Hok].
    + intros [= <-]. cbn [looked_up ok_so_far]. split;
        [reflexivity | discriminate].
Qed.

(** The loop only adds to the list of lookups. *)
Lemma sample_loop_looked_up_prefix (g a : DataFrame) (key column_ : string)
    (idxs : list nat) (st st' : sample_state) :
  sample_loop float_equal g a key column_ idxs st = Ok st' ->
  exists l, looked_up st' = (looked_up st ++ l)%list.
Proof.
  revert st. induction idxs as [|idx idxs IH]; intros st; cbn [sample_loop].
  - intros [= <-]. exists []. now rewrite app_nil_r.
  - unfold getitem.
    destruct (dict_get key (iloc g idx)) as [v|]; cbn [bind];
      [|discriminate].
    destruct (resolve a key v) as [[r|]|e]; cbn [bind]; [| |discriminate].
    + intros H. apply IH in H. destruct H as (l & Hl).
      rewrite compare_fields_looked_up in Hl. cbn [looked_up] in Hl.
      exists (Some r :: l). rewrite Hl, <- app_assoc. reflexivity.
    + intros [= <-]. cbn [looked_up]. now exists [None].
Qed.
End Sampling.

(** C8, as the code has it.  With both WELD UNIQUE ID and MATNO in the
    master sheet the sampled rows are looked up by WELD UNIQUE ID: the
    first sampled row of the MATNO sheet is weld W2 and is resolved to
    the master row of W2, while the first master row with its MATNO is
    that of W1.  Without WELD UNIQUE ID the key is MATNO, not the
    grouping column of the sheet: the Grade sheet of a master without
    MATNO ends with [KeyError]. *)
Lemma validator_resolves_by_weld_id_not_matno :
  mem "MATNO" (column_names loaded_master_frame) = true /\
  key_col loaded_master_frame = "WELD UNIQUE ID" /\
  validate_sheet plain_float_equal loaded_master loaded_matno_view "MATNO" =
    Ok (SheetResult true true 0,
        [Some [("WELD UNIQUE ID", CStr "W2"); ("MATNO", CStr "M1");
               ("WEIGHT", CInt 7)];
         Some [("WELD UNIQUE ID", CStr "W1"); ("MATNO", CStr "M1");
               ("WEIGHT", CInt 5)];
         Some [("WELD UNIQUE ID", CStr "W1"); ("MATNO", CStr "M1");
               ("WEIGHT", CInt 5)]]) /\
  first_with_key loaded_master_frame "MATNO" (CStr "M1") =
    Some [("WELD UNIQUE ID", CStr "W1"); ("MATNO", CStr "M1");
          ("WEIGHT", CInt 5)] /\
  validate_sheet plain_float_equal loaded_grades loaded_grades_view "Grade" =
    Raise (KeyError "MATNO").
Proof. repeat split; vm_compute; reflexivity. Qed.

(** C8, amended.  When the row counts agree and the group sheet is not
    empty, the validator samples the positions first, middle and last, in
    that order.  It looks each sampled row up as the first master row
    with the same cell under the key column, goes on to the next sample
    whatever the comparison of the fields gave, and stops after the
    first sample that no master row matches.  The key column is
    WELD UNIQUE ID when the master frame has it, whether or not MATNO is
    there too, and MATNO otherwise: it is chosen from the master frame
    alone, not from the sheet's grouping column.  A sheet reported as
    matching had all three samples found. *)
Theorem sampled_rows_resolve_by_key_column
    (float_equal : string -> string -> bool)
    (ws_all ws_group : loaded_sheet) (column_ : string)
    (res : sheet_result) (looked : list (option dict)) :
  let df_all := frame_of (headers ws_all) (body ws_all) in
  let df_group := frame_of (headers ws_all) (body ws_group) in
  let n := len df_group in
  let key :=
    if mem "WELD UNIQUE ID" (column_names df_all) then "WELD UNIQUE ID"
    else "MATNO" in
  let lookup :=
    fun idx => first_with_key df_all key (field (iloc df_group idx) key) in
  validate_sheet float_equal ws_all ws_group column_ = Ok (res, looked) ->
  row_count_match res = true ->
  empty df_group = false ->
  Forall (fun idx => idx < n) [0; n / 2; n - 1] /\
  looked = until_first_miss (map lookup [0; n / 2; n - 1]) /\
  (data_match res = true ->
   Forall (fun idx => lookup idx <> None) [0; n / 2; n - 1]) /\
  (In column_ group_columns -> key = column_ ->
   column_ = "MATNO" /\
   mem "WELD UNIQUE ID" (column_names df_all) = false).
Proof.
  intros df_all df_group n key lookup Hv Hcount Hne.
  assert (Hkey : In column_ group_columns -> key = column_ ->
            column_ = "MATNO" /\
            mem "WELD UNIQUE ID" (column_names df_all) = false).
  { unfold key. destruct (mem "WELD UNIQUE ID" (column_names df_all)).
    - intros Hin <-. exfalso.
      destruct Hin as [H|[H|[H|[H|[H|[]]]]]]; discriminate H.
    - intros _ <-. split; reflexivity. }
  cut (Forall (fun idx => idx < n) [0; n / 2; n - 1] /\
       looked = until_first_miss (map lookup [0; n / 2; n - 1]) /\
       (data_match res = true ->
        Forall (fun idx => lookup idx <> None) [0; n / 2; n - 1]));
    [tauto|]. clear Hkey.
  assert (Hn : n <> 0).
  { unfold empty in Hne. apply orb_false_iff in Hne. destruct Hne as [Hne _].
    now apply Nat.eqb_neq in Hne. }
  split.
  { repeat constructor; try lia.
    apply Nat.Div0.div_lt_upper_bound; lia. }
  unfold validate_sheet in Hv. cbv zeta in Hv.
  fold df_all in Hv. fold df_group in Hv. fold n in Hv.
  destruct (expected_df df_all column_) as [expected|e]; cbn [bind] in Hv;
    [|discriminate].
  destruct (Nat.eqb n (List.length expected)) eqn:Ec.
  - rewrite Hne in Hv. cbn [andb negb] in Hv.
    destruct (sample_loop float_equal df_group df_all (key_col df_all) column_
                (sample_indices n) (SampleState true 0 [])) as [st|e] eqn:Es;
      cbn [bind] in Hv; [|discriminate].
    injection Hv as <- <-.
    apply sample_loop_trace in Es;
      [|apply frame_of_records_rectangular].
    exact Es.
  - cbn [andb] in Hv. injection Hv as <- <-. discriminate Hcount.
Qed.

Lemma sampled_rows_resolve_by_key_column_witness :
  matno_view_lookups =
    until_first_miss
      (map (fun idx =>
              first_with_key loaded_master_frame "WELD UNIQUE ID"
                (field (iloc (frame_of (headers loaded_master)
                                (body loaded_matno_view)) idx)
                   "WELD UNIQUE ID"))
         [0; 1; 1]).
Proof.
  exact (proj1 (proj2
    (sampled_rows_resolve_by_key_column plain_float_equal
       loaded_master loaded_matno_view "MATNO"
       (SheetResult true true 0) matno_view_lookups
       eq_refl eq_refl eq_refl))).
Defined.

End Validator.

(* ================================================================= *)
(** ** More on [clean_data] *)

Module Cleaning.
Import PyStr Py Pandas BOMProcessor Notions Examples Frames.

Lemma map_result_Forall2 {A B : Type} (f : A -> result B)
    (xs : list A) (ys : list B) :
  map_result f xs = Ok ys -> Forall2 (fun x y => f x = Ok y) xs ys.
Proof.
  revert ys. induction xs as [|x xs IH]; intros ys; simpl.
  - intros [= <-]. constructor.
  - destruct (f x) as [y|e] eqn:E; simpl; [|discriminate].
    destruct (map_result f xs) as [ys'|e]; simpl; [|discriminate].
    intros [= <-]. constructor; [assumption | now apply IH].
Qed.

Lemma Forall2_length_eq {A B : Type} (R : A -> B -> Prop)
    (xs : list A) (ys : list B) :
  Forall2 R xs ys -> List.length xs = List.length ys.
Proof. induction 1; simpl; congruence. Qed.

Lemma Forall2_compose {A B C : Type} (R : A -> B -> Prop) (Q : B -> C -> Prop)
    (T : A -> C -> Prop) (xs : list A) (ys : list B) (zs : list C) :
  (forall x y z, R x y -> Q y z -> T x z) ->
  Forall2 R xs ys -> Forall2 Q ys zs -> Forall2 T xs zs.
Proof.
  intros H H1. revert zs. induction H1; intros zs H2; inversion H2; subst;
    constructor; eauto.
Qed.

Lemma Forall2_map_right {A B : Type} (R : A -> B -> Prop) (f : A -> B)
    (xs : list A) :
  (forall x, R x (f x)) -> Forall2 R xs (map f xs).
Proof. intros H. induction xs; simpl; constructor; auto. Qed.

Lemma Forall2_weaken {A B : Type} (R Q : A -> B -> Prop)
    (xs : list A) (ys : list B) :
  (forall x y, R x y -> Q x y) -> Forall2 R xs ys -> Forall2 Q xs ys.
Proof. intros H. induction 1; constructor; auto. Qed.

Lemma Forall2_transfer {A B : Type} (R : A -> B -> Prop)
    (P : A -> Prop) (Q : B -> Prop) (xs : list A) (ys : list B) :
  (forall x y, P x -> R x y -> Q y) ->
  Forall P xs -> Forall2 R xs ys -> Forall Q ys.
Proof.
  intros H HP H2. induction H2; [constructor|].
  inversion HP; subst. constructor; eauto.
Qed.

Lemma same_shape_trans (a b c : Series) :
  same_shape a b -> same_shape b c -> same_shape a c.
Proof. unfold same_shape. intros [H1 H2] [H3 H4]. split; congruence. Qed.

Lemma same_shape_names (xs ys : list Series) :
  Forall2 same_shape xs ys -> map name ys = map name xs.
Proof. induction 1 as [|x y xs ys [H _] _ IH]; simpl; congruence. Qed.

(** *** The steps one by one *)

Lemma strip_step_shape (s s' : Series) :
  (if dtype_eqb (dtype_of s) object then str_strip s else Ok s) = Ok s' ->
  same_shape s s'.
Proof.
  destruct (dtype_eqb (dtype_of s) object).
  - unfold str_strip. destruct (str_accessor_ok (values s)); [|discriminate].
    intros [= <-]. split; simpl; [reflexivity | apply length_map].
  - intros [= <-]. split; reflexivity.
Qed.

Lemma fill_step_shape (s : Series) :
  same_shape s
    (if existsb isna (values s)
     then MkSeries (name s) object
            (map (fun x => if isna x then CStr "" else x) (values s))
     else s).
Proof.
  destruct (existsb isna (values s)); split; simpl;
    try reflexivity; apply length_map.
Qed.

Lemma clean_is_not_float (vs : list cell) :
  forallb is_clean vs = true ->
  forallb (fun x => is_int x || is_float x || is_none x) vs =
  forallb is_int vs.
Proof.
  induction vs as [|v vs IH]; simpl; [reflexivity|].
  intros H. apply andb_true_iff in H. destruct H as [Hv H].
  rewrite (IH H). destruct v; simpl in *; try reflexivity; discriminate.
Qed.

(** Type inference leaves text, ints and bools as they are. *)
Lemma infer_clean (vs : list cell) :
  forallb is_clean vs = true -> snd (infer vs) = vs.
Proof.
  intros H. unfold infer. destruct vs as [|v vs]; [reflexivity|].
  rewrite (clean_is_not_float _ H).
  destruct (forallb is_bool (v :: vs)); [reflexivity|].
  destruct (forallb is_int (v :: vs)); [reflexivity|].
  cbn [andb].
  assert (E : forallb (fun x => is_date x || is_none x) (v :: vs) = false).
  { cbn [forallb] in *. apply andb_true_iff in H. destruct H as [Hv _].
    destruct v; try discriminate Hv; reflexivity. }
  now rewrite E.
Qed.

(** What [apply] leaves in a column: the results of [f], one per cell. *)
Lemma apply_column_values (f : cell -> result cell) (s s' : Series) :
  apply_column f s = Ok s' ->
  exists vs,
    Forall2 (fun x y => f x = Ok y) (values s) vs /\
    name s' = name s /\
    (values s' = vs \/ values s' = map to_float vs) /\
    (forallb is_clean vs = true -> values s' = vs).
Proof.
  unfold apply_column.
  destruct (map_result f (values s)) as [vs|e] eqn:E; simpl; [|discriminate].
  apply map_result_Forall2 in E. intros [= <-]. exists vs.
  split; [assumption|].
  destruct vs as [|v vs].
  - inversion E as [Hnil|]; subst. split; [reflexivity|].
    split; [left|intros _]; now symmetry.
  - split; [reflexivity|]. split; [apply infer_values|].
    now apply infer_clean.
Qed.

Lemma apply_column_shape (f : cell -> result cell) (s s' : Series) :
  apply_column f s = Ok s' -> same_shape s s'.
Proof.
  intros H. apply apply_column_values in H.
  destruct H as (vs & H2 & Hn & Hv & _). split; [assumption|].
  apply Forall2_length_eq in H2.
  destruct Hv as [-> | ->]; rewrite ?length_map; now symmetry.
Qed.

Lemma infer_objects_step_shape (s : Series) :
  same_shape s (match dtype_of s with
                | object => infer_series (name s) (values s)
                | _ => s
                end).
Proof.
  destruct (dtype_of s); split; simpl; try reflexivity.
  apply infer_length.
Qed.

Lemma clean_cell_is_clean (x : cell) : is_clean (clean_cell x) = true.
Proof.
  unfold clean_cell. destruct x; cbn [isna]; rewrite ?orb_true_r;
    repeat match goal with
           | |- context [if ?c then _ else _] => destruct c
           end; reflexivity.
Qed.

Lemma format_wno_is_clean (x y : cell) :
  is_clean x = true -> format_wno x = Ok y -> is_clean y = true.
Proof.
  intros Hx. unfold format_wno.
  destruct (negb (is_empty (strip (str x))) && _).
  - destruct (int_of_float x); simpl; [|discriminate]. now intros [= <-].
  - now intros [= <-].
Qed.

Lemma first_of_each_spec (ss : list Series) (seen : list string) :
  NoDup (map name (first_of_each seen ss)) /\
  (forall s, In s (first_of_each seen ss) ->
             In s ss /\ ~ In (name s) seen).
Proof.
  revert seen. induction ss as [|s ss IH]; intros seen; simpl.
  - split; [constructor | intros s []].
  - destruct (existsb (String.eqb (name s)) seen) eqn:E.
    + destruct (IH seen) as [H1 H2]. split; [exact H1|].
      intros s' Hs'. destruct (H2 s' Hs'). tauto.
    + destruct (IH (name s :: seen)) as [H1 H2]. split.
      * simpl. constructor; [|exact H1].
        intros Hin. apply in_map_iff in Hin. destruct Hin as (s' & Hn & Hs').
        destruct (H2 s' Hs') as [_ H]. apply H. left. now symmetry.
      * intros s' [<-|Hs'].
        -- split; [now left|]. now apply DictFacts.existsb_eqb_false.
        -- destruct (H2 s' Hs') as [Ha Hb]. split; [now right|].
           intros Hin. apply Hb. now right.
Qed.

Lemma zip_with_length {A B C : Type} (f : A -> B -> C)
    (xs : list A) (ys : list B) :
  List.length ys = List.length xs ->
  List.length (zip_with f xs ys) = List.length xs.
Proof.
  revert ys. induction xs as [|x xs IH]; intros [|y ys] H; simpl in *;
    try reflexivity; try discriminate.
  f_equal. apply IH. congruence.
Qed.

Lemma all_na_rows_length (df : DataFrame) :
  frame_rectangular df ->
  List.length (all_na_rows df) = List.length (index df).
Proof.
  unfold frame_rectangular, all_na_rows.
  assert (G : forall ss acc,
            Forall (fun s => List.length (values s) = List.length acc) ss ->
            List.length (fold_left (fun acc s =>
                zip_with andb acc (map isna (values s))) ss acc)
            = List.length acc).
  { induction ss as [|s ss IH]; intros acc H; simpl; [reflexivity|].
    inversion H as [|? ? Hs Hss]; subst.
    assert (L : List.length (zip_with andb acc (map isna (values s)))
                = List.length acc)
      by (apply zip_with_length; now rewrite length_map).
    rewrite IH; [exact L|].
    apply Forall_forall. intros s' Hs'. rewrite L.
    rewrite Forall_forall in Hss. auto. }
  intros H. rewrite G; rewrite length_map; [reflexivity | exact H].
Qed.

Lemma select_length {A B : Type} (mask : list bool)
    (xs : list A) (ys : list B) :
  List.length xs = List.length mask -> List.length ys = List.length mask ->
  List.length (select mask xs) = List.length (select mask ys).
Proof.
  revert xs ys. induction mask as [|m mask IH]; intros [|x xs] [|y ys] H1 H2;
    simpl in *; try reflexivity; try discriminate.
  destruct m; simpl; [f_equal|]; apply IH; congruence.
Qed.

(** *** The whole pass *)

(** The stages of [clean_data] that run after the rows and columns were
    dropped keep every column's name and length, and the labels. *)
Lemma clean_data_stages (df out : DataFrame) :
  clean_data df = Ok out ->
  let df2 := drop_duplicated_columns (dropna_columns (dropna_rows df)) in
  index out = index df2 /\
  Forall2 same_shape (series df2) (series out) /\
  Forall (fun s => forallb is_clean (values s) = true) (series out).
Proof.
  unfold clean_data. cbv zeta.
  set (df2 := drop_duplicated_columns (dropna_columns (dropna_rows df))).
  destruct (map_result _ (series df2)) as [stripped|e] eqn:E1;
    cbn [bind]; [|discriminate].
  destruct (map_result (apply_column _) _) as [cleaned|e] eqn:E2;
    cbn [bind]; [|discriminate].
  destruct (map_result _ cleaned) as [formatted|e] eqn:E3;
    cbn [bind]; [|discriminate].
  intros [= <-].
  apply map_result_Forall2 in E1, E2, E3.
  split; [reflexivity|].
  assert (S1 : Forall2 same_shape (series df2) stripped).
  { eapply Forall2_weaken; [|exact E1]. intros s s'. apply strip_step_shape. }
  assert (S2 : Forall2 same_shape stripped cleaned).
  { unfold fillna_empty in E2. cbn [series] in E2.
    eapply Forall2_compose; [| apply (Forall2_map_right same_shape);
                               apply fill_step_shape | exact E2].
    intros x y z Hxy Hyz. eapply same_shape_trans; [exact Hxy|].
    now apply apply_column_shape in Hyz. }
  assert (S3 : Forall2 same_shape cleaned formatted).
  { eapply Forall2_weaken; [|exact E3]. intros s s' H. cbv beta in H.
    destruct (String.eqb (name s) "WNO").
    - now apply apply_column_shape in H.
    - injection H as <-. split; reflexivity. }
  assert (C2 : Forall (fun s => forallb is_clean (values s) = true) cleaned).
  { eapply (Forall2_transfer _ (fun _ => True)); [| |exact E2].
    - intros s s' _ H. apply apply_column_values in H.
      destruct H as (vs & H2 & _ & _ & Hv).
      assert (Hc : forallb is_clean vs = true).
      { apply forallb_forall. intros y Hy.
        apply (Forall2_transfer _ (fun _ => True)
                 (fun y => is_clean y = true)) in H2.
        - rewrite Forall_forall in H2. now apply H2.
        - intros x y' _ [= <-]. apply clean_cell_is_clean.
        - apply Forall_forall. auto. }
      now rewrite (Hv Hc).
    - apply Forall_forall. auto. }
  assert (C3 : Forall (fun s => forallb is_clean (values s) = true) formatted).
  { eapply Forall2_transfer; [|exact C2|exact E3].
    intros s s' Hs H. cbv beta in H.
    destruct (String.eqb (name s) "WNO"); [|now injection H as <-].
    apply apply_column_values in H.
    destruct H as (vs & H2 & _ & _ & Hv).
    assert (Hc : forallb is_clean vs = true).
    { apply forallb_forall. intros y Hy.
      rewrite forallb_forall in Hs.
      assert (G : Forall (fun y => is_clean y = true) vs).
      { eapply Forall2_transfer; [| |exact H2].
        - intros x y' Hx Hf. exact (format_wno_is_clean x y' Hx Hf).
        - apply Forall_forall. exact Hs. }
      rewrite Forall_forall in G. now apply G. }
    now rewrite (Hv Hc). }
  unfold infer_objects. cbn [series]. split.
  - eapply Forall2_compose; [| |apply (Forall2_map_right same_shape);
                                  apply infer_objects_step_shape].
    + intros x y z. apply same_shape_trans.
    + eapply Forall2_compose; [| |exact S3].
      * intros x y z. apply same_shape_trans.
      * eapply Forall2_compose; [| exact S1 | exact S2].
        intros x y z. apply same_shape_trans.
  - apply Forall_map. eapply Forall_impl; [|exact C3].
    intros s Hs. cbv beta.
    destruct (dtype_of s); try exact Hs.
    simpl. now rewrite infer_clean.
Qed.

Lemma dropna_rows_rectangular (df : DataFrame) :
  frame_rectangular df -> frame_rectangular (dropna_rows df).
Proof.
  intros H. pose proof (all_na_rows_length df H) as L.
  unfold frame_rectangular, dropna_rows in *. cbv zeta. cbn [series index].
  apply Forall_map. eapply Forall_impl; [|exact H].
  intros s Hs. cbv beta in Hs. cbn [values].
  apply select_length; rewrite length_map, L; [exact Hs | reflexivity].
Qed.

(** The shape of a cleaned frame.  Its labels are the labels of the input
    rows that hold at least one value, in input order and not renumbered;
    its header has no repeats and no name the input did not have; and
    when the input has one cell per label in every column, so has the
    result. *)
Theorem clean_data_shape (df out : DataFrame) :
  clean_data df = Ok out ->
  index out = select (map negb (all_na_rows df)) (index df) /\
  NoDup (column_names out) /\
  incl (column_names out) (column_names df) /\
  (frame_rectangular df -> frame_rectangular out).
Proof.
  intros H. destruct (clean_data_stages df out H) as (Hi & Hs & _).
  cbv zeta in Hi, Hs.
  pose proof (same_shape_names _ _ Hs) as Hn.
  unfold drop_duplicated_columns in Hn, Hs. cbn [series] in Hn, Hs.
  destruct (first_of_each_spec
              (series (dropna_columns (dropna_rows df))) []) as [Hnd Hin].
  split; [exact Hi|]. unfold column_names. rewrite Hn.
  split; [exact Hnd|]. split.
  - intros c Hc. apply in_map_iff in Hc. destruct Hc as (s & <- & Hs').
    apply Hin in Hs'. destruct Hs' as [Hs' _].
    unfold dropna_columns, dropna_rows in Hs'. cbn [series] in Hs'.
    apply filter_In in Hs'. destruct Hs' as [Hs' _].
    apply in_map_iff in Hs'. destruct Hs' as (s0 & <- & Hs0).
    cbn [name]. now apply in_map.
  - intros Hr. apply dropna_rows_rectangular in Hr.
    unfold frame_rectangular in *. rewrite Hi.
    assert (G : Forall (fun s => List.length (values s) =
                                 List.length (index (dropna_rows df)))
                  (first_of_each [] (series (dropna_columns (dropna_rows df))))).
    { apply Forall_forall. intros s Hs'. apply Hin in Hs'.
      destruct Hs' as [Hs' _]. unfold dropna_columns in Hs'.
      cbn [series] in Hs'. apply filter_In in Hs'.
      rewrite Forall_forall in Hr. apply Hr. tauto. }
    cbn [index]. eapply Forall2_transfer; [|exact G|exact Hs].
    intros s s' Hlen [_ Hl]. cbv beta in *. rewrite Hl, Hlen. reflexivity.
Qed.

Lemma clean_data_shape_witness :
  index raw_example_cleaned = [0; 2] /\
  NoDup (column_names raw_example_cleaned) /\
  frame_rectangular raw_example_cleaned.
Proof.
  destruct (clean_data_shape raw_example raw_example_cleaned eq_refl)
    as (Hi & Hnd & _ & Hr).
  split; [exact Hi|]. split; [exact Hnd|].
  apply Hr. repeat constructor.
Defined.

(** The cells of a cleaned frame: text, ints and bools only.  No missing
    value, no float and no date is left. *)
Theorem clean_data_cells (df out : DataFrame) :
  clean_data df = Ok out ->
  Forall (fun s => forallb is_clean (values s) = true) (series out).
Proof. intros H. now destruct (clean_data_stages df out H) as (_ & _ & Hc). Qed.

Lemma clean_data_cells_witness :
  Forall (fun s => forallb is_clean (values s) = true)
    (series raw_example_cleaned).
Proof. exact (clean_data_cells raw_example raw_example_cleaned eq_refl). Defined.

End Cleaning.

(* ================================================================= *)
(** ** Steps 4 and 5 of [clean_data] on their own *)

Module CellFacts.
Import PyStr Py Pandas BOMProcessor Notions Examples StrFacts FloatFacts.

(** *** Text without points or dashes *)

Lemma remove_char_absent (c : ascii) (s : string) :
  all_chars (fun a => negb (Ascii.eqb a c)) s = true -> remove_char c s = s.
Proof.
  induction s as [|a s IH]; simpl; [reflexivity|].
  intros H. apply andb_true_iff in H. destruct H as [Ha Hs].
  apply negb_true_iff in Ha. now rewrite Ha, (IH Hs).
Qed.

Lemma digits_no_point (s : string) :
  all_chars is_digit s = true ->
  all_chars (fun a => negb (Ascii.eqb a ".")) s = true.
Proof.
  apply all_chars_impl. intros a H.
  destruct (digit_is_not_mark a H) as [-> _]. reflexivity.
Qed.

Lemma digits_no_dash (s : string) :
  all_chars is_digit s = true ->
  all_chars (fun a => negb (Ascii.eqb a "-")) s = true.
Proof.
  apply all_chars_impl. intros a H.
  destruct (digit_is_not_mark a H) as [_ ->]. reflexivity.
Qed.

Lemma split_point_digits (s : string) :
  all_chars is_digit s = true -> split_point s = (s, None).
Proof.
  induction s as [|a s IH]; simpl; [reflexivity|].
  intros H. apply andb_true_iff in H. destruct H as [Ha Hs].
  destruct (digit_is_not_mark a Ha) as [-> _]. now rewrite (IH Hs).
Qed.

Lemma zeros_digits (k : nat) : all_chars is_digit (zeros k) = true.
Proof. induction k; simpl; auto. Qed.

Lemma digits_value_zeros (k : nat) (s : string) :
  digits_value 0 (zeros k ++ s) = digits_value 0 s.
Proof. induction k; simpl; auto. Qed.

Lemma sign_of_digit (a : ascii) (s : string) :
  is_digit a = true ->
  match String a s with
  | String "-" s' => (true, s')
  | _ => (false, String a s)
  end = (false, String a s).
Proof.
  intros H.
  destruct a as [[] [] [] [] [] [] [] []];
    try reflexivity; discriminate H.
Qed.

(** [int(float(s))] of digits is their value, up to [2^53]. *)
Lemma int_of_digits (s : string) :
  all_chars is_digit s = true -> is_empty s = false ->
  (digits_value 0 s <= 2 ^ 53)%Z ->
  int_of_float_text s = Ok (digits_value 0 s).
Proof.
  intros Hd He Hv. destruct s as [|a s]; [discriminate|].
  unfold int_of_float_text.
  assert (Ha : is_digit a = true)
    by (simpl in Hd; apply andb_true_iff in Hd; tauto).
  rewrite (sign_of_digit a s Ha), (split_point_digits _ Hd), Hd.
  cbn [all_chars is_empty andb negb]. rewrite decimal_value_whole.
  assert (H0 : (0 <= digits_value 0 (String a s))%Z)
    by apply digits_value_nonneg.
  destruct (nearest_double_exact (digits_value 0 (String a s)))
    as (x & -> & ->); [lia | reflexivity].
Qed.

(** [int(float(s))] of a dash and digits is minus their value. *)
Lemma int_of_dash_digits (s : string) :
  all_chars is_digit s = true -> is_empty s = false ->
  (digits_value 0 s <= 2 ^ 53)%Z ->
  int_of_float_text (String "-" s) = Ok (- digits_value 0 s)%Z.
Proof.
  intros Hd He Hv. unfold int_of_float_text.
  rewrite (split_point_digits _ Hd), Hd.
  assert (E : negb (is_empty s && is_empty "") = true)
    by (destruct s; [discriminate | reflexivity]).
  cbn [all_chars andb]. rewrite E. rewrite decimal_value_whole.
  assert (H0 : (0 <= digits_value 0 s)%Z) by apply digits_value_nonneg.
  destruct (nearest_double_exact (- digits_value 0 s))
    as (x & -> & ->); [lia | reflexivity].
Qed.

(** The text before the sign is handled: zeros, then the digits of the
    absolute value. *)
Lemma padded_digits (k : nat) (n : Z) :
  (0 <= n)%Z ->
  all_chars is_digit (zeros k ++ of_Z n) = true /\
  is_empty (zeros k ++ of_Z n) = false /\
  digits_value 0 (zeros k ++ of_Z n) = n.
Proof.
  intros H. destruct (of_Z_nonneg n H) as (Hd & He & Hv).
  split; [now rewrite all_chars_app, zeros_digits, Hd|].
  split; [|now rewrite digits_value_zeros].
  destruct k; [exact He | reflexivity].
Qed.

(** [f"{n:03d}"] reads back as [n], up to [2^53] in absolute value. *)
Lemma format_03d_reads_back (n : Z) :
  (Z.abs n <= 2 ^ 53)%Z -> int_of_float_text (format_03d n) = Ok n.
Proof.
  intros Hb. unfold format_03d. destruct (Z.ltb_spec n 0) as [Hn|Hn].
  - destruct (padded_digits (2 - String.length (of_Z (Z.abs n))) (Z.abs n))
      as (Hd & He & Hv); [lia|].
    change ("-" ++ ?x) with (String "-" x).
    rewrite (int_of_dash_digits _ Hd He), Hv; [f_equal; lia | now rewrite Hv].
  - destruct (padded_digits (3 - String.length (of_Z (Z.abs n))) (Z.abs n))
      as (Hd & He & Hv); [lia|].
    rewrite (int_of_digits _ Hd He), Hv; [f_equal; lia | now rewrite Hv].
Qed.

(** The guard of step 5 on a formatted value, and on the text of an
    int. *)
Lemma wno_guard_signed_digits (sign : bool) (s : string) :
  all_chars is_digit s = true -> is_empty s = false ->
  let text := if sign then String "-" s else s in
  negb (is_empty (strip text))
  && isdigit (remove_char "-" (remove_char "." text)) = true.
Proof.
  intros Hd He text.
  assert (Hs : strip text = text).
  { apply strip_ink. unfold text. destruct sign; cbn [all_chars];
      rewrite ?(digits_ink _ Hd); reflexivity. }
  assert (Hr : remove_char "-" (remove_char "." text) = s).
  { unfold text. destruct sign; simpl;
      rewrite (remove_char_absent "." s (digits_no_point _ Hd));
      now apply remove_char_absent, digits_no_dash. }
  rewrite Hs, Hr. unfold isdigit. rewrite He, Hd.
  unfold text. destruct sign; [reflexivity|]. now rewrite He.
Qed.

Lemma zeros_length (k : nat) : String.length (zeros k) = k.
Proof. induction k; simpl; auto. Qed.

(** Step 5 on integers.  An [int] in WNO of at most [2^53] in absolute
    value is formatted as its own digits; the text has at least three
    characters and reads back as the same integer; and formatting a
    formatted value gives it back unchanged.  The bound is that of the
    floats: the conversion goes through [float], and [2^53 + 1] is
    formatted as [2^53]. *)
Theorem wno_format_round_trip (n : Z) :
  (Z.abs n <= 2 ^ 53)%Z ->
  format_wno (CInt n) = Ok (CStr (format_03d n)) /\
  format_wno (CStr (format_03d n)) = Ok (CStr (format_03d n)) /\
  int_of_float_text (format_03d n) = Ok n /\
  3 <= String.length (format_03d n) /\
  format_wno (CInt (2 ^ 53 + 1)) = Ok (CStr "9007199254740992").
Proof.
  intros Hb.
  split; [|split; [|split; [now apply format_03d_reads_back|split]]].
  - unfold format_wno. cbn [str].
    assert (G : negb (is_empty (strip (of_Z n)))
                && isdigit (remove_char "-" (remove_char "." (of_Z n)))
                = true).
    { destruct n as [|p|p].
      + reflexivity.
      + destruct (of_Z_nonneg (Z.pos p)) as (Hd & He & _); [lia|].
        exact (wno_guard_signed_digits false _ Hd He).
      + destruct (of_Z_nonneg (Z.pos p)) as (Hd & He & _); [lia|].
        rewrite of_Z_negative.
        exact (wno_guard_signed_digits true _ Hd He). }
    rewrite G, (int_of_float_whole n Hb). reflexivity.
  - unfold format_wno. cbn [str int_of_float].
    rewrite (format_03d_reads_back n Hb). cbn [bind].
    unfold format_03d. destruct (Z.ltb_spec n 0) as [Hn|Hn].
    + destruct (padded_digits (2 - String.length (of_Z (Z.abs n))) (Z.abs n))
        as (Hd & He & _); [lia|].
      change ("-" ++ ?x) with (String "-" x).
      now rewrite (wno_guard_signed_digits true _ Hd He).
    + destruct (padded_digits (3 - String.length (of_Z (Z.abs n))) (Z.abs n))
        as (Hd & He & _); [lia|].
      now rewrite (wno_guard_signed_digits false _ Hd He).
  - unfold format_03d. destruct (n <? 0)%Z.
    + change ("-" ++ ?x) with (String "-" x). cbn [String.length].
      rewrite length_app_string, zeros_length. lia.
    + rewrite length_app_string, zeros_length. lia.
  - vm_compute. reflexivity.
Qed.

Lemma wno_format_round_trip_witness :
  format_wno (CInt 7) = Ok (CStr "007") /\
  format_wno (CStr "007") = Ok (CStr "007") /\
  int_of_float_text "007" = Ok 7%Z /\
  3 <= String.length "007" /\
  format_wno (CInt (2 ^ 53 + 1)) = Ok (CStr "9007199254740992").
Proof.
  apply (wno_format_round_trip 7). vm_compute. discriminate.
Defined.

(** *** Step 4 is idempotent *)

Lemma numeric_start_is_not_nan (a : ascii) (r : string) :
  is_digit a = true \/ a = "-"%char ->
  String.eqb (lower (String a r)) "nan" = false.
Proof.
  intros H.
  assert (E : Ascii.eqb (lower_char a) "n" = false).
  { destruct H as [H | ->]; [|reflexivity].
    destruct a as [[] [] [] [] [] [] [] []];
      try reflexivity; discriminate H. }
  unfold lower. cbn [map_chars String.eqb]. now rewrite E.
Qed.

Lemma int_text_is_not_nan (n : Z) : String.eqb (lower (of_Z n)) "nan" = false.
Proof.
  destruct (of_Z_starts n) as (a & r & -> & H).
  now apply numeric_start_is_not_nan.
Qed.

Lemma float_text_is_not_nan (q : Q) :
  String.eqb (lower (float_repr q)) "nan" = false.
Proof.
  unfold float_repr.
  destruct (Qnum q <? 0)%Z.
  - change ("-" ++ ?x) with (String "-" x).
    apply numeric_start_is_not_nan. now right.
  - change ("" ++ ?x) with x.
    destruct (of_Z_starts (Z.abs (Qnum q) / Z.pos (Qden q))) as (a & r & -> & H).
    change (String a r ++ ?x) with (String a (r ++ x)).
    now apply numeric_start_is_not_nan.
Qed.

(** Text that lowers to "nan" has no [T] to replace. *)
Lemma nan_text_has_no_T (s t : string) :
  lower s = t -> any_char (Ascii.eqb "t") t = false ->
  replace_char "T" " " s = s.
Proof.
  revert t. induction s as [|a s IH]; intros t Hl Ht; [reflexivity|].
  unfold lower in Hl. cbn [map_chars] in Hl. subst t.
  cbn [any_char] in Ht. apply orb_false_iff in Ht. destruct Ht as [Ha Ht].
  unfold replace_char. cbn [map_chars].
  fold (replace_char "T" " " s). rewrite (IH _ eq_refl Ht).
  destruct (Ascii.eqb a "T") eqn:E; [|reflexivity].
  apply Ascii.eqb_eq in E. subst a. discriminate Ha.
Qed.

(** Step 4 applied to its own result changes nothing: the cell function
    of the type conversion is idempotent. *)
Theorem clean_cell_idempotent (x : cell) :
  clean_cell (clean_cell x) = clean_cell x.
Proof.
  assert (Hempty : clean_cell (CStr "") = CStr "") by reflexivity.
  unfold clean_cell at 2 3.
  destruct (String.eqb (lower (str x)) "nan" || isna x) eqn:C;
    [exact Hempty|].
  apply orb_false_iff in C. destruct C as [C1 C2].
  destruct x as [s|n|q| |b|iso| ].
  - unfold clean_cell. cbn [str isna] in *. now rewrite C1.
  - unfold clean_cell. cbn [str isna] in *. now rewrite C1.
  - destruct (Qeq_bool q (inject_Z (trunc q))).
    + unfold clean_cell. cbn [str isna]. now rewrite int_text_is_not_nan.
    + unfold clean_cell. cbn [str isna]. now rewrite float_text_is_not_nan.
  - discriminate C2.
  - unfold clean_cell. cbn [str isna] in *. now rewrite C1.
  - unfold clean_cell. cbn [str isna] in *.
    destruct (String.eqb (lower iso) "nan") eqn:E; [|reflexivity].
    apply String.eqb_eq in E.
    rewrite (nan_text_has_no_T iso "nan" E eq_refl) in C1.
    apply String.eqb_neq in C1. contradiction.
  - discriminate C2.
Qed.

End CellFacts.

(* ================================================================= *)
(** ** The master frame: cleaning followed by projection *)

Module Master.
Import PyStr Py Pandas BOMProcessor Notions Examples Projector Cleaning.

Lemma select_columns_series (df : DataFrame) (cs : list string) (s : Series) :
  In s (series (select_columns cs df)) -> In s (series df).
Proof.
  unfold select_columns. cbn [series]. intros H.
  apply in_flat_map in H. destruct H as (c & _ & H).
  destruct (column df c) as [s'|] eqn:E; [|destruct H].
  destruct H as [<-|[]]. unfold column in E. apply find_some in E. tauto.
Qed.

(** The frame options 1 and 2 export, [reorder_columns(clean_data(df))]:
    its header has no repeats, no column of the exclusion list and no
    name the input lacked; its cells are text, ints and bools only; its
    labels are those the cleaning left; and it has one cell per label in
    every column when the input had. *)
Theorem master_frame_invariants (df cleaned : DataFrame) :
  clean_data df = Ok cleaned ->
  let master := reorder_columns cleaned in
  NoDup (column_names master) /\
  Forall (fun c => mem c exclude_columns = false) (column_names master) /\
  incl (column_names master) (column_names df) /\
  Forall (fun s => forallb is_clean (values s) = true) (series master) /\
  index master = index cleaned /\
  (frame_rectangular df -> frame_rectangular master).
Proof.
  intros H master.
  destruct (clean_data_shape df cleaned H) as (_ & Hnd & Hincl & Hrect).
  pose proof (clean_data_cells df cleaned H) as Hcells.
  destruct (reorder_columns_header cleaned Hnd) as (Hh & Hnd' & Hi).
  assert (Hsub : forall s, In s (series master) -> In s (series cleaned)).
  { intros s. unfold master, reorder_columns. cbv zeta.
    apply select_columns_series. }
  assert (Hmem : forall c, In c (column_names master) ->
            mem c (column_names cleaned) = true /\
            mem c exclude_columns = false).
  { intros c Hc. unfold master in Hc. rewrite Hh in Hc.
    apply mem_In in Hc. rewrite mem_final_cols in Hc.
    apply andb_true_iff in Hc. destruct Hc as [H1 H2].
    apply negb_true_iff in H2. tauto. }
  split; [exact Hnd'|].
  split; [apply Forall_forall; intros c Hc; now apply Hmem|].
  split.
  { intros c Hc. apply Hincl. apply mem_In. now apply Hmem. }
  split.
  { apply Forall_forall. intros s Hs. rewrite Forall_forall in Hcells.
    apply Hcells. now apply Hsub. }
  split; [exact Hi|].
  intros Hr. specialize (Hrect Hr). unfold frame_rectangular in *.
  apply Forall_forall. intros s Hs. unfold master. rewrite Hi.
  rewrite Forall_forall in Hrect. apply Hrect. now apply Hsub.
Qed.

Lemma master_frame_invariants_witness :
  NoDup (column_names (reorder_columns raw_example_cleaned)) /\
  Forall (fun c => mem c exclude_columns = false)
    (column_names (reorder_columns raw_example_cleaned)).
Proof.
  destruct (master_frame_invariants raw_example raw_example_cleaned eq_refl)
    as (H1 & H2 & _).
  split; [exact H1 | exact H2].
Defined.

End Master.

(* ================================================================= *)
(** ** More on the sheets [option2_excel_with_charts] writes *)

Module ViewsMore.
Import PyStr Py Pandas BOMProcessor Notions Examples StrFacts SortFacts Views CellFacts.

Lemma NoDup_map_inj {A B : Type} (f : A -> B) (l : list A) (x y : A) :
  NoDup (map f l) -> In x l -> In y l -> f x = f y -> x = y.
Proof.
  induction l as [|z l IH]; cbn [map]; intros Hnd Hx Hy E; [destruct Hx|].
  apply NoDup_cons_iff in Hnd. destruct Hnd as [Hz Hnd].
  destruct Hx as [->|Hx]; destruct Hy as [->|Hy].
  - reflexivity.
  - exfalso. apply Hz. rewrite E. now apply in_map.
  - exfalso. apply Hz. rewrite <- E. now apply in_map.
  - now apply IH.
Qed.

Lemma find_absent_name {A : Type} (nm : string) (l : list (string * A)) :
  ~ In nm (map fst l) -> find (fun p => String.eqb nm (fst p)) l = None.
Proof.
  induction l as [|[k v] l IH]; cbn [map fst find]; intros H; [reflexivity|].
  destruct (String.eqb_spec nm k) as [->|Hne].
  - exfalso. apply H. now left.
  - apply IH. intros Hin. apply H. now right.
Qed.

(** The workbook option 2 leaves when its loop returns: the master sheet
    first, then one sheet for each grouping column the frame has, in
    declared order and under names that differ; the sheet of such a
    column holds the formulas of the view its sort returned, and a
    grouping column the frame lacks has no sheet. *)
Theorem sheets_written (df : DataFrame) (wb : workbook) (g : string) :
  write_sheets df = Ok wb ->
  In g group_columns ->
  map fst wb =
    "전체" :: map sheet_name_of (filter (has_column df) group_columns) /\
  NoDup (map fst wb) /\
  get_sheet wb "전체" = Some (to_excel df) /\
  (has_column df g = false -> get_sheet wb (sheet_name_of g) = None) /\
  (has_column df g = true ->
   exists view,
     sorted_indices df g = Ok view /\
     get_sheet wb (sheet_name_of g) = Some (group_sheet df view)).
Proof.
  intros Hw Hin.
  destruct (written_names df wb Hw) as (views & Hn & Hs & Hwb & Hnd).
  assert (Hnames : map fst wb =
            "전체" :: map sheet_name_of (filter (has_column df) group_columns)).
  { rewrite Hwb. cbn [map fst]. f_equal. rewrite map_map. cbn [fst].
    now rewrite <- (map_map fst sheet_name_of), Hn. }
  split; [exact Hnames|]. split; [exact Hnd|].
  split; [now rewrite Hwb|]. split.
  - intros Hg. unfold get_sheet. rewrite find_absent_name; [reflexivity|].
    rewrite Hnames. pose proof group_sheet_names as Hgn.
    apply NoDup_cons_iff in Hgn. destruct Hgn as [Hm Hgn].
    intros [E|Hi].
    + apply Hm. rewrite E. now apply in_map.
    + apply in_map_iff in Hi. destruct Hi as (g' & E & Hg').
      apply filter_In in Hg'. destruct Hg' as [Hin' Hg'].
      assert (g' = g) by now apply (NoDup_map_inj sheet_name_of group_columns).
      subst g'. congruence.
  - intros Hg. now apply get_group_sheet.
Qed.

Lemma sheets_written_witness :
  map fst
    [("전체", to_excel master_example);
     ("MATNO", group_sheet master_example [1; 2; 0]);
     ("Grade", group_sheet master_example [1; 0]);
     ("T", group_sheet master_example [1; 2; 0])] =
    "전체" :: map sheet_name_of
               (filter (has_column master_example) group_columns) /\
  (has_column master_example "STEEL NO" = false ->
   get_sheet
     [("전체", to_excel master_example);
      ("MATNO", group_sheet master_example [1; 2; 0]);
      ("Grade", group_sheet master_example [1; 0]);
      ("T", group_sheet master_example [1; 2; 0])]
     (sheet_name_of "STEEL NO") = None).
Proof.
  destruct (sheets_written master_example _ "STEEL NO" eq_refl
              (or_intror (or_introl eq_refl))) as (H1 & _ & _ & H2 & _).
  split; [exact H1 | exact H2].
Defined.



(** *** A view lists the rows with a value, each once *)

Lemma position_of_combine (idx : list nat) (vals : list cell) (i : nat)
    (v : cell) :
  NoDup idx -> In (i, v) (combine idx vals) ->
  exists p, position_of i idx = Some p /\ nth p vals CNaN = v.
Proof.
  revert vals. induction idx as [|l idx IH]; intros [|w vals] Hnd Hin;
    simpl in *; try contradiction.
  inversion Hnd as [|? ? Hl Hnd']; subst.
  destruct Hin as [E|Hin].
  - injection E as <- <-. rewrite Nat.eqb_refl. now exists 0.
  - destruct (Nat.eqb i l) eqn:E.
    + apply Nat.eqb_eq in E. subst l. exfalso. apply Hl.
      apply in_combine_l in Hin. exact Hin.
    + destruct (IH vals Hnd' Hin) as (p & Hp & Hv).
      exists (S p). rewrite Hp. split; [reflexivity | exact Hv].
Qed.

Lemma combine_position_of (idx : list nat) (vals : list cell) (i p : nat) :
  List.length vals = List.length idx ->
  position_of i idx = Some p ->
  In (i, nth p vals CNaN) (combine idx vals).
Proof.
  revert vals p. induction idx as [|l idx IH]; intros [|w vals] p Hlen Hp;
    simpl in *; try discriminate.
  destruct (Nat.eqb i l) eqn:E.
  - injection Hp as <-. apply Nat.eqb_eq in E. subst l. now left.
  - destruct (position_of i idx) as [q|] eqn:Q; simpl in Hp; [|discriminate].
    injection Hp as <-. right. apply IH; [congruence | reflexivity].
Qed.

Lemma position_of_In (idx : list nat) (i : nat) :
  In i idx -> exists p, position_of i idx = Some p.
Proof.
  induction idx as [|l idx IH]; simpl; [contradiction|].
  intros H. destruct (Nat.eqb i l) eqn:E; [now exists 0|].
  apply Nat.eqb_neq in E. destruct H as [H|H]; [congruence|].
  destruct (IH H) as (p & ->). now exists (S p).
Qed.

Lemma filter_combine_NoDup (f : nat * cell -> bool) (idx : list nat)
    (vals : list cell) :
  NoDup idx -> NoDup (map fst (filter f (combine idx vals))).
Proof.
  revert vals. induction idx as [|l idx IH]; intros [|w vals] Hnd; simpl;
    try constructor.
  inversion Hnd as [|? ? Hl Hnd']; subst.
  destruct (f (l, w)); simpl; [|now apply IH].
  constructor; [|now apply IH].
  intros Hin. apply Hl. apply in_map_iff in Hin.
  destruct Hin as ((l', w') & E & Hin). simpl in E. subst l'.
  apply filter_In in Hin. destruct Hin as [Hin _].
  now apply in_combine_l in Hin.
Qed.

(** With distinct labels and one cell per label in the grouping column, a
    label is in the view exactly when it is a label of the frame whose
    cell in the grouping column is not blank, and no label is in the view
    twice. *)
Theorem view_lists_rows_with_value (df : DataFrame) (g : string) (s : Series)
    (view : list nat) :
  column df g = Some s ->
  NoDup (index df) ->
  List.length (values s) = List.length (index df) ->
  sorted_indices df g = Ok view ->
  NoDup view /\
  forall i, In i view <->
            In i (index df) /\ nonblank (at_label df i g) = true.
Proof.
  intros Hcol Hnd Hlen Hview.
  pose proof (sorted_indices_perm df g view Hview) as Hp.
  assert (Hf : filtered_indices df g =
               map fst (filter (fun lv => nonblank (snd lv))
                          (combine (index df) (values s))))
    by (unfold filtered_indices; now rewrite Hcol).
  split.
  - apply (Permutation_NoDup (Permutation_sym Hp)).
    rewrite Hf. now apply filter_combine_NoDup.
  - intros i. split.
    + intros Hi. apply (Permutation_in _ Hp) in Hi. rewrite Hf in Hi.
      apply in_map_iff in Hi. destruct Hi as ((i', v) & E & Hi).
      simpl in E. subst i'. apply filter_In in Hi. destruct Hi as [Hi Hv].
      split; [now apply in_combine_l in Hi|].
      destruct (position_of_combine _ _ _ _ Hnd Hi) as (p & Hp' & Hn).
      unfold at_label. rewrite Hp', Hcol, Hn. exact Hv.
    + intros [Hi Hv]. apply (Permutation_in _ (Permutation_sym Hp)).
      rewrite Hf. destruct (position_of_In _ _ Hi) as (p & Hp').
      unfold at_label in Hv. rewrite Hp', Hcol in Hv.
      apply in_map_iff. exists (i, nth p (values s) CNaN).
      split; [reflexivity|]. apply filter_In. split; [|exact Hv].
      now apply combine_position_of.
Qed.

Lemma view_lists_rows_with_value_witness :
  NoDup [1; 0] /\
  (In 2 [1; 0] <->
   In 2 (index master_example) /\
   nonblank (at_label master_example 2 "Grade") = true).
Proof.
  destruct (view_lists_rows_with_value master_example "Grade"
              (MkSeries "Grade" object [CStr "Y"; CStr "X"; CStr ""])
              [1; 0] eq_refl)
    as (H1 & H2).
  - repeat constructor; simpl; intuition discriminate.
  - reflexivity.
  - reflexivity.
  - split; [exact H1 | exact (H2 2)].
Defined.

(** *** When the sort of a view raises *)

Lemma in_combine_partner {A B : Type} (xs : list A) (ys : list B) (y : B) :
  List.length ys <= List.length xs -> In y ys ->
  exists x, In (x, y) (combine xs ys).
Proof.
  revert ys. induction xs as [|x xs IH]; intros [|y' ys] Hlen Hin;
    cbn in *; try contradiction; try lia.
  destruct Hin as [->|Hin]; [exists x; now left|].
  destruct (IH ys) as (x' & Hx'); [lia | assumption|].
  exists x'. now right.
Qed.

(** The cells of the grouping column in the rows of the view are the
    cells of the column that are not blank. *)
Lemma view_cells (df : DataFrame) (g : string) (s : Series) :
  column df g = Some s -> NoDup (index df) ->
  map (fun i => at_label df i g) (filtered_indices df g) =
  map snd (filter (fun lv => nonblank (snd lv))
             (combine (index df) (values s))).
Proof.
  intros Hcol Hnd. unfold filtered_indices. rewrite Hcol, map_map.
  apply map_ext_in. intros [i v] Hin. cbn [fst snd].
  apply filter_In in Hin. destruct Hin as [Hin _].
  destruct (position_of_combine _ _ _ _ Hnd Hin) as (p & Hp & Hv).
  unfold at_label. now rewrite Hp, Hcol.
Qed.

Lemma view_cells_In (df : DataFrame) (g : string) (s : Series) (x : cell) :
  column df g = Some s -> NoDup (index df) ->
  List.length (values s) = List.length (index df) ->
  (In x (map (fun i => at_label df i g) (filtered_indices df g)) <->
   In x (values s) /\ nonblank x = true).
Proof.
  intros Hcol Hnd Hlen. rewrite (view_cells df g s Hcol Hnd). split.
  - intros H. apply in_map_iff in H. destruct H as ([i v] & <- & H).
    apply filter_In in H. destruct H as [H Hv]. cbn [snd] in *.
    split; [now apply in_combine_r in H | assumption].
  - intros [Hx Hv].
    destruct (in_combine_partner (index df) (values s) x) as (i & Hi);
      [lia | assumption|].
    apply in_map_iff. exists (i, x). split; [reflexivity|].
    apply filter_In. now split.
Qed.

(** Among text, ints and bools, the kinds are mixed exactly when there
    is text and there is a value that is not text. *)
Lemma kinds_mixed_clean (l : list cell) :
  forallb is_clean l = true ->
  (kinds_mixed l = true <->
   (exists x, In x l /\ is_str x = true) /\
   (exists y, In y l /\ is_str y = false)).
Proof.
  intros Hc. unfold kinds_mixed.
  assert (Hf : filter (fun x => negb (isna x)) l = l).
  { clear -Hc. induction l as [|v l IH]; [reflexivity|].
    cbn [forallb filter] in *. apply andb_true_iff in Hc.
    destruct Hc as [Hv Hc]. rewrite (IH Hc).
    destruct v; try discriminate Hv; reflexivity. }
  rewrite Hf. destruct l as [|x rest].
  - split; [discriminate | intros [(x & [] & _) _]].
  - cbn [forallb] in Hc. apply andb_true_iff in Hc. destruct Hc as [Hx Hc].
    rewrite forallb_forall in Hc.
    assert (Hrank : forall y, In y rest ->
              Nat.eqb (sort_rank y) (sort_rank x) = Bool.eqb (is_str y) (is_str x)).
    { intros y Hy. specialize (Hc y Hy).
      destruct x; try discriminate Hx; destruct y; try discriminate Hc;
        reflexivity. }
    rewrite negb_true_iff. split.
    + intros H.
      assert (E : exists y, In y rest /\ is_str y <> is_str x).
      { clear -H Hrank. induction rest as [|y rest IH]; [discriminate H|].
        cbn [forallb] in H. apply andb_false_iff in H.
        destruct H as [H|H].
        - exists y. split; [now left|].
          rewrite Hrank in H by now left.
          intros E. rewrite E in H. now rewrite Bool.eqb_reflx in H.
        - destruct IH as (z & Hz & Hne); [|assumption|].
          + intros z Hz. apply Hrank. now right.
          + exists z. split; [now right | assumption]. }
      destruct E as (y & Hy & Hne).
      destruct (is_str x) eqn:Ex.
      * split; [exists x; split; [now left | assumption]|].
        exists y. split; [now right|]. now destruct (is_str y).
      * split; [|exists x; split; [now left | assumption]].
        exists y. split; [now right|]. now destruct (is_str y).
    + intros [(u & Hu & Eu) (w & Hw & Ew)].
      apply not_true_iff_false. intros Hall.
      rewrite forallb_forall in Hall.
      assert (Hsame : forall y, In y rest -> is_str y = is_str x).
      { intros y Hy. specialize (Hall y Hy). rewrite (Hrank y Hy) in Hall.
        now apply Bool.eqb_prop. }
      destruct Hu as [<-|Hu]; destruct Hw as [<-|Hw].
      * congruence.
      * rewrite (Hsame w Hw) in Ew. congruence.
      * rewrite (Hsame u Hu) in Eu. congruence.
      * rewrite (Hsame u Hu) in Eu. rewrite (Hsame w Hw) in Ew. congruence.
Qed.

(** A cell read from a frame of text, ints and bools is one of these, or
    [nan] where the frame has nothing. *)
Lemma at_label_clean (df : DataFrame) (i : nat) (c : string) :
  Forall (fun s => forallb is_clean (values s) = true) (series df) ->
  is_clean (at_label df i c) = true \/ at_label df i c = CNaN.
Proof.
  intros Hc. unfold at_label.
  destruct (position_of i (index df)) as [p|]; [|now right].
  destruct (column df c) as [s|] eqn:Hcol; [|now right].
  unfold column in Hcol. apply find_some in Hcol. destruct Hcol as [Hin _].
  rewrite Forall_forall in Hc. specialize (Hc s Hin).
  rewrite forallb_forall in Hc.
  destruct (Nat.lt_ge_cases p (List.length (values s))) as [Hp|Hp].
  - left. apply Hc. now apply nth_In.
  - right. now apply nth_overflow.
Qed.

Lemma no_dates_in_clean_frame (df : DataFrame) (labels : list nat)
    (c : string) :
  Forall (fun s => forallb is_clean (values s) = true) (series df) ->
  numbers_with_dates (map (fun i => at_label df i c) labels) = false.
Proof.
  intros Hc. unfold numbers_with_dates. apply andb_false_iff. right.
  apply not_true_iff_false. intros H. apply existsb_exists in H.
  destruct H as (x & Hx & Hr). apply in_map_iff in Hx.
  destruct Hx as (i & <- & _).
  destruct (at_label_clean df i c Hc) as [H|H].
  - destruct (at_label df i c); try discriminate H; discriminate Hr.
  - rewrite H in Hr. discriminate Hr.
Qed.

(** In a frame of text, ints and bools the sort of a view raises exactly
    when the grouping column is the only grouping column of the frame
    and its cells that are not blank hold both text and a value that is
    not text; what it raises is a [TypeError]. *)
Theorem sort_raises_on_mixed_single_column (df : DataFrame) (g : string)
    (s : Series) :
  column df g = Some s ->
  NoDup (index df) ->
  List.length (values s) = List.length (index df) ->
  Forall (fun c => forallb is_clean (values c) = true) (series df) ->
  ((exists e, sorted_indices df g = Raise e) <->
   filter (fun sc => has_column df sc && negb (String.eqb sc g))
     group_columns = [] /\
   (exists x, In x (values s) /\ nonblank x = true /\ is_str x = true) /\
   (exists y, In y (values s) /\ nonblank y = true /\ is_str y = false)) /\
  (forall e, sorted_indices df g = Raise e -> exists msg, e = TypeError msg).
Proof.
  intros Hcol Hnd Hlen Hclean.
  set (cells := map (fun i => at_label df i g) (filtered_indices df g)).
  assert (Hcells : forallb is_clean cells = true).
  { apply forallb_forall. intros x Hx.
    apply (view_cells_In df g s x Hcol Hnd Hlen) in Hx. destruct Hx as [Hx _].
    unfold column in Hcol. apply find_some in Hcol. destruct Hcol as [Hin _].
    rewrite Forall_forall in Hclean. specialize (Hclean s Hin).
    rewrite forallb_forall in Hclean. now apply Hclean. }
  assert (Hmixed : kinds_mixed cells = true <->
            (exists x, In x (values s) /\ nonblank x = true /\ is_str x = true) /\
            (exists y, In y (values s) /\ nonblank y = true /\ is_str y = false)).
  { rewrite (kinds_mixed_clean cells Hcells). unfold cells.
    split; intros [(x & Hx & Ex) (y & Hy & Ey)].
    - apply (view_cells_In df g s x Hcol Hnd Hlen) in Hx.
      apply (view_cells_In df g s y Hcol Hnd Hlen) in Hy.
      split; [exists x | exists y]; tauto.
    - split; [exists x | exists y];
        (split; [apply (view_cells_In df g s _ Hcol Hnd Hlen)|]); tauto. }
  unfold sorted_indices, sort_values, sort_cols.
  destruct (filter (fun sc => has_column df sc && negb (String.eqb sc g))
              group_columns) as [|c' cs] eqn:Ef.
  - fold cells. destruct (kinds_mixed cells) eqn:Ek.
    + split.
      * split; [intros _; split; [reflexivity | now apply Hmixed]|].
        intros _. eexists. reflexivity.
      * intros e [= <-]. eexists. reflexivity.
    + split; [|discriminate]. split.
      * intros (e & He). discriminate He.
      * intros (_ & H). apply Hmixed in H. discriminate H.
  - assert (Hno : existsb
              (fun c => numbers_with_dates
                          (map (fun i => at_label df i c)
                             (filtered_indices df g))) (g :: c' :: cs) = false).
    { apply not_true_iff_false. intros H. apply existsb_exists in H.
      destruct H as (c & _ & H).
      now rewrite (no_dates_in_clean_frame df _ c Hclean) in H. }
    rewrite Hno. split; [|discriminate]. split.
    + intros (e & He). discriminate He.
    + intros (H & _). discriminate H.
Qed.

Lemma sort_raises_on_mixed_single_column_witness :
  exists e, sorted_indices thickness_example "T" = Raise e.
Proof.
  apply (sort_raises_on_mixed_single_column thickness_example "T"
           (MkSeries "T" object [CStr "12.5"; CInt 10; CInt 9]) eq_refl).
  - repeat constructor; simpl; intuition discriminate.
  - reflexivity.
  - repeat constructor.
  - split; [reflexivity|]. split.
    + exists (CStr "12.5"). repeat split. now left.
    + exists (CInt 10). repeat split. right. now left.
Defined.

End ViewsMore.

(* ================================================================= *)
(** ** The references of a grouped sheet *)

Module References.
Import PyStr Py Pandas BOMProcessor Notions Examples StrFacts SortFacts Views CellFacts.

Lemma filtered_indices_in_index (df : DataFrame) (g : string) (i : nat) :
  In i (filtered_indices df g) -> In i (index df).
Proof.
  unfold filtered_indices. destruct (column df g) as [s|]; [|intros []].
  intros H. apply in_map_iff in H. destruct H as ((i', v) & E & H).
  simpl in E. subst i'. apply filter_In in H. destruct H as [H _].
  now apply in_combine_l in H.
Qed.

(** When the labels of the frame are 0, 1, 2, ... in order, the cell in
    row [r] and column [c] under the header of a grouped sheet is the
    formula that names column [c] and row [idx + 2] of the master sheet,
    [idx] being the r-th label of the view, and that cell of the master
    sheet holds the value of column [c] in the frame's row [idx]. *)
Theorem references_hit_their_rows (df : DataFrame) (g : string)
    (view : list nat) (r idx c : nat) :
  index df = seq 0 (List.length (index df)) ->
  sorted_indices df g = Ok view ->
  nth_error view r = Some idx ->
  c < List.length (column_names df) ->
  sheet_cell (group_sheet df view) (r + 2) (c + 1) =
    Some (CStr (formula (get_column_letter (c + 1)) (idx + 2))) /\
  sheet_cell (to_excel df) (idx + 2) (c + 1) =
    option_map (fun col => nth idx (values col) CNaN)
      (nth_error (series df) c).
Proof.
  intros Hseq Hview Hr Hc. split.
  - replace (r + 2) with (S (S r)) by lia. replace (c + 1) with (S c) by lia.
    unfold sheet_cell, group_sheet. cbn [nth_error].
    rewrite nth_error_map, Hr. cbn [option_map].
    rewrite nth_error_map.
    replace (nth_error (seq 1 (List.length (column_names df))) c)
      with (Some (S c)); [reflexivity|].
    symmetry. rewrite nth_error_nth' with (d := 0) by (rewrite length_seq; lia).
    rewrite seq_nth by lia. reflexivity.
  - replace (c + 1) with (S c) by lia.
    rewrite reference_hits_master_row; [|assumption|].
    + unfold row_at. apply nth_error_map.
    + apply filtered_indices_in_index with (g := g).
      apply (Permutation_in _ (sorted_indices_perm df g view Hview)).
      eapply nth_error_In. exact Hr.
Qed.

Lemma references_hit_their_rows_witness :
  sheet_cell (group_sheet master_example [1; 2; 0]) 2 2 =
    Some (CStr "='전체'!B3") /\
  sheet_cell (to_excel master_example) 3 2 = Some (CStr "A1").
Proof.
  exact (references_hit_their_rows master_example "MATNO" [1; 2; 0] 0 1 1
           eq_refl eq_refl eq_refl
           (le_n_S _ _ (le_n_S _ _ (le_0_n _)))).
Defined.

(** *** A reference names one column and one row *)

Lemma column_index_snoc (s : string) (a : ascii) (acc : nat) :
  column_index_acc acc (s ++ String a EmptyString) =
  column_index_acc acc s * 26 + (nat_of_ascii a - 64).
Proof.
  revert acc. induction s as [|b s IH]; intros acc; simpl; [reflexivity|].
  apply IH.
Qed.

(** Reading the letters back gives the column number. *)
Lemma column_letters_read_back (fuel n : nat) :
  n <= letters_bound fuel ->
  column_index_acc 0 (column_letters fuel n) = n.
Proof.
  revert n. induction fuel as [|fuel IH]; intros n Hn.
  - simpl in *. lia.
  - cbn [column_letters letters_bound] in *.
    destruct (Nat.eqb n 0) eqn:E; [apply Nat.eqb_eq in E; now subst|].
    apply Nat.eqb_neq in E.
    rewrite column_index_snoc, IH.
    + rewrite nat_ascii_embedding.
      * pose proof (Nat.div_mod_eq (n - 1) 26). lia.
      * pose proof (Nat.mod_upper_bound (n - 1) 26). lia.
    + assert ((n - 1) / 26 < letters_bound fuel + 1); [|lia].
      apply Nat.Div0.div_lt_upper_bound. lia.
Qed.

Lemma column_letters_not_digits (fuel n : nat) :
  all_chars (fun a => negb (is_digit a)) (column_letters fuel n) = true.
Proof.
  revert n. induction fuel as [|fuel IH]; intros n; [reflexivity|].
  cbn [column_letters]. destruct (Nat.eqb n 0); [reflexivity|].
  rewrite all_chars_app, IH. cbn [all_chars andb].
  rewrite andb_true_r. unfold is_digit.
  rewrite nat_ascii_embedding.
  - apply negb_true_iff, andb_false_iff. right. apply Nat.leb_gt. lia.
  - pose proof (Nat.mod_upper_bound (n - 1) 26). lia.
Qed.

Lemma revapp_nonnil (d d' : Decimal.uint) :
  d' <> Decimal.Nil -> Decimal.revapp d d' <> Decimal.Nil.
Proof.
  revert d'. induction d; intros d' H; simpl; try assumption;
    apply IHd; discriminate.
Qed.

Lemma to_little_uint_nonnil (n : nat) (acc : Decimal.uint) :
  acc <> Decimal.Nil -> Nat.to_little_uint n acc <> Decimal.Nil.
Proof.
  revert acc. induction n as [|n IH]; intros acc H; simpl; [assumption|].
  apply IH. destruct acc; simpl; discriminate.
Qed.

Lemma to_uint_nonnil (n : nat) : Nat.to_uint n <> Decimal.Nil.
Proof.
  unfold Nat.to_uint, Decimal.rev.
  pose proof (to_little_uint_nonnil n (Decimal.D0 Decimal.Nil)) as H.
  destruct (Nat.to_little_uint n (Decimal.D0 Decimal.Nil));
    try (exfalso; apply H; [discriminate | reflexivity]);
    simpl; apply revapp_nonnil; discriminate.
Qed.

(** The text of a natural number: digits, at least one, and different
    numbers have different texts. *)
Lemma of_nat_digits (n : nat) :
  exists a r, of_nat n = String a r /\ is_digit a = true.
Proof.
  unfold of_nat, NilZero.string_of_uint.
  pose proof (to_uint_nonnil n) as H.
  pose proof (uint_text_digits (Nat.to_uint n)) as D.
  destruct (Nat.to_uint n); try congruence;
    simpl in *; eexists; eexists; (split; [reflexivity|]); reflexivity.
Qed.

Lemma of_nat_inj (n m : nat) : of_nat n = of_nat m -> n = m.
Proof.
  unfold of_nat. intros H.
  apply DecimalNat.Unsigned.to_uint_inj.
  pose proof (NilZero.usu _ (to_uint_nonnil n)) as Hn.
  pose proof (NilZero.usu _ (to_uint_nonnil m)) as Hm.
  rewrite H in Hn. congruence.
Qed.

Lemma append_inv_head (p s t : string) : p ++ s = p ++ t -> s = t.
Proof.
  induction p as [|a p IH]; simpl; [auto|].
  intros H. injection H as H. auto.
Qed.

(** Letters followed by a number split in one way only. *)
Lemma letters_then_digits (l1 l2 d1 d2 : string) :
  all_chars (fun a => negb (is_digit a)) l1 = true ->
  all_chars (fun a => negb (is_digit a)) l2 = true ->
  (exists a r, d1 = String a r /\ is_digit a = true) ->
  (exists a r, d2 = String a r /\ is_digit a = true) ->
  l1 ++ d1 = l2 ++ d2 -> l1 = l2 /\ d1 = d2.
Proof.
  revert l2. induction l1 as [|a l1 IH]; intros [|b l2] H1 H2 D1 D2 E;
    simpl in *.
  - now split.
  - exfalso. destruct D1 as (x & r & -> & Hx). injection E as -> _.
    apply andb_true_iff in H2. destruct H2 as [H2 _]. now rewrite Hx in H2.
  - exfalso. destruct D2 as (x & r & -> & Hx). injection E as <- _.
    apply andb_true_iff in H1. destruct H1 as [H1 _]. now rewrite Hx in H1.
  - injection E as <- E.
    apply andb_true_iff in H1, H2. destruct H1 as [_ H1], H2 as [_ H2].
    destruct (IH l2 H1 H2 D1 D2 E) as [-> ->]. now split.
Qed.

(** Two references written by option 2 with the same text name the same
    column and the same row: a formula identifies its target. *)
Theorem formula_identifies_target (c1 c2 r1 r2 : nat) :
  c1 <= letters_bound 3 -> c2 <= letters_bound 3 ->
  formula (get_column_letter c1) r1 = formula (get_column_letter c2) r2 ->
  c1 = c2 /\ r1 = r2.
Proof.
  intros H1 H2 E. unfold formula in E. apply append_inv_head in E.
  apply letters_then_digits in E;
    try apply column_letters_not_digits; try apply of_nat_digits.
  destruct E as [El Ed]. split; [|now apply of_nat_inj].
  unfold get_column_letter in El.
  rewrite <- (column_letters_read_back 3 c1 H1),
          <- (column_letters_read_back 3 c2 H2).
  now rewrite El.
Qed.

Lemma formula_identifies_target_witness :
  formula (get_column_letter 28) 3 = "='전체'!AB3" /\ 28 = 28 /\ 3 = 3.
Proof.
  split; [reflexivity|].
  apply (formula_identifies_target 28 28 3 3);
    [apply Nat.leb_le; vm_compute; reflexivity ..| reflexivity].
Defined.

End References.

(* ================================================================= *)
(** ** Sheet names, from option 2 to option 3 *)

Module SheetNames.
Import PyStr Py Pandas BOMProcessor Notions Examples StrFacts CellFacts.

Lemma all_chars_map (p : ascii -> bool) (f : ascii -> ascii) (s : string) :
  all_chars p (map_chars f s) = all_chars (fun a => p (f a)) s.
Proof. induction s as [|a s IH]; simpl; [reflexivity | now rewrite IH]. Qed.

Lemma all_chars_take (p : ascii -> bool) (n : nat) (s : string) :
  all_chars p s = true -> all_chars p (take n s) = true.
Proof.
  revert s. induction n as [|n IH]; intros [|a s]; simpl; try reflexivity.
  intros H. apply andb_true_iff in H. destruct H as [-> H]. now apply IH.
Qed.

Lemma take_length (n : nat) (s : string) : String.length (take n s) <= n.
Proof.
  revert s. induction n as [|n IH]; intros [|a s]; simpl; try lia.
  specialize (IH s). lia.
Qed.

(** The name option 2 gives a sheet has at most 31 characters and neither
    a blank nor a slash in it. *)
Theorem sheet_name_is_valid (col : string) :
  String.length (sheet_name_of col) <= 31 /\
  all_chars (fun a => negb (Ascii.eqb a " ") && negb (Ascii.eqb a "/"))
    (sheet_name_of col) = true.
Proof.
  unfold sheet_name_of. split; [apply take_length|].
  apply all_chars_take. unfold replace_char. rewrite !all_chars_map.
  induction col as [|a col IH]; simpl; [reflexivity|].
  rewrite IH, andb_true_r.
  destruct (Ascii.eqb a " ") eqn:E1; [reflexivity|].
  destruct (Ascii.eqb a "/") eqn:E2; [reflexivity|].
  now rewrite E1, E2.
Qed.

(** The validator finds a column for every sheet that option 2 wrote for
    a column of the header, and it is that very column when no other
    header gives the same sheet name. *)
Theorem sheet_name_leads_back (hs : list string) (g : string) :
  In g hs ->
  (exists h, actual_col hs (sheet_name_of g) = Some h /\
             In h hs /\ sheet_name_of h = sheet_name_of g) /\
  ((forall h, In h hs -> sheet_name_of h = sheet_name_of g -> h = g) ->
   actual_col hs (sheet_name_of g) = Some g).
Proof.
  intros Hin. unfold actual_col.
  assert (H : exists h, find (fun h => String.eqb (sheet_name_of h)
                                         (sheet_name_of g)) hs = Some h).
  { destruct (find _ hs) as [h|] eqn:F; [now exists h|].
    apply (find_none _ _ F) in Hin. now rewrite String.eqb_refl in Hin. }
  destruct H as (h & F). pose proof (find_some _ _ F) as [Hh Eh].
  apply String.eqb_eq in Eh. split.
  - exists h. auto.
  - intros Hinj. rewrite F. f_equal. now apply Hinj.
Qed.

Lemma sheet_name_leads_back_witness :
  actual_col ["WELD UNIQUE ID"; "MATNO"; "STEEL NO"; "Grade"]
    (sheet_name_of "STEEL NO") = Some "STEEL NO".
Proof.
  apply (sheet_name_leads_back
           ["WELD UNIQUE ID"; "MATNO"; "STEEL NO"; "Grade"] "STEEL NO").
  - right. right. left. reflexivity.
  - intros h [<-|[<-|[<-|[<-|[]]]]]; intros E;
      try reflexivity; discriminate E.
Defined.

End SheetNames.

(* ================================================================= *)
(** ** The validator's report *)

Module Report.
Import PyStr Py Pandas BOMProcessor Notions Examples DictFacts.

Section Report.
Variable float_equal : string -> string -> bool.

Lemma compare_field_consistent (g a : DataFrame) (rg ra : dict)
    (st : sample_state) (col : string) :
  consistent st ->
  consistent (compare_field float_equal g a rg ra st col) /\
  mismatches (compare_field float_equal g a rg ra st col) <= S (mismatches st) /\
  looked_up (compare_field float_equal g a rg ra st col) = looked_up st.
Proof.
  intros H. unfold compare_field.
  destruct (mem col (column_names g) && mem col (column_names a));
    [|split; [assumption | split; [lia | reflexivity]]].
  destruct (float_equal _ _);
    [split; [assumption | split; [lia | reflexivity]]|].
  destruct (negb _);
    [|split; [assumption | split; [lia | reflexivity]]].
  split; [|split; [simpl; lia | reflexivity]].
  unfold consistent. simpl. split; [discriminate | intros [E _]; discriminate].
Qed.

Lemma compare_fields_consistent (g a : DataFrame) (rg ra : dict)
    (cols : list string) (st : sample_state) :
  consistent st ->
  consistent (fold_left (compare_field float_equal g a rg ra) cols st) /\
  mismatches (fold_left (compare_field float_equal g a rg ra) cols st) <=
    mismatches st + List.length cols /\
  looked_up (fold_left (compare_field float_equal g a rg ra) cols st) =
    looked_up st.
Proof.
  revert st. induction cols as [|c cols IH]; intros st H; cbn [fold_left].
  - split; [assumption | split; [simpl; lia | reflexivity]].
  - destruct (compare_field_consistent g a rg ra st c H) as (H1 & H2 & H3).
    destruct (IH _ H1) as (I1 & I2 & I3).
    split; [assumption|]. split; [simpl; lia|]. now rewrite I3.
Qed.

Lemma sample_loop_consistent (g a : DataFrame) (key column_ : string)
    (idxs : list nat) (st st' : sample_state) :
  consistent st ->
  sample_loop float_equal g a key column_ idxs st = Ok st' ->
  consistent st' /\
  mismatches st' <= mismatches st + 4 * List.length idxs.
Proof.
  revert st. induction idxs as [|idx idxs IH]; intros st H; cbn [sample_loop].
  - intros [= <-]. split; [assumption | lia].
  - unfold getitem.
    destruct (dict_get key (iloc g idx)) as [v|]; cbn [bind];
      [|discriminate].
    destruct (resolve a key v) as [[r|]|e]; cbn [bind]; [| |discriminate].
    + intros E.
      set (st1 := SampleState (ok_so_far st) (mismatches st)
                    (looked_up st ++ [Some r])%list) in E.
      assert (H1 : consistent st1).
      { unfold consistent, st1. cbn [ok_so_far mismatches looked_up].
        unfold consistent in H. rewrite H. split; intros [Hm Hn];
          (split; [assumption|]); intros Hin; apply Hn.
        - apply in_app_or in Hin. destruct Hin as [Hin|[Hin|[]]];
            [assumption | discriminate].
        - apply in_or_app. now left. }
      destruct (compare_fields_consistent g a (iloc g idx) r
                  [column_; "WEIGHT"; "T"; "B"] st1 H1) as (C1 & C2 & _).
      destruct (IH _ C1 E) as (I1 & I2).
      split; [assumption|].
      cbn [List.length] in *. subst st1. cbn [mismatches] in C2. lia.
    + intros [= <-]. split.
      * unfold consistent. cbn [ok_so_far mismatches looked_up].
        split; [discriminate|]. intros [_ Hn]. exfalso. apply Hn.
        apply in_or_app. right. now left.
      * cbn [mismatches]. lia.
Qed.

(** *** A field that differs is counted *)

(** The comparison of the fields never takes a mismatch back. *)
Lemma compare_field_grows (g a : DataFrame) (rg ra : dict)
    (st : sample_state) (col : string) :
  let st' := compare_field float_equal g a rg ra st col in
  mismatches st <= mismatches st' /\
  (mismatches st < mismatches st' -> ok_so_far st' = false) /\
  (ok_so_far st = false -> ok_so_far st' = false).
Proof.
  unfold compare_field.
  destruct (mem col (column_names g) && mem col (column_names a));
    [|cbv zeta; split; [lia | split; [lia | auto]]].
  destruct (float_equal _ _);
    [cbv zeta; split; [lia | split; [lia | auto]]|].
  destruct (negb _); cbv zeta;
    [|split; [lia | split; [lia | auto]]].
  cbn [mismatches ok_so_far]. split; [lia | split; auto].
Qed.

Lemma compare_fields_grow (g a : DataFrame) (rg ra : dict)
    (cols : list string) (st : sample_state) :
  let st' := fold_left (compare_field float_equal g a rg ra) cols st in
  mismatches st <= mismatches st' /\
  (mismatches st < mismatches st' -> ok_so_far st' = false) /\
  (ok_so_far st = false -> ok_so_far st' = false).
Proof.
  revert st. induction cols as [|c cols IH]; intros st; cbn [fold_left].
  - cbv zeta. split; [lia | split; [lia | auto]].
  - destruct (compare_field_grows g a rg ra st c) as (G1 & G2 & G3).
    destruct (IH (compare_field float_equal g a rg ra st c))
      as (I1 & I2 & I3).
    cbv zeta in *. split; [lia|]. split; [|auto].
    intros Hlt.
    destruct (Nat.eq_dec (mismatches st)
                (mismatches (compare_field float_equal g a rg ra st c)))
      as [E|E].
    + apply I2. lia.
    + apply I3, G2. lia.
Qed.

(** A compared column in which the two rows differ adds a mismatch. *)
Lemma compare_fields_count (g a : DataFrame) (rg ra : dict)
    (cols : list string) (st : sample_state) (col : string) :
  In col cols ->
  mem col (column_names g) && mem col (column_names a) = true ->
  float_equal (strip (str (field rg col))) (strip (str (field ra col))) =
    false ->
  strip (str (field rg col)) <> strip (str (field ra col)) ->
  mismatches st <
    mismatches (fold_left (compare_field float_equal g a rg ra) cols st).
Proof.
  intros Hin Hmem Hfe Hne. revert st.
  induction cols as [|c cols IH]; intros st; [destruct Hin|].
  cbn [fold_left].
  destruct (compare_field_grows g a rg ra st c) as (G1 & _ & _).
  cbv zeta in G1.
  destruct Hin as [->|Hin].
  - destruct (compare_fields_grow g a rg ra cols
                (compare_field float_equal g a rg ra st col)) as (I1 & _ & _).
    cbv zeta in I1.
    assert (S (mismatches st) =
            mismatches (compare_field float_equal g a rg ra st col)); [|lia].
    unfold compare_field. rewrite Hmem, Hfe.
    apply String.eqb_neq in Hne. now rewrite Hne.
  - specialize (IH Hin (compare_field float_equal g a rg ra st c)). lia.
Qed.

Lemma sample_loop_grows (g a : DataFrame) (key column_ : string)
    (idxs : list nat) (st st' : sample_state) :
  sample_loop float_equal g a key column_ idxs st = Ok st' ->
  mismatches st <= mismatches st' /\
  (mismatches st < mismatches st' -> ok_so_far st' = false) /\
  (ok_so_far st = false -> ok_so_far st' = false) /\
  List.length (looked_up st) <= List.length (looked_up st').
Proof.
  revert st. induction idxs as [|idx idxs IH]; intros st; cbn [sample_loop].
  - intros [= <-]. split; [lia | split; [lia | auto]].
  - unfold getitem.
    destruct (dict_get key (iloc g idx)) as [v|]; cbn [bind];
      [|discriminate].
    destruct (resolve a key v) as [[r|]|e]; cbn [bind]; [| |discriminate].
    + intros E. apply IH in E. destruct E as (I1 & I2 & I3 & I4).
      destruct (compare_fields_grow g a (iloc g idx) r
                  [column_; "WEIGHT"; "T"; "B"]
                  (SampleState (ok_so_far st) (mismatches st)
                     (looked_up st ++ [Some r])%list)) as (G1 & G2 & G3).
      cbv zeta in G1, G2, G3. cbn [mismatches ok_so_far] in G1, G2, G3.
      rewrite Validator.compare_fields_looked_up in I4.
      cbn [looked_up] in I4. rewrite length_app in I4. cbn [List.length] in I4.
      split; [lia|]. split; [|split; [auto | lia]].
      intros Hlt.
      destruct (Nat.eq_dec (mismatches st)
                  (mismatches
                     (fold_left
                        (compare_field float_equal g a (iloc g idx) r)
                        [column_; "WEIGHT"; "T"; "B"]
                        (SampleState (ok_so_far st) (mismatches st)
                           (looked_up st ++ [Some r])%list)))) as [E|E].
      * apply I2. lia.
      * apply I3, G2. lia.
    + intros [= <-]. cbn [mismatches ok_so_far looked_up].
      rewrite length_app. cbn [List.length].
      split; [lia|]. split; [auto|]. split; [auto | lia].
Qed.

Lemma sample_loop_counts (g a : DataFrame) (key column_ : string)
    (idxs : list nat) (st st' : sample_state) (k idx : nat) (r : dict)
    (col : string) :
  sample_loop float_equal g a key column_ idxs st = Ok st' ->
  nth_error idxs k = Some idx ->
  nth_error (looked_up st') (List.length (looked_up st) + k) = Some (Some r) ->
  In col [column_; "WEIGHT"; "T"; "B"] ->
  mem col (column_names g) && mem col (column_names a) = true ->
  float_equal (strip (str (field (iloc g idx) col)))
    (strip (str (field r col))) = false ->
  strip (str (field (iloc g idx) col)) <> strip (str (field r col)) ->
  ok_so_far st' = false /\ mismatches st < mismatches st'.
Proof.
  intros Hs Hk Hl Hin Hmem Hfe Hne. revert st k Hs Hk Hl.
  induction idxs as [|i idxs IH]; intros st k Hs Hk Hl;
    [destruct k; discriminate Hk|].
  cbn [sample_loop] in Hs. unfold getitem in Hs.
  destruct (dict_get key (iloc g i)) as [v|]; cbn [bind] in Hs;
    [|discriminate].
  destruct (resolve a key v) as [[r0|]|e]; cbn [bind] in Hs;
    [| |discriminate].
  - set (st1 := SampleState (ok_so_far st) (mismatches st)
                  (looked_up st ++ [Some r0])%list) in Hs.
    set (st2 := fold_left (compare_field float_equal g a (iloc g i) r0)
                  [column_; "WEIGHT"; "T"; "B"] st1) in Hs.
    assert (L2 : looked_up st2 = (looked_up st ++ [Some r0])%list)
      by (unfold st2; now rewrite Validator.compare_fields_looked_up).
    destruct (compare_fields_grow g a (iloc g i) r0
                [column_; "WEIGHT"; "T"; "B"] st1) as (G1 & G2 & G3).
    cbv zeta in G1, G2, G3. fold st2 in G1, G2, G3.
    cbn [mismatches ok_so_far st1] in G1.
    destruct (sample_loop_grows g a key column_ idxs st2 st' Hs)
      as (M1 & M2 & M3 & M4).
    destruct k as [|k].
    + cbn [nth_error] in Hk. injection Hk as ->.
      rewrite Nat.add_0_r in Hl.
      assert (Er : r0 = r).
      { destruct (Validator.sample_loop_looked_up_prefix float_equal
                    g a key column_ idxs st2 st' Hs) as (l & El).
        rewrite El, L2, <- app_assoc in Hl.
        rewrite nth_error_app2 in Hl by lia.
        rewrite Nat.sub_diag in Hl. cbn in Hl. congruence. }
      subst r0.
      pose proof (compare_fields_count g a (iloc g idx) r
                    [column_; "WEIGHT"; "T"; "B"] st1 col Hin Hmem Hfe Hne)
        as Hc.
      fold st2 in Hc. cbn [mismatches st1] in Hc.
      split; [|lia]. apply M3, G2. cbn [mismatches st1]. lia.
    + cbn [nth_error] in Hk.
      destruct (IH st2 k Hs Hk) as (I1 & I2).
      { rewrite L2, length_app. cbn [List.length].
        now replace (List.length (looked_up st) + 1 + k)
          with (List.length (looked_up st) + S k) by lia. }
      split; [assumption | lia].
  - injection Hs as <-. cbn [looked_up] in Hl.
    rewrite nth_error_app2 in Hl by lia.
    replace (List.length (looked_up st) + k - List.length (looked_up st))
      with k in Hl by lia.
    destruct k as [|[|k]]; discriminate Hl.
Qed.
End Report.

(** What a line of the validation report says.  [data_match] is true
    exactly when no field mismatch was counted and every sampled row
    was found in the master sheet; at most twelve mismatches are
    counted; a sheet whose row count differs from the expected one, or
    that has no rows, is not sampled at all and is reported with
    [data_match] true and no mismatch. *)
Theorem report_is_consistent (float_equal : string -> string -> bool)
    (ws_all ws_group : loaded_sheet) (column_ : string)
    (res : sheet_result) (looked : list (option dict)) :
  validate_sheet float_equal ws_all ws_group column_ = Ok (res, looked) ->
  (data_match res = true <->
   mismatch_count res = 0 /\ ~ In None looked) /\
  mismatch_count res <= 12 /\
  (row_count_match res = false \/ body ws_group = [] ->
   data_match res = true /\ mismatch_count res = 0 /\ looked = []).
Proof.
  unfold validate_sheet. cbv zeta.
  set (df_all := frame_of (headers ws_all) (body ws_all)).
  set (df_group := frame_of (headers ws_all) (body ws_group)).
  destruct (expected_df df_all column_) as [expected|e]; cbn [bind];
    [|discriminate].
  destruct (Nat.eqb (len df_group) (List.length expected)) eqn:Ec;
    cbn [andb].
  - destruct (empty df_group) eqn:En; cbn [negb].
    + intros [= <- <-]. cbn [data_match mismatch_count row_count_match].
      split; [split; [intros _; split; [reflexivity | intros []] |
                      reflexivity]|].
      split; [lia | auto].
    + destruct (sample_loop float_equal df_group df_all (key_col df_all)
                  column_ (sample_indices (len df_group))
                  (SampleState true 0 [])) as [st|e] eqn:Es;
        cbn [bind]; [|discriminate].
      intros [= <- <-]. cbn [data_match mismatch_count row_count_match].
      apply sample_loop_consistent in Es.
      * destruct Es as [Hc Hm].
        cbn [sample_indices List.length mismatches] in Hm.
        split; [exact Hc|]. split; [lia|].
        intros [H|H]; [discriminate|].
        exfalso. unfold empty in En. apply orb_false_iff in En.
        destruct En as [En _]. apply Nat.eqb_neq in En. apply En.
        unfold df_group, frame_of, len. now rewrite H.
      * cbn [ok_so_far mismatches looked_up].
        split; [intros _; split; [reflexivity | intros []] | reflexivity].
  - intros [= <- <-]. cbn [data_match mismatch_count row_count_match].
    split; [split; [intros _; split; [reflexivity | intros []] |
                    reflexivity]|].
    split; [lia | auto].
Qed.

Lemma report_is_consistent_witness :
  (true = true <-> 0 = 0 /\ ~ In None matno_view_lookups) /\ 0 <= 12.
Proof.
  destruct (report_is_consistent plain_float_equal loaded_master
              loaded_matno_view "MATNO" (SheetResult true true 0)
              matno_view_lookups eq_refl) as (H1 & H2 & _).
  split; [exact H1 | exact H2].
Defined.

(** A sampled row is compared with the first master row that has its
    key, not with the row the view refers to.  Whenever a sample was
    found and its text under the grouping column, WEIGHT, T or B differs
    from that master row's in a column both frames have, the sheet is
    reported as not matching, with at least one mismatch: so is a sheet
    that lists the right rows of a master in which a key is repeated. *)
Theorem sampled_row_differs_from_first_key_row
    (float_equal : string -> string -> bool)
    (ws_all ws_group : loaded_sheet) (column_ col : string)
    (res : sheet_result) (looked : list (option dict))
    (k idx : nat) (r : dict) :
  let df_all := frame_of (headers ws_all) (body ws_all) in
  let df_group := frame_of (headers ws_all) (body ws_group) in
  validate_sheet float_equal ws_all ws_group column_ = Ok (res, looked) ->
  nth_error (sample_indices (len df_group)) k = Some idx ->
  nth_error looked k = Some (Some r) ->
  In col [column_; "WEIGHT"; "T"; "B"] ->
  mem col (column_names df_group) && mem col (column_names df_all) = true ->
  float_equal (strip (str (field (iloc df_group idx) col)))
    (strip (str (field r col))) = false ->
  strip (str (field (iloc df_group idx) col)) <> strip (str (field r col)) ->
  data_match res = false /\ 1 <= mismatch_count res.
Proof.
  intros df_all df_group Hv Hk Hl Hin Hmem Hfe Hne.
  unfold validate_sheet in Hv. cbv zeta in Hv.
  fold df_all in Hv. fold df_group in Hv.
  destruct (expected_df df_all column_) as [expected|e]; cbn [bind] in Hv;
    [|discriminate].
  destruct (Nat.eqb (len df_group) (List.length expected) &&
            negb (empty df_group)).
  - destruct (sample_loop float_equal df_group df_all (key_col df_all)
                column_ (sample_indices (len df_group))
                (SampleState true 0 [])) as [st|e] eqn:Es;
      cbn [bind] in Hv; [|discriminate].
    injection Hv as <- <-. cbn [data_match mismatch_count].
    destruct (sample_loop_counts float_equal df_group df_all
                (key_col df_all) column_ (sample_indices (len df_group))
                (SampleState true 0 []) st k idx r col Es Hk Hl Hin Hmem
                Hfe Hne) as (H1 & H2).
    cbn [mismatches] in H2. split; [assumption | lia].
  - injection Hv as <- <-. destruct k; discriminate Hl.
Qed.

Lemma sampled_row_differs_from_first_key_row_witness :
  data_match (SheetResult true false 4) = false /\
  1 <= mismatch_count (SheetResult true false 4).
Proof.
  apply (sampled_row_differs_from_first_key_row plain_float_equal
           loaded_two_slots loaded_two_slots_view "MATNO" "MATNO"
           (SheetResult true false 4)
           [Some [("WELD UNIQUE ID", CStr "W1"); ("MATNO", CStr "M1");
                  ("WEIGHT", CInt 5)];
            Some [("WELD UNIQUE ID", CStr "W1"); ("MATNO", CStr "M1");
                  ("WEIGHT", CInt 5)];
            Some [("WELD UNIQUE ID", CStr "W1"); ("MATNO", CStr "M1");
                  ("WEIGHT", CInt 5)]]
           1 1
           [("WELD UNIQUE ID", CStr "W1"); ("MATNO", CStr "M1");
            ("WEIGHT", CInt 5)]).
  - vm_compute. reflexivity.
  - reflexivity.
  - reflexivity.
  - left. reflexivity.
  - reflexivity.
  - vm_compute. reflexivity.
  - vm_compute. discriminate.
Defined.

End Report.

(* ================================================================= *)
(** ** Choosing the two input files *)

Module LoaderFacts.
Import PyStr Py Pandas BOMProcessor Notions Examples MatchFacts.

Lemma priority_files_In (fs : list string) (f : string) :
  In f (priority_files fs) <-> In f fs.
Proof.
  unfold priority_files. rewrite in_app_iff, !filter_In.
  destruct (contains "260130" f); simpl; intuition congruence.
Qed.

Lemma priority_files_length (fs : list string) :
  List.length (priority_files fs) = List.length fs.
Proof.
  unfold priority_files. rewrite length_app.
  induction fs as [|f fs IH]; simpl; [reflexivity|].
  destruct (contains "260130" f); simpl; lia.
Qed.

Lemma priority_files_NoDup (fs : list string) :
  NoDup fs -> NoDup (priority_files fs).
Proof.
  intros H. unfold priority_files.
  induction H as [|f fs Hnotin Hnd IH]; simpl; [constructor|].
  destruct (contains "260130" f) eqn:E; simpl.
  - constructor; [|assumption].
    fold (priority_files fs). now rewrite priority_files_In.
  - apply (Permutation_NoDup (Permutation_middle _ _ f)).
    constructor; [|assumption].
    fold (priority_files fs). now rewrite priority_files_In.
Qed.

Lemma is_set_In (fs : list string) (f : string) :
  Forall (fun f => is_empty f = false) fs -> In f fs -> is_set (Some f) = true.
Proof.
  intros H Hin. rewrite Forall_forall in H. simpl. now rewrite (H f Hin).
Qed.

Lemma find_snoc {A : Type} (p : A -> bool) (l : list A) (x : A) :
  find p (l ++ [x]) =
  match find p l with
  | Some y => Some y
  | None => if p x then Some x else None
  end.
Proof.
  induction l as [|y l IH]; simpl; [reflexivity|].
  destruct (p y); [reflexivity | assumption].
Qed.

Lemma find_ext_within {A : Type} (p q : A -> bool) (l : list A) :
  (forall x, In x l -> p x = q x) -> find p l = find q l.
Proof.
  induction l as [|y l IH]; intros H; simpl; [reflexivity|].
  rewrite (H y) by now left.
  destruct (q y); [reflexivity|]. apply IH. intros x Hx. apply H. now right.
Qed.

Section Loop.
Variable read_head : string -> option (list string).

(** Each attribute is empty or names one of the files gone through. *)
Lemma load_step_members (fs : list string) (st : loader) (f : string) :
  (forall w, weld_file st = Some w -> In w fs) ->
  (forall d, detail_file st = Some d -> In d fs) ->
  In f fs ->
  (forall w, weld_file (load_step read_head st f) = Some w -> In w fs) /\
  (forall d, detail_file (load_step read_head st f) = Some d -> In d fs).
Proof.
  intros Hw Hd Hf. unfold load_step.
  destruct (read_head f) as [cols|]; [|auto].
  destruct (detect_weld_file cols && negb (is_set (weld_file st))).
  - simpl. split; [now intros w [= <-] | assumption].
  - destruct (mem "MATNO" (map upper cols) && negb (is_set (detail_file st)));
      [|auto].
    simpl. split; [assumption | now intros d [= <-]].
Qed.

Lemma load_loop_members (fs done : list string) (st : loader) :
  incl done fs ->
  (forall w, weld_file st = Some w -> In w fs) ->
  (forall d, detail_file st = Some d -> In d fs) ->
  (forall w, weld_file (fold_left (load_step read_head) done st) = Some w ->
     In w fs) /\
  (forall d, detail_file (fold_left (load_step read_head) done st) = Some d ->
     In d fs).
Proof.
  revert st. induction done as [|f done IH]; intros st Hincl Hw Hd;
    cbn [fold_left]; [auto|].
  destruct (load_step_members fs st f Hw Hd) as [Hw' Hd'].
  { apply Hincl. now left. }
  apply IH; [|assumption..].
  intros x Hx. apply Hincl. now right.
Qed.

(** The loop leaves the first file that reads as a weld file, and the
    first other file that reads as a detail file. *)
Lemma load_loop_result (done : list string) :
  NoDup done ->
  Forall (fun f => is_empty f = false) done ->
  fold_left (load_step read_head) done (Loader None None) =
  Loader (first_weld read_head done) (first_detail read_head done).
Proof.
  induction done as [|x done IH] using rev_ind; intros Hnd Hne;
    [reflexivity|].
  assert (Hx : ~ In x done).
  { apply NoDup_remove_2 with (l' := []) in Hnd.
    now rewrite app_nil_r in Hnd. }
  assert (Hnd' : NoDup done).
  { apply NoDup_remove_1 with (l' := []) in Hnd.
    now rewrite app_nil_r in Hnd. }
  apply Forall_app in Hne. destruct Hne as [Hne _].
  rewrite fold_left_app, (IH Hnd' Hne). cbn [fold_left].
  (* the weld file found in [done], if any, is not [x] *)
  assert (Hw : forall w, first_weld read_head done = Some w ->
                 In w done /\ String.eqb x w = false /\ is_set (Some w) = true).
  { intros w E. apply find_some in E. destruct E as [E _].
    split; [assumption|]. split.
    - apply String.eqb_neq. intros ->. auto.
    - now apply (is_set_In done). }
  assert (Hd : forall d, first_detail read_head done = Some d ->
                 is_set (Some d) = true).
  { intros d E. apply find_some in E. destruct E as [E _].
    now apply (is_set_In done). }
  (* the test for a detail file, on the files of [done] *)
  assert (Hp : forall w',
      (first_weld read_head done = None -> w' = Some x \/ w' = None) ->
      (forall w, first_weld read_head done = Some w -> w' = Some w) ->
      find (fun f => reads_as_detail read_head f &&
                     negb match w' with
                          | Some w => String.eqb f w
                          | None => false
                          end) done =
      first_detail read_head done).
  { intros w' H1 H2. unfold first_detail. apply find_ext_within.
    intros f Hf. f_equal. f_equal.
    destruct (first_weld read_head done) as [w|] eqn:E.
    - now rewrite (H2 w eq_refl).
    - destruct (H1 eq_refl) as [-> | ->]; [|reflexivity].
      apply String.eqb_neq. intros ->. auto. }
  assert (Efw : first_weld read_head (done ++ [x]) =
                match first_weld read_head done with
                | Some y => Some y
                | None => if reads_as_weld read_head x then Some x else None
                end) by (unfold first_weld; apply find_snoc).
  unfold first_detail at 2. rewrite find_snoc, !Efw. clear Efw.
  destruct (first_weld read_head done) as [w|] eqn:Ew.
  - destruct (Hw w eq_refl) as (_ & Hxw & Hset).
    rewrite (Hp (Some w)); [|discriminate | now intros ? [= <-]].
    rewrite Hxw. cbn [negb]. rewrite andb_true_r.
    unfold load_step, reads_as_detail. cbn [weld_file detail_file].
    rewrite Hset.
    destruct (read_head x) as [cols|];
      [|destruct (first_detail read_head done); reflexivity].
    rewrite andb_false_r.
    destruct (first_detail read_head done) as [d|] eqn:Ed.
    + rewrite (Hd d eq_refl), andb_false_r. reflexivity.
    + cbn [is_set negb]. rewrite andb_true_r.
      destruct (mem "MATNO" (map upper cols)); reflexivity.
  - destruct (reads_as_weld read_head x) eqn:Erw.
    + rewrite (Hp (Some x)); [|auto | discriminate].
      rewrite String.eqb_refl. cbn [negb]. rewrite andb_false_r.
      unfold load_step. unfold reads_as_weld in Erw.
      destruct (read_head x) as [cols|]; [|discriminate].
      rewrite Erw. cbn [weld_file detail_file is_set negb andb].
      destruct (first_detail read_head done); reflexivity.
    + rewrite (Hp None); [|auto | discriminate].
      cbn [negb]. rewrite andb_true_r.
      unfold load_step, reads_as_detail. unfold reads_as_weld in Erw.
      cbn [weld_file detail_file].
      destruct (read_head x) as [cols|];
        [|destruct (first_detail read_head done); reflexivity].
      rewrite Erw. cbn [andb].
      destruct (first_detail read_head done) as [d|] eqn:Ed.
      * rewrite (Hd d eq_refl), andb_false_r. reflexivity.
      * cbn [is_set negb]. rewrite andb_true_r.
        destruct (mem "MATNO" (map upper cols)); reflexivity.
Qed.
End Loop.

(** [load_files] gives up exactly when there are fewer than two files;
    otherwise it leaves both attributes set, each to one of the
    files. *)
Theorem load_files_sets_both (read_head : string -> option (list string))
    (fs : list string) :
  Forall (fun f => is_empty f = false) fs ->
  (load_files read_head fs = None <-> List.length fs < 2) /\
  (forall st, load_files read_head fs = Some st ->
     exists w d, weld_file st = Some w /\ detail_file st = Some d /\
                 In w fs /\ In d fs).
Proof.
  intros Hne. unfold load_files.
  destruct (List.length fs <? 2)%nat eqn:El.
  - apply Nat.ltb_lt in El. split; [tauto | discriminate].
  - apply Nat.ltb_ge in El.
    split; [split; [discriminate | lia]|].
    intros st [= <-].
    set (pf := priority_files fs).
    set (st0 := fold_left (load_step read_head) pf (Loader None None)).
    destruct (load_loop_members read_head fs pf (Loader None None))
      as [Hw Hd]; try discriminate.
    { intros f Hf. now apply priority_files_In. }
    fold st0 in Hw, Hd.
    assert (Hpf : exists a b rest, pf = a :: b :: rest).
    { pose proof (priority_files_length fs) as Hlen. fold pf in Hlen.
      destruct pf as [|a [|b rest]]; simpl in Hlen; try lia.
      now exists a, b, rest. }
    destruct Hpf as (a & b & rest & Epf).
    assert (Ha : In a fs).
    { apply priority_files_In. fold pf. rewrite Epf. now left. }
    assert (Hb : In b fs).
    { apply priority_files_In. fold pf. rewrite Epf. right. now left. }
    rewrite Epf. unfold fall_back.
    destruct (weld_file st0) as [w|] eqn:Ew;
      destruct (detail_file st0) as [d|] eqn:Ed.
    + rewrite (is_set_In fs w Hne (Hw w eq_refl)),
        (is_set_In fs d Hne (Hd d eq_refl)).
      cbn [negb orb]. exists w, d. rewrite Ew, Ed. auto.
    + rewrite (is_set_In fs w Hne (Hw w eq_refl)).
      cbn [negb orb is_set]. rewrite Ed. cbn [is_set negb].
      exists w, b. cbn [weld_file detail_file]. rewrite Ew. auto.
    + pose proof (is_set_In fs d Hne (Hd d eq_refl)) as Hs.
      change (is_set None) with false. rewrite Hs.
      cbn [negb orb detail_file weld_file]. rewrite Hs. cbn [negb].
      exists a, d. cbn [weld_file detail_file]. auto.
    + cbn [negb orb is_set detail_file weld_file].
      exists a, b. cbn [weld_file detail_file]. auto.
Qed.

Lemma load_files_sets_both_witness :
  exists w d,
    weld_file (Loader (Some "data/weld.xlsx")
                 (Some "data/detail_260130.xlsx")) = Some w /\
    detail_file (Loader (Some "data/weld.xlsx")
                   (Some "data/detail_260130.xlsx")) = Some d /\
    In w example_files /\ In d example_files.
Proof.
  apply (load_files_sets_both example_heads example_files).
  - repeat constructor.
  - reflexivity.
Defined.

(** Which files [load_files] chooses, for distinct files.  The weld
    file is the first file, files named after 260130 going first, whose
    header reads as a weld file, and the first file of all when there is
    none.  The detail file is the first other file whose header has a
    MATNO column, and the second file of all when there is none. *)
Theorem load_files_choice (read_head : string -> option (list string))
    (fs : list string) (st : loader) :
  NoDup fs ->
  Forall (fun f => is_empty f = false) fs ->
  load_files read_head fs = Some st ->
  weld_file st =
    match first_weld read_head (priority_files fs) with
    | Some w => Some w
    | None => hd_error (priority_files fs)
    end /\
  detail_file st =
    match first_detail read_head (priority_files fs) with
    | Some d => Some d
    | None => nth_error (priority_files fs) 1
    end.
Proof.
  intros Hnd Hne. unfold load_files.
  destruct (List.length fs <? 2)%nat eqn:El; [discriminate|].
  apply Nat.ltb_ge in El. intros [= <-].
  set (pf := priority_files fs).
  assert (Hne' : Forall (fun f => is_empty f = false) pf).
  { rewrite Forall_forall in *. intros f Hf. apply Hne.
    now apply priority_files_In. }
  rewrite (load_loop_result read_head pf (priority_files_NoDup fs Hnd) Hne').
  assert (Hw : forall w, first_weld read_head pf = Some w ->
                 is_set (Some w) = true).
  { intros w E. apply find_some in E. now apply (is_set_In pf). }
  assert (Hd : forall d, first_detail read_head pf = Some d ->
                 is_set (Some d) = true).
  { intros d E. apply find_some in E. now apply (is_set_In pf). }
  pose proof (priority_files_length fs) as Hlen. fold pf in Hlen.
  destruct pf as [|a [|b rest]] eqn:Epf; simpl in Hlen; try lia.
  unfold fall_back. cbn [weld_file detail_file hd_error nth_error].
  destruct (first_weld read_head (a :: b :: rest)) as [w|] eqn:Ew;
    destruct (first_detail read_head (a :: b :: rest)) as [d|] eqn:Ed.
  - rewrite (Hw w eq_refl), (Hd d eq_refl). cbn [negb orb]. auto.
  - change (is_set None) with false. rewrite (Hw w eq_refl).
    cbn [negb orb weld_file detail_file]. auto.
  - change (is_set None) with false. rewrite (Hd d eq_refl).
    cbn [negb orb weld_file detail_file].
    rewrite (Hd d eq_refl). cbn [negb]. auto.
  - cbn [negb orb is_set weld_file detail_file]. auto.
Qed.

Lemma load_files_choice_witness :
  priority_files example_files =
    ["data/detail_260130.xlsx"; "data/notes.xlsx"; "data/weld.xlsx"] /\
  weld_file (Loader (Some "data/weld.xlsx")
               (Some "data/detail_260130.xlsx")) = Some "data/weld.xlsx" /\
  detail_file (Loader (Some "data/weld.xlsx")
                 (Some "data/detail_260130.xlsx")) =
    Some "data/detail_260130.xlsx".
Proof.
  split; [reflexivity|].
  apply (load_files_choice example_heads example_files).
  - replace example_files with (nodup string_dec example_files)
      by reflexivity.
    apply NoDup_nodup.
  - repeat constructor.
  - reflexivity.
Defined.

(** The two attributes can name the same file: when no header reads as
    a weld file and the first file, in priority order, has a MATNO
    column, that file is taken as the weld file and as the detail
    file. *)
Theorem one_file_in_both_roles (read_head : string -> option (list string))
    (fs : list string) (st : loader) (f : string) :
  NoDup fs ->
  Forall (fun f => is_empty f = false) fs ->
  load_files read_head fs = Some st ->
  first_weld read_head (priority_files fs) = None ->
  hd_error (priority_files fs) = Some f ->
  reads_as_detail read_head f = true ->
  weld_file st = Some f /\ detail_file st = Some f.
Proof.
  intros Hnd Hne. unfold load_files.
  destruct (List.length fs <? 2)%nat eqn:El; [discriminate|].
  apply Nat.ltb_ge in El. intros [= <-] Hw Hf Hdet.
  assert (Hne' : Forall (fun f => is_empty f = false) (priority_files fs)).
  { rewrite Forall_forall in *. intros x Hx. apply Hne.
    now apply priority_files_In. }
  rewrite (load_loop_result read_head _ (priority_files_NoDup fs Hnd) Hne').
  unfold first_detail. rewrite Hw.
  pose proof (priority_files_length fs) as Hlen.
  destruct (priority_files fs) as [|a [|b rest]]; simpl in Hlen; try lia.
  injection Hf as ->. inversion Hne' as [|? ? Hf _]; subst.
  cbn [find negb]. rewrite Hdet. cbn [andb].
  unfold fall_back. cbn [weld_file detail_file is_set negb orb].
  rewrite Hf. cbn [negb]. split; reflexivity.
Qed.

Lemma one_file_in_both_roles_witness :
  weld_file (Loader (Some "data/detail_260130.xlsx")
               (Some "data/detail_260130.xlsx")) =
    Some "data/detail_260130.xlsx" /\
  detail_file (Loader (Some "data/detail_260130.xlsx")
                 (Some "data/detail_260130.xlsx")) =
    Some "data/detail_260130.xlsx".
Proof.
  apply (one_file_in_both_roles example_heads example_files_without_weld);
    try reflexivity.
  - replace example_files_without_weld
      with (nodup string_dec example_files_without_weld) by reflexivity.
    apply NoDup_nodup.
  - repeat constructor.
Defined.

(** Two tables whose headers [load_files] takes for a weld file and for
    a detail file go through [match_data] without an error, and the
    column search finds the weld-id column, at least two slot columns
    and the detail key column. *)
Theorem detected_files_match (weld detail : table) :
  detect_weld_file (columns weld) = true ->
  mem "MATNO" (map upper (columns detail)) = true ->
  rectangular weld ->
  exists rep,
    match_data weld detail = Ok rep /\
    weld_id_col rep <> None /\
    2 <= n_matno_columns rep /\
    detail_matno_col rep <> None.
Proof.
  intros Hw Hd Hrect.
  unfold detect_weld_file in Hw. apply andb_true_iff in Hw.
  destruct Hw as [Hid Hslots].
  apply Nat.leb_le in Hslots.
  assert (Hkey : exists dcol, find_detail_matno_col detail = Some dcol).
  { unfold find_detail_matno_col, mem in *.
    apply existsb_exists in Hd. destruct Hd as (u & Hu & Eu).
    apply String.eqb_eq in Eu. subst u.
    apply in_map_iff in Hu. destruct Hu as (c & Ec & Hc).
    destruct (find (fun col => String.eqb (upper col) "MATNO")
                (columns detail)) as [dcol|] eqn:F; [now exists dcol|].
    apply (find_none _ _ F) in Hc. cbv beta in Hc.
    rewrite Ec, String.eqb_refl in Hc. discriminate. }
  destruct Hkey as (dcol & Hkey).
  destruct (match_data_spec weld detail dcol Hrect Hkey)
    as (rep & E & Hidc & _).
  exists rep. split; [assumption|].
  unfold match_data in E.
  destruct (for_each (match_row weld detail) (rows weld) (MatchState [] 0 0))
    as [stf|e]; cbn [bind] in E; [|discriminate].
  injection E as <-. cbn [weld_id_col n_matno_columns detail_matno_col].
  split; [|split; [exact Hslots | rewrite Hkey; discriminate]].
  unfold find_weld_id_col.
  apply existsb_exists in Hid. destruct Hid as (c & Hc & Ec).
  destruct (find is_weld_id_col (columns weld)) eqn:F; [discriminate|].
  apply (find_none _ _ F) in Hc. congruence.
Qed.

Lemma detected_files_match_witness :
  exists rep,
    match_data weld_example detail_example = Ok rep /\
    weld_id_col rep <> None /\
    2 <= n_matno_columns rep /\
    detail_matno_col rep <> None.
Proof.
  apply (detected_files_match weld_example detail_example).
  - reflexivity.
  - reflexivity.
  - repeat constructor.
Defined.

End LoaderFacts.
